(** * CEF host bridge: the HTTP control plane of [tools/cef_host_bridge]

    A shallow embedding of [src/tools/cef_host_bridge/src/main.cpp]:
    the URL decoder and parameter parser, the mutex-guarded [SharedState],
    the request dispatcher inside [ServeHttp], the tasks posted to the CEF
    UI thread, and the [OnPaint] frame store.

    Conventions of the embedding.
    - [std::string] is [string]; a [char] and a [uint8_t] are both [ascii]
      (eight bits), so [static_cast<char>] on a byte is the identity.
    - [uint32_t], [uint64_t], [size_t], [int] and [long] values are [Z];
      every wrap-around is written out with [mod].  The target is LP64:
      [long] and [size_t] have 64 bits, [int] has 32.
    - [std::map<std::string, std::string>] is [gmap string string].
    - The mutex [mu] only serialises accesses; every critical section is
      one atomic state transformer here.
    - [CefPostTask] is the external task queue: whether it accepts a task
      is an input ([post_ok]) of the dispatcher. *)

From Stdlib Require Import ZArith Lia List Bool Ascii String.
From Stdlib Require Import DecimalString.
From Stdlib Require DecimalN.
From stdpp Require Import base gmap strings list.

Local Open Scope string_scope.
Local Open Scope Z_scope.

(** ** Characters *)

Definition char_code (c : ascii) : Z := Z.of_nat (nat_of_ascii c).

(** [static_cast<char>(v & 0xFF)] for a [long] that is already masked. *)
Definition char_of_code (v : Z) : ascii := ascii_of_nat (Z.to_nat v).

Definition NUL : ascii := "000"%char.
Definition LF : ascii := "010"%char.
Definition CR : ascii := "013"%char.
Definition TAB : ascii := "009"%char.
Definition DQ : ascii := "034"%char.
Definition SQ : ascii := "039"%char.
Definition BSL : ascii := "092"%char.

(** A one-character string. *)
Definition str1 (c : ascii) : string := String c EmptyString.

(** [std::isspace] in the C locale. *)
Definition isspace (c : ascii) : bool :=
  let n := char_code c in (n =? 32) || ((9 <=? n) && (n <=? 13)).

(** [std::tolower] in the C locale. *)
Definition tolower (c : ascii) : ascii :=
  let n := char_code c in
  if (65 <=? n) && (n <=? 90) then char_of_code (n + 32) else c.

Fixpoint ToLowerAscii (text : string) : string :=
  match text with
  | EmptyString => EmptyString
  | String c rest => String (tolower c) (ToLowerAscii rest)
  end.

(** ** [strtol]

    The C library function, for the bases the bridge uses (10 and 16):
    leading white space, an optional sign, for base 16 an optional [0x]
    prefix, then the longest run of digits.  The result is the value,
    clamped to the range of [long], and the text at [*end]; without any
    digit there is no conversion, the value is 0 and [end] is the start
    of the input. *)

Definition LONG_MAX : Z := 2 ^ 63 - 1.
Definition LONG_MIN : Z := - 2 ^ 63.
Definition INT32_MAX : Z := 2 ^ 31 - 1.
Definition INT32_MIN : Z := - 2 ^ 31.

(** [std::string::c_str] as C functions read it: up to the first NUL. *)
Fixpoint c_str (s : string) : string :=
  match s with
  | EmptyString => EmptyString
  | String c rest => if Ascii.eqb c NUL then EmptyString else String c (c_str rest)
  end.

Definition digit_val (c : ascii) : option Z :=
  let n := char_code c in
  if (48 <=? n) && (n <=? 57) then Some (n - 48)
  else if (97 <=? n) && (n <=? 122) then Some (n - 87)
  else if (65 <=? n) && (n <=? 90) then Some (n - 55)
  else None.

Definition is_digit (base : Z) (c : ascii) : bool :=
  match digit_val c with
  | Some d => d <? base
  | None => false
  end.

Fixpoint skip_space (s : string) : string :=
  match s with
  | String c rest => if isspace c then skip_space rest else s
  | EmptyString => s
  end.

Fixpoint scan_digits (base : Z) (s : string) (acc : Z) : Z * string :=
  match s with
  | String c rest =>
      match digit_val c with
      | Some d => if d <? base then scan_digits base rest (acc * base + d)
                  else (acc, s)
      | None => (acc, s)
      end
  | EmptyString => (acc, s)
  end.

Definition starts_with_digit (base : Z) (s : string) : bool :=
  match s with
  | String c _ => is_digit base c
  | EmptyString => false
  end.

Definition take_sign (s : string) : bool * string :=
  match s with
  | String c rest =>
      if Ascii.eqb c "-" then (true, rest)
      else if Ascii.eqb c "+" then (false, rest)
      else (false, s)
  | EmptyString => (false, s)
  end.

(** The [0x] prefix is part of the number only when a hex digit follows. *)
Definition skip_hex_prefix (base : Z) (s : string) : string :=
  match s with
  | String z (String x rest) =>
      if (base =? 16) && Ascii.eqb z "0"
         && (Ascii.eqb x "x" || Ascii.eqb x "X")
         && starts_with_digit 16 rest
      then rest else s
  | _ => s
  end.

Definition clamp_long (v : Z) : Z := Z.max LONG_MIN (Z.min LONG_MAX v).

Definition strtol (nptr : string) (base : Z) : Z * string :=
  let s1 := skip_space nptr in
  let '(neg, s2) := take_sign s1 in
  let s3 := skip_hex_prefix base s2 in
  if starts_with_digit base s3 then
    let '(v, rest) := scan_digits base s3 0 in
    (clamp_long (if neg then - v else v), rest)
  else (0, nptr).

(** ** Escaping *)

Fixpoint JsonEscape (s : string) : string :=
  match s with
  | EmptyString => EmptyString
  | String c rest =>
      (if Ascii.eqb c BSL then String BSL (str1 BSL)
       else if Ascii.eqb c DQ then String BSL (str1 DQ)
       else if Ascii.eqb c LF then String BSL "n"
       else if Ascii.eqb c CR then String BSL "r"
       else if Ascii.eqb c TAB then String BSL "t"
       else str1 c) +:+ JsonEscape rest
  end.

Fixpoint JsSingleQuoteEscape (s : string) : string :=
  match s with
  | EmptyString => EmptyString
  | String c rest =>
      (if Ascii.eqb c BSL then String BSL (str1 BSL)
       else if Ascii.eqb c SQ then String BSL (str1 SQ)
       else if Ascii.eqb c LF then String BSL "n"
       else if Ascii.eqb c CR then String BSL "r"
       else str1 c) +:+ JsSingleQuoteEscape rest
  end.

(** ** [UrlDecode] *)

(** [text[i]] for an index below [text.size()]. *)
Definition char_at (text : string) (i : nat) : ascii :=
  match String.get i text with
  | Some c => c
  | None => NUL
  end.

(** The loop [for (size_t i = 0; i < text.size(); ++i)] from index [i] on,
    with the output [out] built so far.  [*end == 0] holds when [strtol]
    stopped at the end of the C string of [hex]. *)
Fixpoint UrlDecode_loop (fuel : nat) (text : string) (i : nat) (out : string)
  : string :=
  match fuel with
  | O => out
  | S fuel' =>
      if (i <? String.length text)%nat then
        if Ascii.eqb (char_at text i) "+" then
          UrlDecode_loop fuel' text (i + 1) (out +:+ str1 " ")
        else if Ascii.eqb (char_at text i) "%"
                && (i + 2 <? String.length text)%nat then
          let hex := String.substring (i + 1) 2 text in
          let '(v, end_) := strtol (c_str hex) 16 in
          if String.eqb end_ EmptyString then
            UrlDecode_loop fuel' text (i + 2 + 1)
              (out +:+ str1 (char_of_code (Z.land v 255)))
          else UrlDecode_loop fuel' text (i + 1) (out +:+ str1 (char_at text i))
        else UrlDecode_loop fuel' text (i + 1) (out +:+ str1 (char_at text i))
      else out
  end.

(** Every turn moves [i] forward, so [text.size()] turns are enough. *)
Definition UrlDecode (text : string) : string :=
  UrlDecode_loop (String.length text) text 0 EmptyString.

(** ** [ParseUrlEncoded] *)

(** The segments that repeated [std::getline(ss, pair, d)] yields: the text
    split at [d]; after a final delimiter nothing more is read. *)
Fixpoint getlines (d : ascii) (s : string) : list string :=
  match s with
  | EmptyString => []
  | String c rest =>
      if Ascii.eqb c d then EmptyString :: getlines d rest
      else match getlines d rest with
           | [] => [str1 c]
           | l :: ls => String c l :: ls
           end
  end.

(** [pair.find(c)] together with the two [substr] calls around it. *)
Fixpoint split_first (c : ascii) (s : string) : option (string * string) :=
  match s with
  | EmptyString => None
  | String a rest =>
      if Ascii.eqb a c then Some (EmptyString, rest)
      else match split_first c rest with
           | Some (l, r) => Some (String a l, r)
           | None => None
           end
  end.

(** One turn of the [while] loop on an extracted [pair]. *)
Definition add_pair (out : gmap string string) (pair : string)
  : gmap string string :=
  if String.eqb pair EmptyString then out
  else match split_first "=" pair with
       | None => <[UrlDecode pair := EmptyString]> out
       | Some (k, v) => <[UrlDecode k := UrlDecode v]> out
       end.

Definition ParseUrlEncoded (text : string) : gmap string string :=
  fold_left add_pair (getlines "&" text) ∅.

(** ** [ParseIntDefault] *)

Definition ParseIntDefault (text : string) (fallback : Z) : Z :=
  if String.eqb text EmptyString then fallback
  else
    let '(value, end_) := strtol (c_str text) 10 in
    if negb (String.eqb end_ EmptyString) then fallback
    else if (value <? INT32_MIN) || (value >? INT32_MAX) then fallback
    else value.

(** ** Requests *)

Record HttpRequest := mkReq {
  method : string;
  path : string;
  query : gmap string string;
  headers : gmap string string;
  form : gmap string string;
  body : string
}.

Definition GetParam (req : HttpRequest) (key : string) : string :=
  match query req !! key with
  | Some v => v
  | None =>
      match form req !! key with
      | Some v => v
      | None => EmptyString
      end
  end.

(** ** [SharedState] *)

Record SharedState := mkState {
  running : bool;
  bind_addr : string;
  current_url : string;
  title : string;
  last_error : string;
  last_ipc : string;
  open_requests : Z;
  eval_requests : Z;
  input_requests : Z;
  frame_capture : bool;
  frame_width : Z;
  frame_height : Z;
  frame_seq : Z;
  frame_bgra : list ascii
}.

Definition U32 : Z := 2 ^ 32.
Definition U64 : Z := 2 ^ 64.

(** [static_cast<uint32_t>] and arithmetic in [uint64_t] / [size_t]. *)
Definition to_u32 (v : Z) : Z := v mod U32.
Definition to_u64 (v : Z) : Z := v mod U64.
(** [static_cast<int>] of an unsigned value. *)
Definition to_int (v : Z) : Z :=
  let w := v mod U32 in if w <? 2 ^ 31 then w else w - U32.

(** The default member initialisers of [struct SharedState]. *)
Definition SharedState_default : SharedState :=
  {| running := true; bind_addr := ""; current_url := ""; title := "";
     last_error := ""; last_ipc := "";
     open_requests := 0; eval_requests := 0; input_requests := 0;
     frame_capture := false; frame_width := 0; frame_height := 0;
     frame_seq := 0; frame_bgra := [] |}.

Definition SetError (st : SharedState) (err : string) : SharedState :=
  {| running := running st; bind_addr := bind_addr st;
     current_url := current_url st; title := title st;
     last_error := err; last_ipc := last_ipc st;
     open_requests := open_requests st; eval_requests := eval_requests st;
     input_requests := input_requests st;
     frame_capture := frame_capture st; frame_width := frame_width st;
     frame_height := frame_height st; frame_seq := frame_seq st;
     frame_bgra := frame_bgra st |}.

Definition SetRunning (st : SharedState) (r : bool) : SharedState :=
  {| running := r; bind_addr := bind_addr st;
     current_url := current_url st; title := title st;
     last_error := last_error st; last_ipc := last_ipc st;
     open_requests := open_requests st; eval_requests := eval_requests st;
     input_requests := input_requests st;
     frame_capture := frame_capture st; frame_width := frame_width st;
     frame_height := frame_height st; frame_seq := frame_seq st;
     frame_bgra := frame_bgra st |}.

Definition IsRunning (st : SharedState) : bool := running st.

Definition SetCurrentUrl (st : SharedState) (url : string) : SharedState :=
  {| running := running st; bind_addr := bind_addr st;
     current_url := url; title := title st;
     last_error := last_error st; last_ipc := last_ipc st;
     open_requests := open_requests st; eval_requests := eval_requests st;
     input_requests := input_requests st;
     frame_capture := frame_capture st; frame_width := frame_width st;
     frame_height := frame_height st; frame_seq := frame_seq st;
     frame_bgra := frame_bgra st |}.

Definition SetTitle (st : SharedState) (t : string) : SharedState :=
  {| running := running st; bind_addr := bind_addr st;
     current_url := current_url st; title := t;
     last_error := last_error st; last_ipc := last_ipc st;
     open_requests := open_requests st; eval_requests := eval_requests st;
     input_requests := input_requests st;
     frame_capture := frame_capture st; frame_width := frame_width st;
     frame_height := frame_height st; frame_seq := frame_seq st;
     frame_bgra := frame_bgra st |}.

Definition SetIpc (st : SharedState) (ipc : string) : SharedState :=
  {| running := running st; bind_addr := bind_addr st;
     current_url := current_url st; title := title st;
     last_error := last_error st; last_ipc := ipc;
     open_requests := open_requests st; eval_requests := eval_requests st;
     input_requests := input_requests st;
     frame_capture := frame_capture st; frame_width := frame_width st;
     frame_height := frame_height st; frame_seq := frame_seq st;
     frame_bgra := frame_bgra st |}.

(** [state->open_requests++] and its two siblings, under the lock. *)
Definition inc_open (st : SharedState) : SharedState :=
  {| running := running st; bind_addr := bind_addr st;
     current_url := current_url st; title := title st;
     last_error := last_error st; last_ipc := last_ipc st;
     open_requests := to_u64 (open_requests st + 1);
     eval_requests := eval_requests st;
     input_requests := input_requests st;
     frame_capture := frame_capture st; frame_width := frame_width st;
     frame_height := frame_height st; frame_seq := frame_seq st;
     frame_bgra := frame_bgra st |}.

Definition inc_eval (st : SharedState) : SharedState :=
  {| running := running st; bind_addr := bind_addr st;
     current_url := current_url st; title := title st;
     last_error := last_error st; last_ipc := last_ipc st;
     open_requests := open_requests st;
     eval_requests := to_u64 (eval_requests st + 1);
     input_requests := input_requests st;
     frame_capture := frame_capture st; frame_width := frame_width st;
     frame_height := frame_height st; frame_seq := frame_seq st;
     frame_bgra := frame_bgra st |}.

Definition inc_input (st : SharedState) : SharedState :=
  {| running := running st; bind_addr := bind_addr st;
     current_url := current_url st; title := title st;
     last_error := last_error st; last_ipc := last_ipc st;
     open_requests := open_requests st;
     eval_requests := eval_requests st;
     input_requests := to_u64 (input_requests st + 1);
     frame_capture := frame_capture st; frame_width := frame_width st;
     frame_height := frame_height st; frame_seq := frame_seq st;
     frame_bgra := frame_bgra st |}.

(** ** Tasks posted to the UI thread *)

Inductive NativeInputKind := MouseClick | MouseScroll.

Inductive Task :=
| OpenUrlTask (url : string)
| EvalTask (js : string)
| NativeInputTask (kind : NativeInputKind) (x y delta : Z)
| QuitTask.

(** [Execute] of each task.  [browser_ready] is the outcome of the test
    [browser && browser->GetMainFrame()] (or [GetHost()]); the calls into
    the engine itself leave [SharedState] alone. *)
Definition Execute (t : Task) (browser_ready : bool) (st : SharedState)
  : SharedState :=
  match t with
  | OpenUrlTask url =>
      if negb browser_ready then SetError st "open failed: browser not ready"
      else SetCurrentUrl st url
  | EvalTask _ =>
      if negb browser_ready then SetError st "eval failed: browser not ready"
      else st
  | NativeInputTask _ _ _ _ =>
      if negb browser_ready then SetError st "input failed: browser not ready"
      else st
  | QuitTask => SetRunning st false
  end.

(** ** Text of the responses *)

(** [operator<<] on an unsigned integer. *)
Definition dec (n : Z) : string :=
  NilEmpty.string_of_uint (N.to_uint (Z.to_N n)).

(** The text [s] between two double quotes. *)
Definition quoted (s : string) : string := String DQ (s +:+ str1 DQ).

Definition bool_text (b : bool) : string := if b then "true" else "false".

Definition BuildStatusJson (st : SharedState) : string :=
  "{" +:+
  quoted "ok" +:+ ":true," +:+
  quoted "backend" +:+ ":" +:+ quoted "cef" +:+ "," +:+
  quoted "mode" +:+ ":" +:+ quoted "host-http-bridge" +:+ "," +:+
  quoted "running" +:+ ":" +:+ bool_text (running st) +:+ "," +:+
  quoted "bind_addr" +:+ ":" +:+ quoted (JsonEscape (bind_addr st)) +:+ "," +:+
  quoted "current_url" +:+ ":" +:+ quoted (JsonEscape (current_url st)) +:+ "," +:+
  quoted "title" +:+ ":" +:+ quoted (JsonEscape (title st)) +:+ "," +:+
  quoted "open_requests" +:+ ":" +:+ dec (open_requests st) +:+ "," +:+
  quoted "eval_requests" +:+ ":" +:+ dec (eval_requests st) +:+ "," +:+
  quoted "input_requests" +:+ ":" +:+ dec (input_requests st) +:+ "," +:+
  quoted "frame_capture" +:+ ":" +:+ bool_text (frame_capture st) +:+ "," +:+
  quoted "frame_width" +:+ ":" +:+ dec (frame_width st) +:+ "," +:+
  quoted "frame_height" +:+ ":" +:+ dec (frame_height st) +:+ "," +:+
  quoted "frame_seq" +:+ ":" +:+ dec (frame_seq st) +:+ "," +:+
  quoted "last_error" +:+ ":" +:+ quoted (JsonEscape (last_error st)) +:+ "," +:+
  quoted "last_ipc" +:+ ":" +:+ quoted (JsonEscape (last_ipc st)) +:+
  "}".

(** The body [{ok:false, error:msg}], with its keys and text quoted. *)
Definition json_error (msg : string) : string :=
  "{" +:+ quoted "ok" +:+ ":false," +:+ quoted "error" +:+ ":" +:+
  quoted msg +:+ "}".

(** The body [{ok:true, queued:what}]. *)
Definition json_queued (what : string) : string :=
  "{" +:+ quoted "ok" +:+ ":true," +:+ quoted "queued" +:+ ":" +:+
  quoted what +:+ "}".

(** The body [{ok:true, queued:open, url:escaped-url}]. *)
Definition json_open (url : string) : string :=
  "{" +:+ quoted "ok" +:+ ":true," +:+ quoted "queued" +:+ ":" +:+
  quoted "open" +:+ "," +:+ quoted "url" +:+ ":" +:+
  quoted (JsonEscape url) +:+ "}".

Definition routes_text : string :=
  "routes: /status /open?url= /eval?js= /input?type=... /frame /quit"
  +:+ str1 LF.

(** What [SendHttpResponse] is called with. *)
Record Response := mkResp {
  status : Z;
  content_type : string;
  resp_body : string
}.

Definition json_resp (code : Z) (b : string) : Response :=
  mkResp code "application/json" b.

(** ** [BuildInputScript] *)

Definition BuildInputScript (req : HttpRequest) : string :=
  let type := ToLowerAscii (GetParam req "type") in
  if String.eqb type "text" then
    let text := GetParam req "text" in
    "(()=>{const t='" +:+ JsSingleQuoteEscape text +:+
    "';const el=document.activeElement;if(el&&('value' in el)){el.value+=t;el.dispatchEvent(new Event('input',{bubbles:true}));}else{document.body.append(t);}})();"
  else if String.eqb type "key" then
    let key := GetParam req "key" in
    let key := if String.eqb key EmptyString then "Enter" else key in
    "(()=>{const k='" +:+ JsSingleQuoteEscape key +:+
    "';document.dispatchEvent(new KeyboardEvent('keydown',{key:k,bubbles:true}));document.dispatchEvent(new KeyboardEvent('keyup',{key:k,bubbles:true}));})();"
  else if String.eqb type "back" then "(()=>{history.back();})();"
  else if String.eqb type "forward" then "(()=>{history.forward();})();"
  else if String.eqb type "reload" then "(()=>{location.reload();})();"
  else EmptyString.

(** ** The frame encoder of the [/frame] route *)

Definition ppm_header (width height : Z) : string :=
  "P6" +:+ str1 LF +:+ dec width +:+ " " +:+ dec height +:+ str1 LF +:+
  "255" +:+ str1 LF.

(** [bgra[k]]; the caller has checked the size. *)
Definition at_index (bgra : list ascii) (k : Z) : ascii :=
  nth (Z.to_nat k) bgra NUL.

(** The loop [for (size_t i = 0; i < expected; i += 4)], started at [i]
    with the text [body] built so far. *)
Fixpoint frame_loop (fuel : nat) (bgra : list ascii) (expected i : Z)
    (body : string) : string :=
  match fuel with
  | O => body
  | S fuel' =>
      if i <? expected then
        let r := at_index bgra (i + 2) in
        let g := at_index bgra (i + 1) in
        let b := at_index bgra (i + 0) in
        frame_loop fuel' bgra expected (to_u64 (i + 4))
          (body +:+ String r (String g (str1 b)))
      else body
  end.

(** [size_t(width) * size_t(height) * 4u] *)
Definition frame_bytes (width height : Z) : Z :=
  to_u64 (to_u64 (to_u64 width * to_u64 height) * 4).

Definition vec_size (v : list ascii) : Z := Z.of_nat (length v).

Definition HandleFrame (st : SharedState) : Response :=
  let width := frame_width st in
  let height := frame_height st in
  let bgra := frame_bgra st in
  let expected := frame_bytes width height in
  if (width =? 0) || (height =? 0) || (vec_size bgra <? expected) then
    json_resp 503 (json_error "no frame yet (wait for OnPaint)")
  else
    mkResp 200 "image/x-portable-pixmap"
      (frame_loop (Z.to_nat expected) bgra expected 0
         (ppm_header width height)).

(** ** The dispatcher: the body of the accept loop of [ServeHttp]

    [HandleRequest st req post_ok] is what the loop does with a parsed
    request: the new state, the response handed to [SendHttpResponse], and
    the task handed to [CefPostTask] if the branch makes that call.
    [post_ok] is the value [CefPostTask] returns. *)

(** The [/open] branch. *)
Definition HandleOpen (st : SharedState) (req : HttpRequest)
    (post_ok : bool) : SharedState * Response * option Task :=
  let url := GetParam req "url" in
  if String.eqb url EmptyString then
    (st, json_resp 400 (json_error "missing url"), None)
  else
    let st := inc_open st in
    if negb post_ok then
      (SetError st "open failed: CefPostTask error",
       json_resp 500 (json_error "post task failed"),
       Some (OpenUrlTask url))
    else (st, json_resp 200 (json_open url), Some (OpenUrlTask url)).

(** The [/eval] branch. *)
Definition HandleEval (st : SharedState) (req : HttpRequest)
    (post_ok : bool) : SharedState * Response * option Task :=
  let js := GetParam req "js" in
  if String.eqb js EmptyString then
    (st, json_resp 400 (json_error "missing js"), None)
  else
    let st := inc_eval st in
    if negb post_ok then
      (SetError st "eval failed: CefPostTask error",
       json_resp 500 (json_error "post task failed"),
       Some (EvalTask js))
    else (st, json_resp 200 (json_queued "eval"), Some (EvalTask js)).

(** The [/input] branch. *)
Definition HandleInput (st : SharedState) (req : HttpRequest)
    (post_ok : bool) : SharedState * Response * option Task :=
  let input_type := ToLowerAscii (GetParam req "type") in
  if String.eqb input_type EmptyString then
    (st, json_resp 400 (json_error "input type invalid"), None)
  else
    let st := inc_input st in
    if String.eqb input_type "click" then
      let x := ParseIntDefault (GetParam req "x") (-1) in
      let y := ParseIntDefault (GetParam req "y") (-1) in
      if (x <? 0) || (y <? 0) then
        (st, json_resp 400 (json_error "click requires x and y"), None)
      else if negb post_ok then
        (SetError st "input click failed: CefPostTask error",
         json_resp 500 (json_error "post task failed"),
         Some (NativeInputTask MouseClick x y 0))
      else
        (st, json_resp 200 (json_queued "click"),
         Some (NativeInputTask MouseClick x y 0))
    else if String.eqb input_type "scroll" then
      let x := ParseIntDefault (GetParam req "x") (-1) in
      let y := ParseIntDefault (GetParam req "y") (-1) in
      let delta := ParseIntDefault (GetParam req "delta") 120 in
      let x := if x <? 0 then to_int (frame_width st / 2) else x in
      let y := if y <? 0 then to_int (frame_height st / 2) else y in
      if negb post_ok then
        (SetError st "input scroll failed: CefPostTask error",
         json_resp 500 (json_error "post task failed"),
         Some (NativeInputTask MouseScroll x y delta))
      else
        (st, json_resp 200 (json_queued "scroll"),
         Some (NativeInputTask MouseScroll x y delta))
    else
      let js := BuildInputScript req in
      if String.eqb js EmptyString then
        (st, json_resp 400 (json_error "input type invalid"), None)
      else if negb post_ok then
        (SetError st "input failed: CefPostTask error",
         json_resp 500 (json_error "post task failed"),
         Some (EvalTask js))
      else (st, json_resp 200 (json_queued "input"), Some (EvalTask js)).

(** The [/quit] branch: the value of [CefPostTask] is not looked at. *)
Definition HandleQuit (st : SharedState) (post_ok : bool)
  : SharedState * Response * option Task :=
  (st, json_resp 200 (json_queued "quit"), Some QuitTask).

Definition HandleRequest (st : SharedState) (req : HttpRequest)
    (post_ok : bool) : SharedState * Response * option Task :=
  if String.eqb (path req) "/status" then
    (st, json_resp 200 (BuildStatusJson st), None)
  else if String.eqb (path req) "/open" then HandleOpen st req post_ok
  else if String.eqb (path req) "/eval" then HandleEval st req post_ok
  else if String.eqb (path req) "/input" then HandleInput st req post_ok
  else if String.eqb (path req) "/frame" then (st, HandleFrame st, None)
  else if String.eqb (path req) "/quit" then HandleQuit st post_ok
  else (st, mkResp 404 "text/plain" routes_text, None).

(** ** [ReduxBrowserClient]: the callbacks that write the state *)

Inductive PaintElementType := PET_VIEW | PET_POPUP.

(** [buffer] is a pointer: [None] is [nullptr], [Some src] gives the byte
    at [src + k] for every offset [k].  [assign(src, src + bytes)] copies
    the first [bytes] of them. *)
Definition OnPaint (st : SharedState) (type : PaintElementType)
    (buffer : option (nat -> ascii)) (width height : Z) : SharedState :=
  match type, buffer with
  | PET_VIEW, Some src =>
      if (width <=? 0) || (height <=? 0) then st
      else
        let bytes := frame_bytes width height in
        {| running := running st; bind_addr := bind_addr st;
           current_url := current_url st; title := title st;
           last_error := last_error st; last_ipc := last_ipc st;
           open_requests := open_requests st;
           eval_requests := eval_requests st;
           input_requests := input_requests st;
           frame_capture := true;
           frame_width := to_u32 width;
           frame_height := to_u32 height;
           frame_seq := to_u64 (frame_seq st + 1);
           frame_bgra := map src (seq 0 (Z.to_nat bytes)) |}
  | _, _ => st
  end.

Definition OnTitleChange (st : SharedState) (t : string) : SharedState :=
  SetTitle st t.

Definition OnBeforeClose (st : SharedState) : SharedState :=
  SetRunning st false.

(** The bytes of a list seen through a pointer to its first element. *)
Definition mem_of_list (l : list ascii) : nat -> ascii :=
  fun k => nth k l NUL.

(** ** [ParseArgs] and the start of [main] *)

Record Args := mkArgs {
  arg_bind_addr : string;
  start_url : string;
  view_width : Z;
  view_height : Z
}.

Definition Args_default : Args :=
  mkArgs "127.0.0.1:37820" "https://www.google.com" 1024 640.

(** [cur.rfind(s, 0) == 0]: [cur] starts with [s]. *)
Definition starts_with (s cur : string) : bool := String.prefix s cur.

(** [!cur.empty() && cur.rfind("--", 0) != 0]: a bare word is the URL. *)
Definition positional (cur : string) (args : Args) : Args :=
  if negb (String.eqb cur EmptyString) && negb (starts_with "--" cur)
  then mkArgs (arg_bind_addr args) cur (view_width args) (view_height args)
  else args.

(** The loop over [argv[1..]]; [i + 1 < argc] says a next word exists. *)
Fixpoint ParseArgs_loop (argv : list string) (args : Args) : Args :=
  match argv with
  | [] => args
  | cur :: rest =>
      match rest with
      | next :: rest' =>
          if String.eqb cur "--bind" then
            ParseArgs_loop rest'
              (mkArgs next (start_url args) (view_width args) (view_height args))
          else if String.eqb cur "--url" then
            ParseArgs_loop rest'
              (mkArgs (arg_bind_addr args) next (view_width args) (view_height args))
          else if String.eqb cur "--width" then
            ParseArgs_loop rest'
              (mkArgs (arg_bind_addr args) (start_url args)
                 (ParseIntDefault next (view_width args)) (view_height args))
          else if String.eqb cur "--height" then
            ParseArgs_loop rest'
              (mkArgs (arg_bind_addr args) (start_url args)
                 (view_width args) (ParseIntDefault next (view_height args)))
          else ParseArgs_loop rest (positional cur args)
      | [] => ParseArgs_loop rest (positional cur args)
      end
  end.

(** [argv] here is the command line without the program name. *)
Definition ParseArgs (argv : list string) : Args :=
  let args := ParseArgs_loop argv Args_default in
  mkArgs (arg_bind_addr args) (start_url args)
    (Z.max 320 (view_width args)) (Z.max 200 (view_height args)).

(** The [SharedState] that [main] builds before it starts the listener. *)
Definition main_state (args : Args) : SharedState :=
  {| running := true;
     bind_addr := arg_bind_addr args;
     current_url := start_url args;
     title := "ReduxOS CEF Host Bridge (OSR)";
     last_error := ""; last_ipc := "";
     open_requests := 0; eval_requests := 0; input_requests := 0;
     frame_capture := false;
     frame_width := to_u32 (view_width args);
     frame_height := to_u32 (view_height args);
     frame_seq := 0;
     frame_bgra := [] |}.

(** ** The two threads as one transition system

    The listener thread and the UI thread meet only in [SharedState] (one
    lock, no nesting) and in the task queue, so a run of the bridge is a
    sequence of atomic events.  A request may still be served after the
    running flag went down (the flag is read once per turn of the accept
    loop), so requests are not tied to the flag here, and a task may run
    at any time after it was accepted: [step] allows at least every
    interleaving the program has. *)

Definition state_of (r : SharedState * Response * option Task) : SharedState :=
  fst (fst r).
Definition resp_of (r : SharedState * Response * option Task) : Response :=
  snd (fst r).
Definition posted_of (r : SharedState * Response * option Task) : option Task :=
  snd r.

Record World := mkWorld {
  shared : SharedState;
  ui_queue : list Task
}.

(** The external queue: it takes the task or rejects it. *)
Definition CefPostTask (post_ok : bool) (t : Task) (q : list Task) : list Task :=
  if post_ok then q ++ [t] else q.

(** The ways [ServeHttp] gives up before its loop. *)
Inductive StartupFailure :=
| WSAStartupFailed | BadBindAddr | SocketFailed
| BadBindHost | BindFailed | ListenFailed.

Definition startup_error (f : StartupFailure) : string :=
  match f with
  | WSAStartupFailed => "WSAStartup failed"
  | BadBindAddr => "invalid bind addr (expected host:port)"
  | SocketFailed => "socket() failed"
  | BadBindHost => "invalid bind host (IPv4 required)"
  | BindFailed => "bind() failed"
  | ListenFailed => "listen() failed"
  end.

Inductive Event :=
| EvRequest (req : HttpRequest) (post_ok : bool)
| EvStartupFailure (f : StartupFailure)
| EvRunTask (browser_ready : bool)
| EvPaint (type : PaintElementType) (buffer : option (nat -> ascii))
    (width height : Z)
| EvTitleChange (t : string)
| EvBeforeClose
| EvLoopExit.

Definition step (w : World) (e : Event) : World :=
  match e with
  | EvRequest req post_ok =>
      let r := HandleRequest (shared w) req post_ok in
      mkWorld (state_of r)
        (match posted_of r with
         | Some t => CefPostTask post_ok t (ui_queue w)
         | None => ui_queue w
         end)
  | EvStartupFailure f =>
      mkWorld (SetError (shared w) (startup_error f)) (ui_queue w)
  | EvRunTask browser_ready =>
      match ui_queue w with
      | [] => w
      | t :: q => mkWorld (Execute t browser_ready (shared w)) q
      end
  | EvPaint type buffer width height =>
      mkWorld (OnPaint (shared w) type buffer width height) (ui_queue w)
  | EvTitleChange t => mkWorld (OnTitleChange (shared w) t) (ui_queue w)
  | EvBeforeClose => mkWorld (OnBeforeClose (shared w)) (ui_queue w)
  | EvLoopExit => mkWorld (SetRunning (shared w) false) (ui_queue w)
  end.

Definition run (w : World) (tr : list Event) : World := fold_left step tr w.

Definition init_world (argv : list string) : World :=
  mkWorld (main_state (ParseArgs argv)) [].

(** The arguments of [OnPaint] are of type [int]. *)
Definition int_range (v : Z) : Prop := INT32_MIN <= v <= INT32_MAX.

Definition wf_event (e : Event) : Prop :=
  match e with
  | EvPaint _ _ width height => int_range width /\ int_range height
  | _ => True
  end.

Definition is_paint (e : Event) : bool :=
  match e with
  | EvPaint _ _ _ _ => true
  | _ => false
  end.

Inductive reachable : World -> Prop :=
| reach_init (argv : list string) : reachable (init_world argv)
| reach_step (w : World) (e : Event) :
    reachable w -> wf_event e -> reachable (step w e).

(** A missing parameter: in neither map. *)
Definition absent (req : HttpRequest) (key : string) : Prop :=
  query req !! key = None /\ form req !! key = None.

(** ** Predicates, effects and inputs of the statements *)

(** The dispatcher bumps at most one counter... *)
Inductive counter_bump (st : SharedState) : SharedState -> Prop :=
| bump_none : counter_bump st st
| bump_open : counter_bump st (inc_open st)
| bump_eval : counter_bump st (inc_eval st)
| bump_input : counter_bump st (inc_input st).

(** ... and then may record an error. *)
Inductive dispatch_effect (st : SharedState) : SharedState -> Prop :=
| eff_bump st1 : counter_bump st st1 -> dispatch_effect st st1
| eff_error st1 err : counter_bump st st1 -> dispatch_effect st (SetError st1 err).

Create HintDb bridge.
#[local] Hint Constructors counter_bump dispatch_effect : bridge.

Ltac split_state_ifs :=
  repeat match goal with
         | |- context [state_of (if ?b then _ else _)] => destruct b
         end.

(** One event changes the monotone part of the state by at most one tick. *)
Definition tick (c c' : Z) : Prop := c' = c \/ c' = to_u64 (c + 1).

Record small_change (s s' : SharedState) : Prop := {
  sc_running : running s = false -> running s' = false;
  sc_open : tick (open_requests s) (open_requests s');
  sc_eval : tick (eval_requests s) (eval_requests s');
  sc_input : tick (input_requests s) (input_requests s');
  sc_seq : tick (frame_seq s) (frame_seq s')
}.

(** What every reachable state satisfies: the dimensions are positive
    [int]s, and the buffer is empty before the first accepted paint
    callback and exactly one frame long after it. *)
Definition frame_inv (st : SharedState) : Prop :=
  0 < frame_width st <= INT32_MAX /\
  0 < frame_height st <= INT32_MAX /\
  (if frame_capture st
   then vec_size (frame_bgra st) = frame_width st * frame_height st * 4
   else frame_bgra st = []).

(** Pixel [i] of the answer: red, green, blue out of B, G, R, A. *)
Definition pixel (bgra : list ascii) (i : nat) : list ascii :=
  [ at_index bgra (4 * Z.of_nat i + 2);
    at_index bgra (4 * Z.of_nat i + 1);
    at_index bgra (4 * Z.of_nat i) ].

(** Pixels [k], [k+1], ..., [k+m-1] as text. *)
Definition pixels (bgra : list ascii) (k m : nat) : string :=
  string_of_list_ascii (flat_map (pixel bgra) (seq k m)).

(** The frame invariant as the specification words it. *)
Definition capture_inv (st : SharedState) : Prop :=
  frame_capture st = true ->
  frame_width st * frame_height st * 4 <= vec_size (frame_bgra st).

(** Every 64-bit counter is at most [n]. *)
Definition bounded (n : Z) (st : SharedState) : Prop :=
  0 <= open_requests st <= n /\ 0 <= eval_requests st <= n /\
  0 <= input_requests st <= n /\ 0 <= frame_seq st <= n.

(** From [s] to [s']: a lowered flag stays down, nothing counts down. *)
Definition never_back (s s' : SharedState) : Prop :=
  (running s = false -> running s' = false) /\
  open_requests s <= open_requests s' /\
  eval_requests s <= eval_requests s' /\
  input_requests s <= input_requests s' /\
  frame_seq s <= frame_seq s'.

(** The texts the dispatcher records when a post is rejected. *)
Definition post_errors : list string :=
  [ "open failed: CefPostTask error";
    "eval failed: CefPostTask error";
    "input click failed: CefPostTask error";
    "input scroll failed: CefPostTask error";
    "input failed: CefPostTask error" ].

Ltac split_posted_ifs H :=
  repeat match type of H with
         | context [posted_of (if ?b then _ else _)] => destruct b eqn:?
         end.

(** A [GET /quit]. *)
Definition quit_request : HttpRequest := mkReq "get" "/quit" ∅ ∅ ∅ "".

(** The types [/input] knows. *)
Definition known_input_types : list string :=
  ["click"; "scroll"; "text"; "key"; "back"; "forward"; "reload"].

(** A [GET /input] without any parameter. *)
Definition bare_input_request : HttpRequest := mkReq "get" "/input" ∅ ∅ ∅ "".

(** A parameter that is there with the empty value. *)
Definition present_empty (req : HttpRequest) (key : string) : Prop :=
  query req !! key = Some "" \/
  (query req !! key = None /\ form req !! key = Some "").

(** [UrlDecode] by recursion on the text still to read: the head is
    [text[i]], [i + 2 < text.size()] says that two more characters follow,
    and [i += 2] drops them ([UrlDecode_rec_eq] below). *)
Fixpoint UrlDecode_rec (text : string) : string :=
  match text with
  | EmptyString => EmptyString
  | String c rest =>
      if Ascii.eqb c "+" then String " " (UrlDecode_rec rest)
      else
        match rest with
        | String h1 (String h2 rest2) =>
            if Ascii.eqb c "%" then
              let hex := String h1 (str1 h2) in
              let '(v, end_) := strtol (c_str hex) 16 in
              if String.eqb end_ EmptyString
              then String (char_of_code (Z.land v 255)) (UrlDecode_rec rest2)
              else String c (UrlDecode_rec rest)
            else String c (UrlDecode_rec rest)
        | _ => String c (UrlDecode_rec rest)
        end
  end.

(** What [UrlDecode] makes of the two characters after a [%]: the byte, or
    [None] when [strtol] did not read them both. *)
Definition decode_pair (x y : ascii) : option ascii :=
  let '(v, end_) := strtol (c_str (String x (str1 y))) 16 in
  if String.eqb end_ "" then Some (char_of_code (Z.land v 255)) else None.

Definition hex_digits : list ascii :=
  list_ascii_of_string "0123456789abcdefABCDEF".

Definition is_hex (c : ascii) : bool := is_digit 16 c.

Definition hex_val (c : ascii) : Z :=
  match digit_val c with
  | Some d => d
  | None => 0
  end.

(** Requests as [ParseHttpRequest] leaves them: the method in lower case,
    the query string through [ParseUrlEncoded]. *)
Definition frame_request : HttpRequest := mkReq "get" "/frame" ∅ ∅ ∅ "".

Definition open_request : HttpRequest :=
  mkReq "get" "/open" (ParseUrlEncoded "url=http://x") ∅ ∅ "".

Definition empty_url_request : HttpRequest :=
  mkReq "get" "/open" (ParseUrlEncoded "url=") ∅ ∅ "".

Definition no_url_request : HttpRequest := mkReq "get" "/open" ∅ ∅ ∅ "".

Definition eval_request_no_js : HttpRequest := mkReq "post" "/eval" ∅ ∅ ∅ "".

Definition scroll_request : HttpRequest :=
  mkReq "get" "/input" (ParseUrlEncoded "type=Scroll") ∅ ∅ "".

Definition bogus_input_request : HttpRequest :=
  mkReq "get" "/input" (ParseUrlEncoded "type=bogus") ∅ ∅ "".

(** A paint callback of two pixels in one row. *)
Definition paint_2x1 : Event :=
  EvPaint PET_VIEW (Some (mem_of_list (list_ascii_of_string "BGRAbgra"))) 2 1.

Definition world_2x1 : World := step (init_world []) paint_2x1.

(** Requests and a task, but no paint callback yet. *)
Definition trace_no_paint : list Event :=
  [EvRequest open_request true; EvRunTask true; EvTitleChange "x"].

Definition trace_before : list Event :=
  [EvRequest open_request true; paint_2x1; EvRequest quit_request true;
   EvRunTask true; EvRunTask true].
Definition trace_after : list Event :=
  [EvRequest open_request false; EvTitleChange "late"; EvLoopExit].

(** ** The rest of the bridge: address, request text, one connection *)

(** [s.rfind(c)] with the two [substr] calls around it: the text before
    and after the last [c]. *)
Fixpoint split_last (c : ascii) (s : string) : option (string * string) :=
  match s with
  | EmptyString => None
  | String a rest =>
      match split_last c rest with
      | Some (l, r) => Some (String a l, r)
      | None => if Ascii.eqb a c then Some (EmptyString, rest) else None
      end
  end.

(** [colon == 0] is an empty host, [colon + 1 >= size()] an empty port. *)
Definition ParseBindAddr (bind_addr : string) : option (string * Z) :=
  match split_last ":" bind_addr with
  | None => None
  | Some (host, port_str) =>
      if String.eqb host EmptyString || String.eqb port_str EmptyString
      then None
      else
        let '(port, end_) := strtol (c_str port_str) 10 in
        if negb (String.eqb end_ EmptyString) || (port <=? 0) || (port >? 65535)
        then None
        else Some (host, port mod 2 ^ 16)
  end.

Definition CRLFCRLF : string := String CR (String LF (String CR (str1 LF))).

(** [s.substr(n)] *)
Fixpoint drop (n : nat) (s : string) : string :=
  match n, s with
  | O, _ => s
  | S n', String _ rest => drop n' rest
  | S _, EmptyString => EmptyString
  end.

(** [s.find(pat)] with [substr(0, pos)] and [substr(pos + pat.size())]:
    the text before and after the first [pat]. *)
Fixpoint split_at_sub (pat s : string) : option (string * string) :=
  if String.prefix pat s then Some (EmptyString, drop (String.length pat) s)
  else
    match s with
    | EmptyString => None
    | String c rest =>
        match split_at_sub pat rest with
        | Some (l, r) => Some (String c l, r)
        | None => None
        end
    end.

(** [if (!line.empty() && line.back() == CR) line.pop_back()] *)
Fixpoint strip_cr (line : string) : string :=
  match line with
  | EmptyString => EmptyString
  | String c EmptyString => if Ascii.eqb c CR then EmptyString else line
  | String c rest => String c (strip_cr rest)
  end.

(** The characters [operator>>] puts into a [std::string]: up to the next
    white space. *)
Fixpoint take_word (s : string) : string * string :=
  match s with
  | EmptyString => (EmptyString, EmptyString)
  | String c rest =>
      if isspace c then (EmptyString, s)
      else let '(w, r) := take_word rest in (String c w, r)
  end.

(** [stream >> word]: skip white space, read a word; at the end of the
    text the extraction fails. *)
Definition next_word (s : string) : option (string * string) :=
  match skip_space s with
  | EmptyString => None
  | s' => Some (take_word s')
  end.

(** One turn of the header loop of [ParseHttpRequest]. *)
Definition add_header (hs : gmap string string) (line : string)
  : gmap string string :=
  match split_first ":" (strip_cr line) with
  | None => hs
  | Some (k, v) => <[ToLowerAscii k := skip_space v]> hs
  end.

(** [s.find(pat) != npos] *)
Definition contains (pat s : string) : bool :=
  match split_at_sub pat s with
  | Some _ => true
  | None => false
  end.

Definition ParseHttpRequest (raw : string) : option HttpRequest :=
  match split_at_sub CRLFCRLF raw with
  | None => None
  | Some (head, body) =>
      match getlines LF head with
      | [] => None
      | line :: header_lines =>
          match next_word (strip_cr line) with
          | None => None
          | Some (method, r1) =>
              match next_word r1 with
              | None => None
              | Some (target, r2) =>
                  match next_word r2 with
                  | None => None
                  | Some (version, _) =>
                      let '(path, query) :=
                        match split_first "?" target with
                        | Some (p, q) => (p, ParseUrlEncoded q)
                        | None => (target, ∅)
                        end in
                      let headers := fold_left add_header header_lines ∅ in
                      let form :=
                        match headers !! "content-type" with
                        | Some ct =>
                            if contains "application/x-www-form-urlencoded"
                                 (ToLowerAscii ct)
                            then ParseUrlEncoded body else ∅
                        | None => ∅
                        end in
                      Some (mkReq (ToLowerAscii method) path query headers
                              form body)
                  end
              end
          end
      end
  end.

(** One turn of the accept loop after [ReadHttpRequest]: [raw] is [None]
    when nothing could be read. *)
Definition ServeConnection (st : SharedState) (raw : option string)
    (post_ok : bool) : SharedState * Response * option Task :=
  match raw with
  | None => (st, json_resp 400 (json_error "empty request"), None)
  | Some raw =>
      match ParseHttpRequest raw with
      | None => (st, json_resp 400 (json_error "parse failed"), None)
      | Some req => HandleRequest st req post_ok
      end
  end.

Definition StatusText (status : Z) : string :=
  if status =? 200 then "OK"
  else if status =? 400 then "Bad Request"
  else if status =? 404 then "Not Found"
  else if status =? 500 then "Internal Server Error"
  else if status =? 501 then "Not Implemented"
  else "OK".

(** The decimal text of an [int], as [operator<<] writes it. *)
Definition int_text (v : Z) : string :=
  if v <? 0 then String "-" (dec (- v)) else dec v.

Ltac eval_char_code :=
  repeat match goal with
         | |- context [char_code ?c] =>
             let v := eval vm_compute in (char_code c) in
             change (char_code c) with v
         end.

(** Only decimal digits. *)
Fixpoint digits_only (s : string) : bool :=
  match s with
  | EmptyString => true
  | String c rest => is_digit 10 c && digits_only rest
  end.

(** No NUL inside: the C string of [s] is [s]. *)
Fixpoint nul_free (s : string) : bool :=
  match s with
  | EmptyString => true
  | String c rest => negb (Ascii.eqb c NUL) && nul_free rest
  end.

(** Reading [s] as the inside of a double-quoted literal: a backslash
    takes the next character with it; a bare quote, line feed, carriage
    return or tab is refused, and so is a backslash at the very end. *)
Fixpoint dq_literal_ok (s : string) : bool :=
  match s with
  | EmptyString => true
  | String c rest =>
      if Ascii.eqb c BSL then
        match rest with
        | String _ rest' => dq_literal_ok rest'
        | EmptyString => false
        end
      else if Ascii.eqb c DQ || Ascii.eqb c LF || Ascii.eqb c CR
              || Ascii.eqb c TAB then false
      else dq_literal_ok rest
  end.


Ltac split_ascii_tests :=
  repeat match goal with
         | |- context [Ascii.eqb ?a ?b] => destruct (Ascii.eqb_spec a b); subst
         | H : context [Ascii.eqb ?a ?b] |- _ =>
             destruct (Ascii.eqb_spec a b); subst
         end.

(** [c] does not occur in [s]. *)
Fixpoint no_char (c : ascii) (s : string) : bool :=
  match s with
  | EmptyString => true
  | String a rest => negb (Ascii.eqb a c) && no_char c rest
  end.

(** Text without [+] and [%]. *)
Definition plain_url (s : string) : bool := no_char "+" s && no_char "%" s.

(** No white space inside. *)
Fixpoint no_space (s : string) : bool :=
  match s with
  | EmptyString => true
  | String c rest => negb (isspace c) && no_space rest
  end.

(** The path and the query map [ParseHttpRequest] makes of a target. *)
Definition target_path (target : string) : string :=
  match split_first "?" target with
  | Some (p, _) => p
  | None => target
  end.

Definition target_query (target : string) : gmap string string :=
  match split_first "?" target with
  | Some (_, q) => ParseUrlEncoded q
  | None => ∅
  end.

(** A request line, the blank line, a body: no header lines. *)
Definition request_text (m target version body : string) : string :=
  m +:+ String " " (target +:+ String " " (version +:+ CRLFCRLF +:+ body)).

(** The paths the dispatcher knows. *)
Definition routes : list string :=
  ["/status"; "/open"; "/eval"; "/input"; "/frame"; "/quit"].

(** The input types answered with a script. *)
Definition script_types : list string :=
  ["text"; "key"; "back"; "forward"; "reload"].

(** The text of [GET /open?url=u HTTP/1.1] with no headers and no body. *)
Definition open_text (u : string) : string :=
  request_text "GET" ("/open?url=" +:+ u) "HTTP/1.1" "".

Ltac split_goal_ifs :=
  repeat match goal with
         | |- context [if ?b then _ else _] => destruct b eqn:?
         end.

(** Pixel [i] read straight from the painted memory. *)
Definition src_pixel (src : nat -> ascii) (i : nat) : list ascii :=
  [ src (4 * i + 2)%nat; src (4 * i + 1)%nat; src (4 * i)%nat ].

(** What the engine may be asked to do: a URL and a script are not empty,
    mouse coordinates are non-negative [int]s. *)
Definition task_ok (t : Task) : Prop :=
  match t with
  | OpenUrlTask url => url <> ""
  | EvalTask js => js <> ""
  | NativeInputTask MouseClick x y delta =>
      0 <= x <= INT32_MAX /\ 0 <= y <= INT32_MAX /\ delta = 0
  | NativeInputTask MouseScroll x y delta =>
      0 <= x <= INT32_MAX /\ 0 <= y <= INT32_MAX /\ int_range delta
  | QuitTask => True
  end.

(** Every text the bridge ever stores in [last_error]. *)
Definition known_errors : list string :=
  post_errors ++
  [ "open failed: browser not ready";
    "eval failed: browser not ready";
    "input failed: browser not ready" ] ++
  map startup_error
    [WSAStartupFailed; BadBindAddr; SocketFailed; BadBindHost; BindFailed;
     ListenFailed].

(** The events that make a counter tick. *)
Definition counts_open (e : Event) : bool :=
  match e with
  | EvRequest req _ =>
      String.eqb (path req) "/open" && negb (String.eqb (GetParam req "url") "")
  | _ => false
  end.

Definition counts_eval (e : Event) : bool :=
  match e with
  | EvRequest req _ =>
      String.eqb (path req) "/eval" && negb (String.eqb (GetParam req "js") "")
  | _ => false
  end.

Definition counts_input (e : Event) : bool :=
  match e with
  | EvRequest req _ =>
      String.eqb (path req) "/input"
      && negb (String.eqb (ToLowerAscii (GetParam req "type")) "")
  | _ => false
  end.

Definition counts_paint (e : Event) : bool :=
  match e with
  | EvPaint PET_VIEW (Some _) width height => (0 <? width) && (0 <? height)
  | _ => false
  end.

(** How many events of [tr] satisfy [f]. *)
Fixpoint count_events (f : Event -> bool) (tr : list Event) : Z :=
  match tr with
  | [] => 0
  | e :: tr' => (if f e then 1 else 0) + count_events f tr'
  end.

(** Before the first accepted paint callback the frame fields are as
    [main] left them. *)
Definition unpainted (args : Args) (st : SharedState) : Prop :=
  frame_capture st = false ->
  frame_seq st = 0 /\ frame_bgra st = [] /\
  frame_width st = view_width args /\ frame_height st = view_height args.

(** ** [ReadHttpRequest] *)

Definition ULLONG_MAX : Z := 2 ^ 64 - 1.

(** [std::strtoull] with a null [endptr], for base 10: like [strtol], but
    the value is unsigned; a minus sign negates it in 64 bits and too
    large a value gives [ULLONG_MAX]. *)
Definition strtoull (nptr : string) (base : Z) : Z :=
  let s1 := skip_space nptr in
  let '(neg, s2) := take_sign s1 in
  let s3 := skip_hex_prefix base s2 in
  if starts_with_digit base s3 then
    let '(v, _) := scan_digits base s3 0 in
    if v >? ULLONG_MAX then ULLONG_MAX
    else if neg then to_u64 (- v) else v
  else 0.

Definition kMaxReq : Z := 1024 * 1024.

Definition str_size (s : string) : Z := Z.of_nat (String.length s).

(** The inner [while (std::getline(ss, line))] of [ReadHttpRequest]: the
    value of the first [content-length] line of the head, if there is
    one. *)
Fixpoint find_content_length (lines : list string) : option Z :=
  match lines with
  | [] => None
  | line :: rest =>
      match split_first ":" (strip_cr line) with
      | None => find_content_length rest
      | Some (k, v) =>
          if String.eqb (ToLowerAscii k) "content-length"
          then Some (strtoull (c_str v) 10)
          else find_content_length rest
      end
  end.

(** The state after [raw.append]: where the head ends, if the blank line
    has been seen ([header_end], [npos] being [None]), and the length the
    head declares. *)
Definition scan_head (raw : string) (header_end : option Z)
    (content_length : Z) : option Z * Z :=
  match header_end with
  | Some _ => (header_end, content_length)
  | None =>
      match split_at_sub CRLFCRLF raw with
      | None => (None, content_length)
      | Some (head, _) =>
          (Some (str_size head),
           match find_content_length (getlines LF head) with
           | Some v => v
           | None => content_length
           end)
      end
  end.

(** The [while (raw.size() < kMaxReq)] loop.  [socket] is what the calls
    of [recv] will give, chunk by chunk; when it has run out, or gives an
    empty chunk, [recv] returns [n <= 0]. *)
Fixpoint ReadLoop (socket : list string) (raw : string)
    (header_end : option Z) (content_length : Z) : string :=
  if str_size raw <? kMaxReq then
    match socket with
    | [] => raw
    | buf :: socket' =>
        if String.eqb buf EmptyString then raw
        else
          let raw := raw +:+ buf in
          let '(header_end, content_length) :=
            scan_head raw header_end content_length in
          match header_end with
          | Some he =>
              if to_u64 (he + 4 + content_length) <=? str_size raw then raw
              else ReadLoop socket' raw header_end content_length
          | None => ReadLoop socket' raw header_end content_length
          end
    end
  else raw.

Definition ReadHttpRequest (socket : list string) : option string :=
  let raw := ReadLoop socket EmptyString None 0 in
  if String.eqb raw EmptyString then None else Some raw.

(** The chunks of [l] one after the other. *)
Fixpoint concat_chunks (l : list string) : string :=
  match l with
  | [] => EmptyString
  | c :: l' => c +:+ concat_chunks l'
  end.

(** The length the head of a request declares for its body. *)
Definition declared_length (head : string) : Z :=
  match find_content_length (getlines LF head) with
  | Some v => v
  | None => 0
  end.

(** The state of the read loop is in step with the text read so far:
    either the blank line has not come yet, or the head is known and with
    it the length of the body. *)
Definition in_step (head body raw : string) (he : option Z) (cl : Z) : Prop :=
  (he = None /\ split_at_sub CRLFCRLF raw = None /\ cl = 0) \/
  (he = Some (str_size head) /\ cl = str_size body).

Definition CRLF : string := String CR (str1 LF).




(** ** [SendHttpResponse]: the bytes it builds *)

(** The head of a response, up to the blank line. *)
Definition ResponseHead (status : Z) (content_type : string) (size : Z)
  : string :=
  ("HTTP/1.1 " +:+ int_text status +:+ " " +:+ StatusText status) +:+ CRLF +:+
  ("Content-Type: " +:+ content_type) +:+ CRLF +:+
  ("Content-Length: " +:+ dec size) +:+ CRLF +:+
  "Connection: close".

(** [header.str() + body] *)
Definition ResponseText (status : Z) (content_type body : string) : string :=
  ResponseHead status content_type (str_size body) +:+ CRLF +:+ CRLF +:+ body.

(** Inputs for the examples below. *)
Definition click_request_no_xy : HttpRequest :=
  mkReq "get" "/input" (ParseUrlEncoded "type=click") ∅ ∅ "".

Definition back_request : HttpRequest :=
  mkReq "get" "/input" (ParseUrlEncoded "type=Back") ∅ ∅ "".

Definition unknown_path_request : HttpRequest := mkReq "get" "/nope" ∅ ∅ ∅ "".

Definition world_after_post : World :=
  step (step (init_world []) (EvRequest open_request true))
       (EvRequest scroll_request true).

Definition world_after_rejected_post : World :=
  step (init_world []) (EvRequest open_request false).

Definition trace_open_and_run : list Event :=
  [EvRequest open_request true; EvRunTask true].

(** [GET /open?url=x] as three chunks, the last two cutting the blank line. *)
Definition open_x_chunks : list string :=
  [ "GET /open?url=x HT";
    "TP/1.1" +:+ str1 CR;
    String LF CRLF ].


(** Texts that are no click coordinate: the empty text, a text without
    NUL byte whose last character is not a decimal digit, and the decimal
    text of a negative [int]. *)
Definition no_coordinate (t : string) : Prop :=
  t = "" \/
  (exists s c, t = s +:+ str1 c /\ nul_free t = true /\ is_digit 10 c = false) \/
  (exists v, INT32_MIN <= v < 0 /\ t = int_text v).

(** The URL [u] was asked for in the trace: an [/open] request carried it
    as its [url] parameter, not empty, and the queue took the task. *)
Definition opened_by (tr : list Event) (u : string) : Prop :=
  u <> "" /\
  exists req, In (EvRequest req true) tr /\ path req = "/open" /\
              GetParam req "url" = u.

(** Every [OpenUrlTask] that waits in the queue was asked for. *)
Definition queue_opened (tr : list Event) (q : list Task) : Prop :=
  Forall (fun t => match t with
                   | OpenUrlTask u => opened_by tr u
                   | _ => True
                   end) q.

(** A click with a trailing letter in [x]. *)
Definition click_request_bad_x : HttpRequest :=
  mkReq "get" "/input" (ParseUrlEncoded "type=click&x=12px&y=5") ∅ ∅ "".

(** A click at (12, 5). *)
Definition click_request_12_5 : HttpRequest :=
  mkReq "get" "/input" (ParseUrlEncoded "type=click&x=12&y=5") ∅ ∅ "".

(** ** Basic facts *)

Lemma append_cons (c : ascii) (a b : string) :
  String c a +:+ b = String c (a +:+ b).
Proof. reflexivity. Qed.

Lemma append_empty_r (s : string) : s +:+ "" = s.
Proof.
  induction s as [|c s IH]; [reflexivity|].
  now rewrite append_cons, IH.
Qed.

Lemma append_assoc (a b c : string) : (a +:+ b) +:+ c = a +:+ (b +:+ c).
Proof.
  induction a as [|x a IH]; [reflexivity|].
  now rewrite !append_cons, IH.
Qed.

Lemma GetParam_absent (req : HttpRequest) (key : string) :
  absent req key -> GetParam req key = "".
Proof. intros [Hq Hf]. unfold GetParam. now rewrite Hq, Hf. Qed.

Lemma ParseIntDefault_empty (fallback : Z) : ParseIntDefault "" fallback = fallback.
Proof. reflexivity. Qed.

Lemma ParseIntDefault_range (text : string) (fallback : Z) :
  int_range fallback -> int_range (ParseIntDefault text fallback).
Proof.
  intros Hf. unfold ParseIntDefault.
  destruct (String.eqb text ""); [exact Hf|].
  destruct (strtol (c_str text) 10) as [value end_].
  destruct (negb (String.eqb end_ "")); [exact Hf|].
  destruct (value <? INT32_MIN) eqn:Hlo; simpl; [exact Hf|].
  destruct (value >? INT32_MAX) eqn:Hhi; [exact Hf|].
  unfold int_range. lia.
Qed.

Lemma positional_dims (cur : string) (args : Args) :
  view_width (positional cur args) = view_width args /\
  view_height (positional cur args) = view_height args.
Proof. unfold positional. now destruct (_ && _). Qed.

Lemma ParseArgs_loop_cons2 (cur next : string) (rest' : list string) (args : Args) :
  ParseArgs_loop (cur :: next :: rest') args =
  if String.eqb cur "--bind" then
    ParseArgs_loop rest'
      (mkArgs next (start_url args) (view_width args) (view_height args))
  else if String.eqb cur "--url" then
    ParseArgs_loop rest'
      (mkArgs (arg_bind_addr args) next (view_width args) (view_height args))
  else if String.eqb cur "--width" then
    ParseArgs_loop rest'
      (mkArgs (arg_bind_addr args) (start_url args)
         (ParseIntDefault next (view_width args)) (view_height args))
  else if String.eqb cur "--height" then
    ParseArgs_loop rest'
      (mkArgs (arg_bind_addr args) (start_url args)
         (view_width args) (ParseIntDefault next (view_height args)))
  else ParseArgs_loop (next :: rest') (positional cur args).
Proof. reflexivity. Qed.

Lemma ParseArgs_loop_range (argv : list string) :
  forall args, int_range (view_width args) -> int_range (view_height args) ->
  int_range (view_width (ParseArgs_loop argv args)) /\
  int_range (view_height (ParseArgs_loop argv args)).
Proof.
  induction argv as [argv IH] using (induction_ltof1 _ (@length string)).
  unfold ltof in IH. intros args Hw Hh.
  destruct argv as [|cur rest]; [now split|].
  destruct (positional_dims cur args) as [E1 E2].
  destruct rest as [|next rest'].
  - simpl. now rewrite E1, E2.
  - rewrite ParseArgs_loop_cons2.
    destruct (String.eqb cur "--bind");
      [apply IH; [simpl; lia | exact Hw | exact Hh]|].
    destruct (String.eqb cur "--url");
      [apply IH; [simpl; lia | exact Hw | exact Hh]|].
    destruct (String.eqb cur "--width");
      [apply IH; [simpl; lia | now apply ParseIntDefault_range | exact Hh]|].
    destruct (String.eqb cur "--height");
      [apply IH; [simpl; lia | exact Hw | now apply ParseIntDefault_range]|].
    apply IH; [simpl; lia | now rewrite E1 | now rewrite E2].
Qed.

Lemma ParseArgs_dims (argv : list string) :
  320 <= view_width (ParseArgs argv) <= INT32_MAX /\
  200 <= view_height (ParseArgs argv) <= INT32_MAX.
Proof.
  destruct (ParseArgs_loop_range argv Args_default) as [[_ Hw] [_ Hh]];
    try (unfold int_range, INT32_MIN, INT32_MAX; simpl; lia).
  unfold ParseArgs; simpl. unfold INT32_MAX in *. lia.
Qed.

(** ** What a request does to the state *)

Lemma HandleRequest_effect (st : SharedState) (req : HttpRequest) (post_ok : bool) :
  dispatch_effect st (state_of (HandleRequest st req post_ok)).
Proof.
  unfold HandleRequest, HandleOpen, HandleEval, HandleInput, HandleQuit.
  cbv zeta. split_state_ifs; cbn [state_of fst]; eauto with bridge.
Qed.

Lemma small_change_refl (s : SharedState) : small_change s s.
Proof. split; unfold tick; auto. Qed.

Lemma dispatch_small_change (s s' : SharedState) :
  dispatch_effect s s' -> small_change s s'.
Proof.
  intros [st1 Hb | st1 err Hb]; destruct Hb; split; unfold tick; cbn; auto.
Qed.

Lemma Execute_small_change (t : Task) (ready : bool) (s : SharedState) :
  small_change s (Execute t ready s).
Proof. destruct t, ready; split; unfold tick; cbn; auto. Qed.

Lemma OnPaint_small_change (s : SharedState) type buffer width height :
  small_change s (OnPaint s type buffer width height).
Proof.
  unfold OnPaint. destruct type, buffer; try apply small_change_refl.
  destruct (_ || _); [apply small_change_refl|].
  split; unfold tick; cbn; auto.
Qed.

Lemma step_small_change (w : World) (e : Event) :
  small_change (shared w) (shared (step w e)).
Proof.
  destruct e; cbn [step shared].
  - apply dispatch_small_change, HandleRequest_effect.
  - split; unfold tick; cbn; auto.
  - destruct (ui_queue w); [apply small_change_refl|].
    apply Execute_small_change.
  - apply OnPaint_small_change.
  - split; unfold tick; cbn; auto.
  - split; unfold tick; cbn; auto.
  - split; unfold tick; cbn; auto.
Qed.

(** ** The frame invariant of reachable states *)

Lemma frame_bytes_exact (w h : Z) :
  0 < w <= INT32_MAX -> 0 < h <= INT32_MAX -> frame_bytes w h = w * h * 4.
Proof.
  unfold INT32_MAX, frame_bytes, to_u64, U64. intros Hw Hh.
  assert (0 <= w * h <= (2 ^ 31 - 1) * (2 ^ 31 - 1)) by nia.
  rewrite (Z.mod_small w), (Z.mod_small h) by lia.
  rewrite (Z.mod_small (w * h)) by lia.
  apply Z.mod_small. lia.
Qed.

Lemma dispatch_frame_fields (s s' : SharedState) :
  dispatch_effect s s' ->
  frame_capture s' = frame_capture s /\ frame_width s' = frame_width s /\
  frame_height s' = frame_height s /\ frame_bgra s' = frame_bgra s.
Proof. intros [st1 Hb | st1 err Hb]; destruct Hb; cbn; auto. Qed.

Lemma frame_inv_fields (s s' : SharedState) :
  frame_capture s' = frame_capture s -> frame_width s' = frame_width s ->
  frame_height s' = frame_height s -> frame_bgra s' = frame_bgra s ->
  frame_inv s -> frame_inv s'.
Proof. unfold frame_inv. intros -> -> -> ->. auto. Qed.

Lemma OnPaint_frame_inv (s : SharedState) type buffer width height :
  int_range width -> int_range height ->
  frame_inv s -> frame_inv (OnPaint s type buffer width height).
Proof.
  intros [_ Hw] [_ Hh] Hs. unfold OnPaint.
  destruct type, buffer as [src|]; try exact Hs.
  destruct (_ || _) eqn:Hguard; [exact Hs|].
  apply orb_false_elim in Hguard as [Hw0 Hh0].
  apply Z.leb_gt in Hw0, Hh0.
  unfold frame_inv; cbn.
  unfold to_u32, U32. unfold INT32_MAX in *.
  rewrite !Z.mod_small by lia.
  repeat split; try lia.
  unfold vec_size. rewrite length_map, length_seq.
  rewrite frame_bytes_exact by (unfold INT32_MAX; lia). lia.
Qed.

Lemma main_state_frame_inv (argv : list string) :
  frame_inv (main_state (ParseArgs argv)).
Proof.
  destruct (ParseArgs_dims argv) as [Hw Hh].
  unfold frame_inv, main_state; cbn -[ParseArgs].
  unfold to_u32, U32, INT32_MAX in *.
  rewrite !Z.mod_small by lia. repeat split; lia.
Qed.

Lemma step_frame_inv (w : World) (e : Event) :
  wf_event e -> frame_inv (shared w) -> frame_inv (shared (step w e)).
Proof.
  intros Hwf Hinv. destruct e; cbn [step shared].
  - destruct (dispatch_frame_fields _ _
                (HandleRequest_effect (shared w) req post_ok))
      as (E1 & E2 & E3 & E4).
    now apply (frame_inv_fields (shared w)).
  - exact Hinv.
  - destruct (ui_queue w) as [|t q]; [exact Hinv|]. cbn [shared].
    destruct t, browser_ready; exact Hinv.
  - destruct Hwf. now apply OnPaint_frame_inv.
  - exact Hinv.
  - exact Hinv.
  - exact Hinv.
Qed.

Lemma reachable_frame_inv (w : World) : reachable w -> frame_inv (shared w).
Proof.
  induction 1 as [argv | w e _ IH Hwf].
  - apply main_state_frame_inv.
  - now apply step_frame_inv.
Qed.

(** ** The frame encoder *)

Lemma pixels_S (bgra : list ascii) (k m : nat) :
  pixels bgra k (S m) =
  String (at_index bgra (4 * Z.of_nat k + 2))
    (String (at_index bgra (4 * Z.of_nat k + 1))
       (String (at_index bgra (4 * Z.of_nat k)) (pixels bgra (S k) m))).
Proof. reflexivity. Qed.

Lemma pixels_length (bgra : list ascii) (m : nat) :
  forall k, String.length (pixels bgra k m) = (3 * m)%nat.
Proof.
  induction m as [|m IH]; intros k; [reflexivity|].
  rewrite pixels_S. cbn [String.length]. rewrite IH. lia.
Qed.

Lemma frame_loop_pixels (bgra : list ascii) (m : nat) :
  forall (fuel k : nat) (body : string),
    (m <= fuel)%nat ->
    4 * Z.of_nat (k + m) < U64 ->
    frame_loop fuel bgra (4 * Z.of_nat (k + m)) (4 * Z.of_nat k) body =
    body +:+ pixels bgra k m.
Proof.
  induction m as [|m IH]; intros fuel k body Hfuel Hsmall.
  - replace (k + 0)%nat with k by lia.
    unfold pixels; cbn [seq flat_map string_of_list_ascii].
    rewrite append_empty_r.
    destruct fuel; cbn [frame_loop]; [reflexivity|].
    now rewrite Z.ltb_irrefl.
  - destruct fuel as [|fuel]; [lia|]. cbn [frame_loop].
    assert (Hlt : (4 * Z.of_nat k <? 4 * Z.of_nat (k + S m)) = true)
      by (apply Z.ltb_lt; lia).
    rewrite Hlt.
    assert (Hnext : to_u64 (4 * Z.of_nat k + 4) = 4 * Z.of_nat (S k)).
    { unfold to_u64. rewrite Z.mod_small; lia. }
    rewrite Hnext.
    replace (k + S m)%nat with (S k + m)%nat in * by lia.
    rewrite IH by lia.
    rewrite append_assoc, pixels_S, Z.add_0_r. reflexivity.
Qed.

Lemma HandleFrame_ready (st : SharedState) :
  0 < frame_width st <= INT32_MAX ->
  0 < frame_height st <= INT32_MAX ->
  frame_width st * frame_height st * 4 <= vec_size (frame_bgra st) ->
  HandleFrame st =
  mkResp 200 "image/x-portable-pixmap"
    (ppm_header (frame_width st) (frame_height st) +:+
     pixels (frame_bgra st) 0
       (Z.to_nat (frame_width st * frame_height st))).
Proof.
  intros Hw Hh Hsize. unfold HandleFrame. cbv zeta.
  rewrite frame_bytes_exact by assumption.
  assert (E0 : (frame_width st =? 0) = false) by (apply Z.eqb_neq; lia).
  assert (E1 : (frame_height st =? 0) = false) by (apply Z.eqb_neq; lia).
  assert (E2 : (vec_size (frame_bgra st)
                <? frame_width st * frame_height st * 4) = false)
    by (apply Z.ltb_ge; lia).
  rewrite E0, E1, E2. cbn [orb]. f_equal.
  set (n := Z.to_nat (frame_width st * frame_height st)).
  assert (En : frame_width st * frame_height st * 4 = 4 * Z.of_nat (0 + n)).
  { subst n. cbn [Nat.add]. rewrite Z2Nat.id by nia. lia. }
  rewrite En.
  exact (frame_loop_pixels (frame_bgra st) n
           (Z.to_nat (4 * Z.of_nat (0 + n))) 0
           (ppm_header (frame_width st) (frame_height st))
           ltac:(lia)
           ltac:(rewrite <- En; unfold U64, INT32_MAX in *; nia)).
Qed.

Lemma HandleFrame_not_ready (st : SharedState) :
  vec_size (frame_bgra st) < frame_bytes (frame_width st) (frame_height st) ->
  HandleFrame st = json_resp 503 (json_error "no frame yet (wait for OnPaint)").
Proof.
  intros Hlt. unfold HandleFrame. cbv zeta.
  apply Z.ltb_lt in Hlt. rewrite Hlt.
  now rewrite !orb_true_r.
Qed.

Lemma HandleRequest_frame (st : SharedState) (req : HttpRequest) (post_ok : bool) :
  path req = "/frame" ->
  HandleRequest st req post_ok = (st, HandleFrame st, None).
Proof. intros Hp. unfold HandleRequest. rewrite Hp. reflexivity. Qed.

(** ** Runs *)

Lemma run_app (w : World) (tr1 tr2 : list Event) :
  run w (tr1 ++ tr2) = run (run w tr1) tr2.
Proof. apply fold_left_app. Qed.

Lemma run_reachable (tr : list Event) :
  forall w, reachable w -> Forall wf_event tr -> reachable (run w tr).
Proof.
  induction tr as [|e tr IH]; intros w Hw Htr; [exact Hw|].
  inversion Htr; subst. cbn [run fold_left]. apply IH; [|assumption].
  now apply reach_step.
Qed.

Lemma step_not_paint_frame (w : World) (e : Event) :
  is_paint e = false ->
  frame_capture (shared (step w e)) = frame_capture (shared w).
Proof.
  intros Hp. destruct e; try discriminate; cbn [step shared]; try reflexivity.
  - apply (dispatch_frame_fields _ _
             (HandleRequest_effect (shared w) req post_ok)).
  - destruct (ui_queue w) as [|t q]; [reflexivity|].
    now destruct t, browser_ready.
Qed.

Lemma run_no_paint_capture (tr : list Event) :
  forall w, existsb is_paint tr = false ->
  frame_capture (shared (run w tr)) = frame_capture (shared w).
Proof.
  induction tr as [|e tr IH]; intros w Hnp; [reflexivity|].
  cbn [existsb] in Hnp. apply orb_false_elim in Hnp as [He Htr].
  cbn [run fold_left]. fold (run (step w e) tr).
  rewrite IH by exact Htr. now apply step_not_paint_frame.
Qed.

(** In a reachable state the flag alone says whether [/frame] answers. *)
Lemma frame_inv_status (st : SharedState) :
  frame_inv st ->
  status (HandleFrame st) = (if frame_capture st then 200 else 503).
Proof.
  intros (Hw & Hh & Hbuf).
  destruct (frame_capture st); cbv iota in Hbuf.
  - rewrite HandleFrame_ready by (try assumption; lia). reflexivity.
  - rewrite HandleFrame_not_ready; [reflexivity|].
    rewrite Hbuf, frame_bytes_exact by assumption.
    change (vec_size []) with 0. nia.
Qed.

(** ** The claims about frames *)

(** C3. A [/frame] request is answered 503 exactly when the capture flag is
    unset or the stored buffer is shorter than width x height x 4; before
    any paint callback the answer is 503.  The states are those the bridge
    reaches from [main]; the dispatcher itself tests the dimensions and the
    buffer length, and in every reachable state that test and the flag
    agree. *)
Theorem C3_frame_503_iff_not_ready
    (argv : list string) (tr : list Event) (req : HttpRequest) (post_ok : bool) :
  Forall wf_event tr ->
  path req = "/frame" ->
  let st := shared (run (init_world argv) tr) in
  let r := HandleRequest st req post_ok in
  (status (resp_of r) = 503 <->
     frame_capture st = false \/
     vec_size (frame_bgra st) < frame_width st * frame_height st * 4)
  /\ (existsb is_paint tr = false -> status (resp_of r) = 503).
Proof.
  intros Hwf Hpath st r.
  assert (Hinv : frame_inv st)
    by (apply reachable_frame_inv, run_reachable; [apply reach_init | exact Hwf]).
  assert (Hst : status (resp_of r) = if frame_capture st then 200 else 503).
  { subst r. rewrite HandleRequest_frame by exact Hpath.
    now apply frame_inv_status. }
  split.
  - rewrite Hst. destruct Hinv as (Hw & Hh & Hbuf).
    destruct (frame_capture st); cbv iota in Hbuf;
      split; try tauto; try discriminate.
    intros [Hc | Hlt]; [discriminate | lia].
  - intros Hnp. rewrite Hst. subst st.
    now rewrite run_no_paint_capture.
Qed.

(** C4. For a stored frame of width w and height h whose buffer holds at
    least w x h x 4 bytes, [/frame] answers 200 with the header followed
    by exactly w x h pixels of three bytes, pixel i being
    (buffer[4i+2], buffer[4i+1], buffer[4i]).  The header is written out
    byte by byte: the format tag [P6] and a line feed, the width in
    decimal, one space, the height in decimal and a line feed, the
    maximal channel value [255] and a line feed.  Decimal is the
    standard library's printer of unsigned numbers (no sign, no leading
    zero), and the line feed is the character of code 10. *)
Theorem C4_frame_body_rgb
    (w : World) (req : HttpRequest) (post_ok : bool) :
  reachable w ->
  path req = "/frame" ->
  let st := shared w in
  let n := Z.to_nat (frame_width st * frame_height st) in
  let decimal := fun v : Z => NilEmpty.string_of_uint (N.to_uint (Z.to_N v)) in
  let line_feed := String "010"%char EmptyString in
  frame_width st * frame_height st * 4 <= vec_size (frame_bgra st) ->
  resp_of (HandleRequest st req post_ok) =
    mkResp 200 "image/x-portable-pixmap"
      (("P6" +:+ line_feed +:+
        decimal (frame_width st) +:+ " " +:+ decimal (frame_height st) +:+
        line_feed +:+
        "255" +:+ line_feed) +:+
       string_of_list_ascii (flat_map (pixel (frame_bgra st)) (seq 0 n)))
  /\ String.length
       (string_of_list_ascii (flat_map (pixel (frame_bgra st)) (seq 0 n)))
     = (3 * n)%nat.
Proof.
  intros Hreach Hpath st n decimal line_feed Hsize.
  destruct (reachable_frame_inv w Hreach) as (Hw & Hh & _).
  split.
  - rewrite HandleRequest_frame by exact Hpath.
    cbn [resp_of fst snd]. subst decimal line_feed. cbv beta.
    exact (HandleFrame_ready st Hw Hh Hsize).
  - apply (pixels_length (frame_bgra st) n 0).
Qed.

Lemma OnPaint_capture_inv (s : SharedState) type buffer width height :
  int_range width -> int_range height ->
  capture_inv s -> capture_inv (OnPaint s type buffer width height).
Proof.
  intros [_ Hw] [_ Hh] Hs. unfold OnPaint.
  destruct type, buffer as [src|]; try exact Hs.
  destruct (_ || _) eqn:Hguard; [exact Hs|].
  apply orb_false_elim in Hguard as [Hw0 Hh0].
  apply Z.leb_gt in Hw0, Hh0.
  unfold capture_inv; cbn. intros _.
  unfold vec_size. rewrite length_map, length_seq.
  rewrite frame_bytes_exact by lia.
  unfold to_u32, U32. unfold INT32_MAX in *.
  rewrite !Z.mod_small by lia. lia.
Qed.

Lemma step_capture_inv (w : World) (e : Event) :
  wf_event e -> capture_inv (shared w) -> capture_inv (shared (step w e)).
Proof.
  intros Hwf Hinv. destruct e; cbn [step shared]; try exact Hinv.
  - destruct (dispatch_frame_fields _ _
                (HandleRequest_effect (shared w) req post_ok))
      as (E1 & E2 & E3 & E4).
    unfold capture_inv. now rewrite E1, E2, E3, E4.
  - destruct (ui_queue w) as [|t q]; [exact Hinv|]. cbn [shared].
    destruct t, browser_ready; exact Hinv.
  - destruct Hwf. now apply OnPaint_capture_inv.
Qed.

(** C8. Whenever the capture flag is set the stored buffer holds at least
    width x height x 4 bytes: this holds in the state [main] builds, every
    event (a request, a task, a paint callback, a title change, a close)
    keeps it, and so it holds in every reachable state. *)
Theorem C8_capture_implies_buffer :
  (forall argv, capture_inv (shared (init_world argv))) /\
  (forall w e, wf_event e -> capture_inv (shared w) ->
               capture_inv (shared (step w e))) /\
  (forall w, reachable w -> capture_inv (shared w)).
Proof.
  split; [|split].
  - intros argv Hc. discriminate Hc.
  - apply step_capture_inv.
  - induction 1 as [argv | w e _ IH Hwf].
    + intros Hc. discriminate Hc.
    + now apply step_capture_inv.
Qed.

(** ** Monotone fields *)

Lemma tick_le (n c c' : Z) :
  0 <= c <= n -> n + 1 < U64 -> tick c c' -> c <= c' /\ 0 <= c' <= n + 1.
Proof.
  intros Hc Hn [-> | ->]; [lia|].
  unfold to_u64. rewrite Z.mod_small by lia. lia.
Qed.

Lemma step_never_back (n : Z) (w : World) (e : Event) :
  bounded n (shared w) -> n + 1 < U64 ->
  never_back (shared w) (shared (step w e)) /\
  bounded (n + 1) (shared (step w e)).
Proof.
  intros (Ho & He & Hi & Hs) Hn.
  destruct (step_small_change w e) as [Hr To Te Ti Ts].
  destruct (tick_le n _ _ Ho Hn To), (tick_le n _ _ He Hn Te),
    (tick_le n _ _ Hi Hn Ti), (tick_le n _ _ Hs Hn Ts).
  unfold never_back, bounded. tauto.
Qed.

Lemma never_back_trans (a b c : SharedState) :
  never_back a b -> never_back b c -> never_back a c.
Proof. unfold never_back. intros (? & ? & ? & ? & ?) (? & ? & ? & ? & ?).
  repeat split; try lia. auto. Qed.

Lemma run_never_back (tr : list Event) :
  forall (n : Z) (w : World),
    bounded n (shared w) -> n + Z.of_nat (length tr) < U64 ->
    never_back (shared w) (shared (run w tr)) /\
    bounded (n + Z.of_nat (length tr)) (shared (run w tr)).
Proof.
  induction tr as [|e tr IH]; intros n w Hb Hn.
  - cbn [run fold_left length Z.of_nat]. rewrite Z.add_0_r. split; [|exact Hb].
    unfold never_back. repeat split; auto; lia.
  - cbn [length] in *. rewrite Nat2Z.inj_succ in *.
    destruct (step_never_back n w e Hb) as [Hnb Hb']; [lia|].
    destruct (IH (n + 1) (step w e) Hb') as [Hnb' Hb'']; [lia|].
    cbn [run fold_left]. fold (run (step w e) tr). split.
    + exact (never_back_trans _ _ _ Hnb Hnb').
    + replace (n + Z.succ (Z.of_nat (length tr)))
        with (n + 1 + Z.of_nat (length tr)) by lia.
      exact Hb''.
Qed.

(** C9. Along every run of the bridge, once the running flag is false it
    stays false, and the three request counters and the frame sequence
    number never decrease.  The counters are 64-bit and count one per
    event at most, so the run is taken shorter than 2^64 events. *)
Theorem C9_running_one_way_counters_monotone
    (argv : list string) (tr1 tr2 : list Event) :
  Z.of_nat (length (tr1 ++ tr2)) < U64 ->
  let s1 := shared (run (init_world argv) tr1) in
  let s2 := shared (run (init_world argv) (tr1 ++ tr2)) in
  (running s1 = false -> running s2 = false) /\
  open_requests s1 <= open_requests s2 /\
  eval_requests s1 <= eval_requests s2 /\
  input_requests s1 <= input_requests s2 /\
  frame_seq s1 <= frame_seq s2.
Proof.
  intros Hlen s1 s2. rewrite length_app, Nat2Z.inj_add in Hlen.
  assert (H0 : bounded 0 (shared (init_world argv)))
    by (unfold bounded; cbn; lia).
  destruct (run_never_back tr1 0 (init_world argv) H0) as [_ Hb1]; [lia|].
  destruct (run_never_back tr2 _ _ Hb1) as [Hnb _]; [lia|].
  subst s1 s2. rewrite run_app. exact Hnb.
Qed.

(** ** The dispatcher, route by route *)

Lemma HandleRequest_open (st : SharedState) (req : HttpRequest) (post_ok : bool) :
  path req = "/open" -> HandleRequest st req post_ok = HandleOpen st req post_ok.
Proof. intros Hp. unfold HandleRequest. rewrite Hp. reflexivity. Qed.

Lemma HandleRequest_eval (st : SharedState) (req : HttpRequest) (post_ok : bool) :
  path req = "/eval" -> HandleRequest st req post_ok = HandleEval st req post_ok.
Proof. intros Hp. unfold HandleRequest. rewrite Hp. reflexivity. Qed.

Lemma HandleRequest_input (st : SharedState) (req : HttpRequest) (post_ok : bool) :
  path req = "/input" -> HandleRequest st req post_ok = HandleInput st req post_ok.
Proof. intros Hp. unfold HandleRequest. rewrite Hp. reflexivity. Qed.

Lemma HandleRequest_quit (st : SharedState) (req : HttpRequest) (post_ok : bool) :
  path req = "/quit" -> HandleRequest st req post_ok = HandleQuit st post_ok.
Proof. intros Hp. unfold HandleRequest. rewrite Hp. reflexivity. Qed.

(** On [/open], [/eval] and [/input] a rejected post is answered 500 and
    its text is stored in [last_error]. *)
Lemma rejected_post_reported (st : SharedState) (req : HttpRequest) (t : Task) :
  path req <> "/quit" ->
  posted_of (HandleRequest st req false) = Some t ->
  status (resp_of (HandleRequest st req false)) = 500 /\
  In (last_error (state_of (HandleRequest st req false))) post_errors.
Proof.
  intros Hq Hp. revert Hp.
  unfold HandleRequest, HandleOpen, HandleEval, HandleInput, HandleQuit.
  cbv zeta. cbn [negb]. intros Hp.
  split_posted_ifs Hp; cbn [posted_of snd] in Hp; try discriminate Hp;
    try (exfalso; apply Hq; now apply String.eqb_eq);
    (split; [reflexivity | cbn; tauto]).
Qed.

(** ** The claims about the dispatcher *)

(** C1. Every route that posts a command answers 500 and records the error
    when the queue rejects the post.  [/open], [/eval] and [/input] do
    ([rejected_post_reported]); [/quit] does not look at the result of
    [CefPostTask]: with the post rejected it still answers 200, the state
    (and so [last_error]) is as before, and the task is lost. *)
Theorem C1_quit_drops_rejected_post (st : SharedState) (q : list Task) :
  let r := HandleRequest st quit_request false in
  posted_of r = Some QuitTask /\
  status (resp_of r) = 200 /\
  state_of r = st /\
  step (mkWorld st q) (EvRequest quit_request false) = mkWorld st q.
Proof. repeat split. Qed.

(** C6. A parsed [/eval] request without a [js] parameter is answered 400,
    the state (the eval counter with it) is unchanged and nothing is
    handed to [CefPostTask]. *)
Theorem C6_eval_without_js
    (st : SharedState) (req : HttpRequest) (post_ok : bool) :
  path req = "/eval" ->
  absent req "js" ->
  let r := HandleRequest st req post_ok in
  status (resp_of r) = 400 /\
  resp_of r = json_resp 400 (json_error "missing js") /\
  state_of r = st /\
  eval_requests (state_of r) = eval_requests st /\
  posted_of r = None.
Proof.
  intros Hp Habs r. subst r.
  rewrite HandleRequest_eval by exact Hp.
  unfold HandleEval. cbv zeta.
  rewrite (GetParam_absent req "js" Habs).
  repeat split.
Qed.

Lemma to_int_half (v : Z) : 0 <= v < U32 -> to_int (v / 2) = v / 2.
Proof.
  intros Hv. unfold to_int, U32 in *.
  assert (0 <= v / 2 < 2 ^ 31)
    by (split; [apply Z.div_pos; lia | apply Z.div_lt_upper_bound; lia]).
  rewrite Z.mod_small by lia.
  destruct (v / 2 <? 2 ^ 31) eqn:E; [reflexivity|].
  apply Z.ltb_ge in E. lia.
Qed.

(** C7. On [/input] with [type=scroll], a coordinate that is not supplied
    is half of the stored frame width (height), and a delta that is not
    supplied is 120, in the [NativeInputTask] handed to [CefPostTask]. *)
Theorem C7_scroll_defaults
    (st : SharedState) (req : HttpRequest) (post_ok : bool) :
  0 <= frame_width st < U32 ->
  0 <= frame_height st < U32 ->
  path req = "/input" ->
  ToLowerAscii (GetParam req "type") = "scroll" ->
  exists x y delta,
    posted_of (HandleRequest st req post_ok)
      = Some (NativeInputTask MouseScroll x y delta) /\
    (absent req "x" -> x = frame_width st / 2) /\
    (absent req "y" -> y = frame_height st / 2) /\
    (absent req "delta" -> delta = 120).
Proof.
  intros Hw Hh Hp Hty.
  rewrite HandleRequest_input by exact Hp.
  unfold HandleInput. cbv zeta. rewrite Hty.
  change (String.eqb "scroll" "") with false.
  change (String.eqb "scroll" "click") with false.
  change (String.eqb "scroll" "scroll") with true.
  cbv iota.
  do 3 eexists. split; [destruct post_ok; reflexivity|].
  split; [|split]; intros Habs; rewrite (GetParam_absent _ _ Habs);
    rewrite ParseIntDefault_empty.
  - change (-1 <? 0) with true. cbv iota. now apply to_int_half.
  - change (-1 <? 0) with true. cbv iota. now apply to_int_half.
  - reflexivity.
Qed.

Lemma BuildInputScript_unknown (req : HttpRequest) :
  ~ In (ToLowerAscii (GetParam req "type")) known_input_types ->
  BuildInputScript req = "".
Proof.
  intros Hn. unfold BuildInputScript. cbv zeta.
  repeat match goal with
         | |- context [String.eqb ?a ?b] =>
             destruct (String.eqb_spec a b) as [E|_];
             [exfalso; apply Hn; rewrite E; cbn; tauto|]
         end.
  reflexivity.
Qed.

(** C5, as the code has it.  A parsed [/input] request whose type is not
    empty increments the input counter, whatever happens to it afterwards
    (a 400 for an unknown type or bad coordinates, a rejected post); a
    request whose type is empty is answered 400 with the state unchanged;
    a request whose type is unknown or empty is answered 400. *)
Theorem C5_input_counter_amended
    (st : SharedState) (req : HttpRequest) (post_ok : bool) :
  path req = "/input" ->
  let ty := ToLowerAscii (GetParam req "type") in
  let r := HandleRequest st req post_ok in
  (ty <> "" -> input_requests (state_of r) = to_u64 (input_requests st + 1)) /\
  (ty = "" -> state_of r = st /\ status (resp_of r) = 400) /\
  (~ In ty known_input_types -> status (resp_of r) = 400).
Proof.
  intros Hp ty r. subst r.
  rewrite HandleRequest_input by exact Hp.
  unfold HandleInput. cbv zeta. fold ty.
  destruct (String.eqb_spec ty "") as [E0|N0].
  - split; [|split].
    + intros N. contradiction.
    + intros _. split; reflexivity.
    + intros _. reflexivity.
  - split; [|split].
    + intros _. split_state_ifs; reflexivity.
    + intros E. contradiction.
    + intros Hn.
      destruct (String.eqb_spec ty "click") as [E|_];
        [exfalso; apply Hn; rewrite E; cbn; tauto|].
      destruct (String.eqb_spec ty "scroll") as [E|_];
        [exfalso; apply Hn; rewrite E; cbn; tauto|].
      rewrite (BuildInputScript_unknown req Hn). reflexivity.
Qed.

(** C5 as stated fails: a parsed [/input] request without a type leaves
    the input counter where it was. *)
Lemma C5_counterexample :
  let st := main_state Args_default in
  path bare_input_request = "/input" /\
  input_requests (state_of (HandleRequest st bare_input_request true))
    = input_requests st /\
  input_requests (state_of (HandleRequest st bare_input_request true))
    <> to_u64 (input_requests st + 1).
Proof. repeat split. discriminate. Qed.

Lemma GetParam_present_empty (req : HttpRequest) (key : string) :
  present_empty req key -> GetParam req key = "".
Proof.
  unfold GetParam. intros [Hq | [Hq Hf]]; rewrite Hq; [reflexivity|].
  now rewrite Hf.
Qed.

(** C10. A parameter present with the empty value and an absent parameter
    look the same: [GetParam] is the empty string for both, and [/open]
    with an empty [url] and [/eval] with an empty [js] get the very 400
    answer of the requests that leave the parameter out. *)
Theorem C10_empty_value_is_absent
    (st : SharedState) (r1 r2 : HttpRequest) (ok1 ok2 : bool) :
  (forall key, present_empty r1 key -> absent r2 key ->
     GetParam r1 key = "" /\ GetParam r2 key = "") /\
  (path r1 = "/open" -> path r2 = "/open" ->
   present_empty r1 "url" -> absent r2 "url" ->
     HandleRequest st r1 ok1 = (st, json_resp 400 (json_error "missing url"), None)
     /\ HandleRequest st r2 ok2 = HandleRequest st r1 ok1) /\
  (path r1 = "/eval" -> path r2 = "/eval" ->
   present_empty r1 "js" -> absent r2 "js" ->
     HandleRequest st r1 ok1 = (st, json_resp 400 (json_error "missing js"), None)
     /\ HandleRequest st r2 ok2 = HandleRequest st r1 ok1).
Proof.
  split; [|split].
  - intros key H1 H2. split;
      [now apply GetParam_present_empty | now apply GetParam_absent].
  - intros P1 P2 H1 H2. rewrite !HandleRequest_open by assumption.
    unfold HandleOpen. cbv zeta.
    rewrite (GetParam_present_empty _ _ H1), (GetParam_absent _ _ H2).
    split; reflexivity.
  - intros P1 P2 H1 H2. rewrite !HandleRequest_eval by assumption.
    unfold HandleEval. cbv zeta.
    rewrite (GetParam_present_empty _ _ H1), (GetParam_absent _ _ H2).
    split; reflexivity.
Qed.

(** ** The URL decoder *)

Lemma length_append (a b : string) :
  String.length (a +:+ b) = (String.length a + String.length b)%nat.
Proof.
  induction a as [|x a IH]; [reflexivity|].
  rewrite append_cons. cbn [String.length]. now rewrite IH.
Qed.

Lemma char_at_append (pre : string) (c : ascii) (rest : string) :
  char_at (pre +:+ String c rest) (String.length pre) = c.
Proof.
  unfold char_at. induction pre as [|x pre IH]; [reflexivity|].
  rewrite append_cons. exact IH.
Qed.

Lemma substring_append (pre : string) (c h1 h2 : ascii) (rest : string) :
  String.substring (String.length pre + 1) 2
    (pre +:+ String c (String h1 (String h2 rest)))
  = String h1 (str1 h2).
Proof.
  induction pre as [|x pre IH].
  - cbn. now destruct rest.
  - rewrite append_cons. exact IH.
Qed.

Lemma append_snoc (pre : string) (c : ascii) (rest : string) :
  pre +:+ String c rest = (pre +:+ str1 c) +:+ rest.
Proof. now rewrite append_assoc. Qed.

Lemma length_snoc (pre : string) (c : ascii) :
  String.length (pre +:+ str1 c) = (String.length pre + 1)%nat.
Proof. now rewrite length_append. Qed.

(** The loop, started anywhere in the text, decodes what is left. *)
Lemma UrlDecode_loop_rec (n : nat) :
  forall (suf pre out : string) (fuel : nat),
    (String.length suf <= n)%nat -> (String.length suf <= fuel)%nat ->
    UrlDecode_loop fuel (pre +:+ suf) (String.length pre) out
    = out +:+ UrlDecode_rec suf.
Proof.
  induction n as [|n IH]; intros suf pre out fuel Hn Hfuel.
  - destruct suf; [|cbn in Hn; lia].
    rewrite !append_empty_r.
    destruct fuel; cbn [UrlDecode_loop]; [reflexivity|].
    now rewrite Nat.ltb_irrefl.
  - destruct suf as [|c rest].
    + rewrite !append_empty_r.
      destruct fuel; cbn [UrlDecode_loop]; [reflexivity|].
      now rewrite Nat.ltb_irrefl.
    + cbn [String.length] in Hn, Hfuel.
      destruct fuel as [|fuel]; [lia|]. cbn [UrlDecode_loop].
      assert (Hin : (String.length pre
                     <? String.length (pre +:+ String c rest))%nat = true).
      { apply Nat.ltb_lt. rewrite length_append. cbn [String.length]. lia. }
      rewrite Hin, char_at_append.
      assert (Hone : forall o,
                UrlDecode_loop fuel (pre +:+ String c rest)
                  (String.length pre + 1) o
                = o +:+ UrlDecode_rec rest).
      { intros o. rewrite append_snoc, <- (length_snoc pre c).
        apply IH; lia. }
      cbn [UrlDecode_rec].
      destruct (Ascii.eqb c "+").
      { rewrite Hone, append_assoc. reflexivity. }
      destruct rest as [|h1 [|h2 rest2]].
      * rewrite andb_comm.
        assert (Hshort : (String.length pre + 2
                          <? String.length (pre +:+ str1 c))%nat = false)
          by (apply Nat.ltb_ge; rewrite length_append; cbn; lia).
        unfold str1 in Hshort. rewrite Hshort. cbn [andb].
        rewrite Hone, append_assoc. reflexivity.
      * rewrite andb_comm.
        assert (Hshort : (String.length pre + 2
                          <? String.length (pre +:+ String c (str1 h1)))%nat
                         = false)
          by (apply Nat.ltb_ge; rewrite length_append; cbn; lia).
        unfold str1 in Hshort. rewrite Hshort. cbn [andb].
        rewrite Hone, append_assoc. reflexivity.
      * assert (Hlong : (String.length pre + 2
                         <? String.length
                              (pre +:+ String c (String h1 (String h2 rest2))))%nat
                        = true)
          by (apply Nat.ltb_lt; rewrite length_append; cbn [String.length]; lia).
        rewrite Hlong, andb_true_r, substring_append.
        destruct (Ascii.eqb c "%").
        -- destruct (strtol (c_str (String h1 (str1 h2))) 16) as [v end_].
           destruct (String.eqb end_ "").
           ++ replace (pre +:+ String c (String h1 (String h2 rest2)))
                with ((pre +:+ String c (String h1 (str1 h2))) +:+ rest2)
                by (now rewrite append_assoc).
              replace (String.length pre + 2 + 1)%nat
                with (String.length (pre +:+ String c (String h1 (str1 h2))))
                by (rewrite length_append; cbn [String.length str1]; lia).
              rewrite IH by (cbn [String.length] in *; lia).
              rewrite append_assoc. reflexivity.
           ++ rewrite Hone, append_assoc. reflexivity.
        -- rewrite Hone, append_assoc. reflexivity.
Qed.

Lemma UrlDecode_rec_eq (text : string) : UrlDecode text = UrlDecode_rec text.
Proof.
  unfold UrlDecode.
  exact (UrlDecode_loop_rec (String.length text) text "" ""
           (String.length text) (le_n _) (le_n _)).
Qed.

Lemma UrlDecode_plus (rest : string) :
  UrlDecode (String "+" rest) = String " " (UrlDecode rest).
Proof. now rewrite !UrlDecode_rec_eq. Qed.

Lemma UrlDecode_percent (x y : ascii) (rest : string) :
  UrlDecode (String "%" (String x (String y rest))) =
  match decode_pair x y with
  | Some b => String b (UrlDecode rest)
  | None => String "%" (UrlDecode (String x (String y rest)))
  end.
Proof.
  rewrite !UrlDecode_rec_eq. unfold decode_pair.
  change (UrlDecode_rec (String "%" (String x (String y rest)))) with
    (let '(v, end_) := strtol (c_str (String x (str1 y))) 16 in
     if String.eqb end_ ""
     then String (char_of_code (Z.land v 255)) (UrlDecode_rec rest)
     else String "%" (UrlDecode_rec (String x (String y rest)))).
  destruct (strtol (c_str (String x (str1 y))) 16) as [v end_].
  now destruct (String.eqb end_ "").
Qed.

(** A [%] with fewer than two characters after it is copied. *)
Lemma UrlDecode_truncated :
  UrlDecode "%" = "%" /\
  forall a, UrlDecode (String "%" (str1 a)) = String "%" (UrlDecode (str1 a)).
Proof.
  split; [reflexivity|]. intros a. now rewrite !UrlDecode_rec_eq.
Qed.

Lemma is_hex_in (c : ascii) : is_hex c = true -> In c hex_digits.
Proof.
  destruct c as [[] [] [] [] [] [] [] []]; intros H;
    solve [discriminate H | cbn; tauto].
Qed.

Lemma decode_pair_table :
  forallb (fun x => forallb (fun y =>
     match decode_pair x y with
     | Some b => Ascii.eqb b (char_of_code (16 * hex_val x + hex_val y))
     | None => false
     end) hex_digits) hex_digits = true.
Proof. vm_compute. reflexivity. Qed.

(** [%XY] with two hexadecimal digits is the byte 0xXY. *)
Lemma UrlDecode_hex (x y : ascii) (rest : string) :
  is_hex x = true -> is_hex y = true ->
  UrlDecode (String "%" (String x (String y rest))) =
  String (char_of_code (16 * hex_val x + hex_val y)) (UrlDecode rest).
Proof.
  intros Hx Hy. rewrite UrlDecode_percent.
  pose proof decode_pair_table as T.
  rewrite forallb_forall in T.
  specialize (T x (is_hex_in x Hx)). rewrite forallb_forall in T.
  specialize (T y (is_hex_in y Hy)).
  destruct (decode_pair x y) as [b|]; [|discriminate T].
  apply Ascii.eqb_eq in T. now rewrite T.
Qed.

(** C2. [%XY] with hexadecimal digits is the byte 0xXY ([UrlDecode_hex]),
    [+] is a space ([UrlDecode_plus]), and a [%] that is not followed by
    two hexadecimal digits is copied.  The last part fails where [strtol]
    reads more than digits: a sign or a white space before one digit is
    accepted, so [%-1] is the byte 255, [%+4] the byte 4 and [% 7] the
    byte 7, none of them copied. *)
Theorem C2_signed_percent_sequence_decoded :
  is_hex "-" = false /\
  UrlDecode "%-1" = str1 (char_of_code 255) /\
  UrlDecode "%-1" <> "%-1" /\
  UrlDecode "%+4" = str1 (char_of_code 4) /\
  UrlDecode "% 7" = str1 (char_of_code 7).
Proof. repeat split. discriminate. Qed.

(** ** The claims at concrete inputs *)

Example ppm_header_2x1 :
  ppm_header 2 1 = "P6" +:+ str1 LF +:+ "2 1" +:+ str1 LF +:+ "255" +:+ str1 LF.
Proof. reflexivity. Qed.

(** [GET /open?url=http://x]: the open counter goes up by one and the
    answer is 200 with the URL echoed. *)
Example open_request_echo :
  let r := HandleRequest (main_state Args_default) open_request true in
  open_requests (state_of r) = 1 /\
  resp_of r = json_resp 200 (json_open "http://x") /\
  posted_of r = Some (OpenUrlTask "http://x").
Proof. repeat split. Qed.

(** After [/quit] is posted and run, the running flag is down. *)
Example quit_stops_running :
  running (shared (run (init_world [])
                     [EvRequest quit_request true; EvRunTask true])) = false.
Proof. reflexivity. Qed.

Example ParseUrlEncoded_pairs :
  map_to_list (ParseUrlEncoded "a=1&b=%41+c&&d&a=2&")
  = [("a", "2"); ("b", "A c"); ("d", "")].
Proof. vm_compute. reflexivity. Qed.

Lemma world_2x1_reachable : reachable world_2x1.
Proof.
  apply reach_step; [apply reach_init|].
  split; split; discriminate.
Defined.

Lemma C3_witness :
  status (resp_of (HandleRequest
                     (shared (run (init_world []) trace_no_paint))
                     frame_request true)) = 503.
Proof.
  refine (proj2 (C3_frame_503_iff_not_ready [] trace_no_paint
                   frame_request true _ eq_refl) eq_refl).
  repeat constructor.
Defined.

Lemma C4_witness :
  resp_of (HandleRequest (shared world_2x1) frame_request true) =
  mkResp 200 "image/x-portable-pixmap"
    (String "P" (String "6" (String "010"
       (String "2" (String " " (String "1" (String "010"
          (String "2" (String "5" (String "5" (String "010"
             "RGBrgb"))))))))))).
Proof.
  refine (proj1 (C4_frame_body_rgb world_2x1 frame_request true
                   world_2x1_reachable eq_refl _)).
  vm_compute. discriminate.
Defined.

Lemma C5_witness :
  input_requests
    (state_of (HandleRequest (main_state Args_default) bogus_input_request false))
    = 1 /\
  status
    (resp_of (HandleRequest (main_state Args_default) bogus_input_request false))
    = 400.
Proof.
  destruct (C5_input_counter_amended (main_state Args_default)
              bogus_input_request false eq_refl) as (Hinc & _ & Hunknown).
  split.
  - rewrite Hinc; [reflexivity | vm_compute; discriminate].
  - apply Hunknown. vm_compute. intuition discriminate.
Defined.

Lemma C6_witness :
  status (resp_of (HandleRequest (main_state Args_default)
                     eval_request_no_js true)) = 400 /\
  eval_requests (state_of (HandleRequest (main_state Args_default)
                             eval_request_no_js true)) = 0 /\
  posted_of (HandleRequest (main_state Args_default)
               eval_request_no_js true) = None.
Proof.
  assert (Habs : absent eval_request_no_js "js") by (split; reflexivity).
  destruct (C6_eval_without_js (main_state Args_default)
              eval_request_no_js true eq_refl Habs)
    as (H400 & _ & _ & Hcnt & Hnone).
  split; [exact H400 | split; [exact Hcnt | exact Hnone]].
Defined.

Lemma C7_witness :
  posted_of (HandleRequest (main_state (ParseArgs [])) scroll_request true)
  = Some (NativeInputTask MouseScroll 512 320 120).
Proof.
  assert (Hw : 0 <= frame_width (main_state (ParseArgs [])) < U32)
    by (vm_compute; split; [discriminate | reflexivity]).
  assert (Hh : 0 <= frame_height (main_state (ParseArgs [])) < U32)
    by (vm_compute; split; [discriminate | reflexivity]).
  assert (Hty : ToLowerAscii (GetParam scroll_request "type") = "scroll")
    by (vm_compute; reflexivity).
  destruct (C7_scroll_defaults (main_state (ParseArgs [])) scroll_request true
              Hw Hh eq_refl Hty)
    as (x & y & delta & Hposted & Hx & Hy & Hd).
  rewrite Hposted, Hx, Hy, Hd by (split; vm_compute; reflexivity).
  reflexivity.
Defined.

Lemma C8_witness :
  frame_capture (shared world_2x1) = true /\
  frame_width (shared world_2x1) * frame_height (shared world_2x1) * 4
    <= vec_size (frame_bgra (shared world_2x1)).
Proof.
  split; [reflexivity|].
  exact (proj2 (proj2 C8_capture_implies_buffer) world_2x1
           world_2x1_reachable eq_refl).
Defined.

Lemma C9_witness :
  Z.of_nat (length (trace_before ++ trace_after)) < U64 /\
  running (shared (run (init_world []) trace_before)) = false /\
  running (shared (run (init_world []) (trace_before ++ trace_after))) = false /\
  open_requests (shared (run (init_world []) trace_before))
    <= open_requests (shared (run (init_world []) (trace_before ++ trace_after))).
Proof.
  assert (Hlen : Z.of_nat (length (trace_before ++ trace_after)) < U64)
    by (vm_compute; reflexivity).
  assert (Hdown : running (shared (run (init_world []) trace_before)) = false)
    by (vm_compute; reflexivity).
  destruct (C9_running_one_way_counters_monotone [] trace_before trace_after Hlen)
    as (Hrun & Hopen & _).
  split; [exact Hlen | split; [exact Hdown | split; [exact (Hrun Hdown) | exact Hopen]]].
Defined.

Lemma C10_witness :
  HandleRequest (main_state Args_default) empty_url_request true
    = (main_state Args_default, json_resp 400 (json_error "missing url"), None) /\
  HandleRequest (main_state Args_default) no_url_request true
    = HandleRequest (main_state Args_default) empty_url_request true.
Proof.
  apply (proj1 (proj2 (C10_empty_value_is_absent (main_state Args_default)
                         empty_url_request no_url_request true true)));
    try reflexivity.
  - left. vm_compute. reflexivity.
  - split; reflexivity.
Defined.

(** ** Decimal text and [strtol] *)

Lemma dec_digit_plain (c : ascii) :
  is_digit 10 c = true ->
  Ascii.eqb c NUL = false /\ isspace c = false /\
  Ascii.eqb c "-" = false /\ Ascii.eqb c "+" = false /\
  exists k, digit_val c = Some k /\ 0 <= k < 10.
Proof.
  destruct c as [[] [] [] [] [] [] [] []]; intros H;
    solve [discriminate H
          | repeat split; eexists; split; [reflexivity | cbv; split; congruence]].
Qed.

Lemma scan_digits_step (c : ascii) (k : Z) (s : string) (acc : Z) :
  digit_val c = Some k -> k < 10 ->
  scan_digits 10 (String c s) acc = scan_digits 10 s (acc * 10 + k).
Proof.
  intros Hc Hk. cbn [scan_digits]. rewrite Hc.
  apply Z.ltb_lt in Hk. now rewrite Hk.
Qed.

Lemma scan_uint_acc (d : Decimal.uint) :
  forall acc : positive,
    scan_digits 10 (NilEmpty.string_of_uint d) (Z.pos acc)
    = (Z.pos (Pos.of_uint_acc d acc), "").
Proof.
  induction d; intros acc; cbn [NilEmpty.string_of_uint Pos.of_uint_acc];
    try reflexivity;
    (erewrite scan_digits_step; [|reflexivity|reflexivity]);
    eval_char_code;
    match goal with
    | |- scan_digits _ _ ?a = (Z.pos (Pos.of_uint_acc _ ?b), _) =>
        replace a with (Z.pos b) by lia
    end; apply IHd.
Qed.

Lemma scan_uint (d : Decimal.uint) :
  scan_digits 10 (NilEmpty.string_of_uint d) 0 = (Z.of_N (Pos.of_uint d), "").
Proof.
  induction d; cbn [NilEmpty.string_of_uint Pos.of_uint];
    try reflexivity;
    (erewrite scan_digits_step; [|reflexivity|reflexivity]);
    eval_char_code; try exact IHd;
    cbn [Z.mul Z.add Z.sub Z.of_N Z.pos_sub Pos.add Pos.mul Z.succ_double
         Z.pred_double Z.double Pos.pred_double Pos.succ];
    apply scan_uint_acc.
Qed.

Lemma scan_dec (n : Z) : 0 <= n -> scan_digits 10 (dec n) 0 = (n, "").
Proof.
  intros Hn. unfold dec. rewrite scan_uint.
  change (Pos.of_uint (N.to_uint (Z.to_N n)))
    with (N.of_uint (N.to_uint (Z.to_N n))).
  rewrite DecimalN.Unsigned.of_to. now rewrite Z2N.id.
Qed.

Lemma uint_digits_only (d : Decimal.uint) :
  digits_only (NilEmpty.string_of_uint d) = true.
Proof. induction d; cbn [NilEmpty.string_of_uint digits_only]; auto. Qed.

Lemma dec_digits_only (n : Z) : digits_only (dec n) = true.
Proof. apply uint_digits_only. Qed.

Lemma dec_nonempty (n : Z) : 0 <= n -> dec n <> "".
Proof.
  intros Hn E. pose proof (scan_dec n Hn) as H. rewrite E in H.
  cbn in H. assert (n = 0) by congruence. subst n. discriminate E.
Qed.

Lemma c_str_digits (s : string) : digits_only s = true -> c_str s = s.
Proof.
  induction s as [|c s IH]; [reflexivity|]. cbn [digits_only c_str].
  intros H. apply andb_prop in H as [Hc Hs].
  destruct (dec_digit_plain c Hc) as (-> & _). now rewrite IH.
Qed.

(** [strtol] reads a run of decimal digits to its end. *)
Lemma strtol_digits (s : string) :
  s <> "" -> digits_only s = true ->
  strtol s 10 = (clamp_long (fst (scan_digits 10 s 0)),
                 snd (scan_digits 10 s 0)).
Proof.
  intros Hne Hd. destruct s as [|c r]; [contradiction|].
  cbn [digits_only] in Hd. apply andb_prop in Hd as [Hc Hr].
  destruct (dec_digit_plain c Hc) as (_ & Hsp & Hm & Hp & _).
  unfold strtol. cbn [skip_space]. rewrite Hsp.
  cbn [take_sign]. rewrite Hm, Hp.
  assert (Hpre : skip_hex_prefix 10 (String c r) = String c r)
    by (destruct r; reflexivity).
  rewrite Hpre. cbn [starts_with_digit]. rewrite Hc.
  now destruct (scan_digits 10 (String c r) 0).
Qed.

Lemma strtol_minus_digits (s : string) :
  s <> "" -> digits_only s = true ->
  strtol (String "-" s) 10 = (clamp_long (- fst (scan_digits 10 s 0)),
                              snd (scan_digits 10 s 0)).
Proof.
  intros Hne Hd. destruct s as [|c r]; [contradiction|].
  cbn [digits_only] in Hd. apply andb_prop in Hd as [Hc Hr].
  unfold strtol.
  change (skip_space (String "-" (String c r))) with (String "-" (String c r)).
  change (take_sign (String "-" (String c r))) with (true, String c r).
  cbv iota.
  assert (Hpre : skip_hex_prefix 10 (String c r) = String c r)
    by (destruct r; reflexivity).
  rewrite Hpre. cbn [starts_with_digit]. rewrite Hc.
  now destruct (scan_digits 10 (String c r) 0).
Qed.

Lemma strtol_dec (n : Z) :
  0 <= n <= LONG_MAX -> strtol (c_str (dec n)) 10 = (n, "").
Proof.
  intros Hn. rewrite c_str_digits by apply dec_digits_only.
  rewrite strtol_digits by (try apply dec_digits_only; apply dec_nonempty; lia).
  rewrite scan_dec by lia. cbn [fst snd].
  unfold clamp_long, LONG_MIN, LONG_MAX in *. f_equal. lia.
Qed.

(** X1. [ParseIntDefault] reads back the decimal text of every [int],
    negative ones included, whatever the fallback is. *)
Theorem X1_ParseIntDefault_reads_int_text (v fallback : Z) :
  INT32_MIN <= v <= INT32_MAX ->
  ParseIntDefault (int_text v) fallback = v.
Proof.
  unfold INT32_MIN, INT32_MAX. intros Hv.
  unfold ParseIntDefault, int_text.
  destruct (v <? 0) eqn:Hneg.
  - apply Z.ltb_lt in Hneg.
    change (String.eqb (String "-" (dec (- v))) "") with false. cbv iota.
    change (c_str (String "-" (dec (- v))))
      with (String "-" (c_str (dec (- v)))).
    rewrite c_str_digits by apply dec_digits_only.
    rewrite strtol_minus_digits
      by (try apply dec_digits_only; apply dec_nonempty; lia).
    rewrite scan_dec by lia. cbn [fst snd negb String.eqb].
    assert (E : clamp_long (- - v) = v)
      by (unfold clamp_long, LONG_MIN, LONG_MAX; lia).
    rewrite E.
    assert (H1 : (v <? INT32_MIN) = false)
      by (apply Z.ltb_ge; unfold INT32_MIN; lia).
    assert (H2 : (v >? INT32_MAX) = false)
      by (rewrite Z.gtb_ltb; apply Z.ltb_ge; unfold INT32_MAX; lia).
    now rewrite H1, H2.
  - apply Z.ltb_ge in Hneg.
    destruct (String.eqb_spec (dec v) "") as [E|_];
      [now apply dec_nonempty in E|].
    rewrite strtol_dec by (unfold LONG_MAX; lia).
    cbn [negb String.eqb].
    assert (H1 : (v <? INT32_MIN) = false)
      by (apply Z.ltb_ge; unfold INT32_MIN; lia).
    assert (H2 : (v >? INT32_MAX) = false)
      by (rewrite Z.gtb_ltb; apply Z.ltb_ge; unfold INT32_MAX; lia).
    now rewrite H1, H2.
Qed.

Lemma append_nil_l (s : string) : "" +:+ s = s.
Proof. reflexivity. Qed.

Lemma c_str_nul_free (s : string) : nul_free s = true -> c_str s = s.
Proof.
  induction s as [|c s IH]; [reflexivity|]. cbn [nul_free c_str].
  intros H. apply andb_prop in H as [Hc Hs].
  apply negb_true_iff in Hc. now rewrite Hc, IH.
Qed.

Lemma skip_hex_prefix_10 (s : string) : skip_hex_prefix 10 s = s.
Proof. destruct s as [|z [|x r]]; reflexivity. Qed.

Lemma scan_rest_snoc (b : Z) (c : ascii) (t : string) :
  is_digit b c = false ->
  forall acc, snd (scan_digits b (t +:+ str1 c) acc) <> "".
Proof.
  intros Hc. unfold is_digit in Hc.
  induction t as [|a t IH]; intros acc.
  - rewrite append_nil_l. cbn [str1 scan_digits].
    destruct (digit_val c) as [d|]; [rewrite Hc|]; discriminate.
  - rewrite append_cons. cbn [scan_digits].
    destruct (digit_val a) as [d|]; [|discriminate].
    destruct (d <? b); [apply IH | discriminate].
Qed.

Lemma skip_space_snoc (c : ascii) (t : string) :
  skip_space (t +:+ str1 c) = "" \/
  exists t', skip_space (t +:+ str1 c) = t' +:+ str1 c.
Proof.
  induction t as [|a t IH].
  - rewrite append_nil_l. cbn [str1 skip_space].
    destruct (isspace c); [now left | right; now exists ""].
  - rewrite append_cons. cbn [skip_space].
    destruct (isspace a); [exact IH|]. right. exists (String a t).
    now rewrite append_cons.
Qed.

Lemma strtol_end_snoc (c : ascii) (t : string) :
  is_digit 10 c = false -> snd (strtol (t +:+ str1 c) 10) <> "".
Proof.
  intros Hc.
  assert (Hne : t +:+ str1 c <> "") by (destruct t; discriminate).
  unfold strtol.
  destruct (skip_space_snoc c t) as [E | [t1 E]]; rewrite E.
  - cbn. exact Hne.
  - assert (Hs : exists neg s2, take_sign (t1 +:+ str1 c) = (neg, s2) /\
                   (s2 = "" \/ exists t2, s2 = t2 +:+ str1 c)).
    { destruct t1 as [|a t1].
      - rewrite append_nil_l. cbn [str1 take_sign].
        destruct (Ascii.eqb c "-"); [eauto|].
        destruct (Ascii.eqb c "+"); [eauto|].
        do 2 eexists. split; [reflexivity|]. right. now exists "".
      - rewrite append_cons. cbn [take_sign].
        destruct (Ascii.eqb a "-"); [eauto 6|].
        destruct (Ascii.eqb a "+"); [eauto 6|].
        do 2 eexists. split; [reflexivity|]. right. exists (String a t1).
        now rewrite append_cons. }
    destruct Hs as (neg & s2 & -> & Hs2). rewrite skip_hex_prefix_10.
    destruct Hs2 as [-> | [t2 ->]]; [cbn; exact Hne|].
    destruct (starts_with_digit 10 (t2 +:+ str1 c)); [|exact Hne].
    pose proof (scan_rest_snoc 10 c t2 Hc 0) as Hr.
    destruct (scan_digits 10 (t2 +:+ str1 c) 0). exact Hr.
Qed.

(** X2. Text that ends in a character that is not a decimal digit is
    never taken as a number: [ParseIntDefault] gives the fallback. *)
Theorem X2_ParseIntDefault_rejects_trailing_text
    (t : string) (c : ascii) (fallback : Z) :
  nul_free (t +:+ str1 c) = true ->
  is_digit 10 c = false ->
  ParseIntDefault (t +:+ str1 c) fallback = fallback.
Proof.
  intros Hnul Hc. unfold ParseIntDefault.
  destruct (String.eqb (t +:+ str1 c) ""); [reflexivity|].
  rewrite c_str_nul_free by exact Hnul.
  pose proof (strtol_end_snoc c t Hc) as Hend.
  destruct (strtol (t +:+ str1 c) 10) as [value end_]. cbn [snd] in Hend.
  destruct (String.eqb_spec end_ "") as [E|_]; [contradiction|]. reflexivity.
Qed.

(** X3. Whatever the text, [ParseIntDefault] gives the fallback, or a
    value of the [int] range that [strtol] read from the whole of the
    text (which is then not empty), up to its first NUL: what is
    returned as a number has been read as that number, and the
    conversion to [int] does not wrap. *)
Theorem X3_ParseIntDefault_fallback_or_int (text : string) (fallback : Z) :
  ParseIntDefault text fallback = fallback \/
  (INT32_MIN <= ParseIntDefault text fallback <= INT32_MAX /\
   text <> "" /\
   strtol (c_str text) 10 = (ParseIntDefault text fallback, "")).
Proof.
  unfold ParseIntDefault.
  destruct (String.eqb_spec text "") as [|Hne]; [now left|].
  destruct (strtol (c_str text) 10) as [value end_].
  destruct (String.eqb_spec end_ "") as [->|]; cbn [negb]; [|now left].
  destruct (value <? INT32_MIN) eqn:Hlo; [now left|].
  destruct (value >? INT32_MAX) eqn:Hhi; [now left|].
  right. cbn [orb]. repeat split; try assumption; lia.
Qed.

(** A text that [strtol] does not read to its end is not a number. *)
Lemma ParseIntDefault_unread (text : string) (fallback : Z) :
  snd (strtol (c_str text) 10) <> "" -> ParseIntDefault text fallback = fallback.
Proof.
  intros Hend. unfold ParseIntDefault.
  destruct (String.eqb text ""); [reflexivity|].
  destruct (strtol (c_str text) 10) as [value end_]. cbn [snd] in Hend.
  destruct (String.eqb_spec end_ "") as [E|_]; [contradiction|]. reflexivity.
Qed.

(** The decimal text of a negative [int] is read as that [int]. *)
Lemma ParseIntDefault_negative (v fallback : Z) :
  INT32_MIN <= v < 0 -> ParseIntDefault (int_text v) fallback = v.
Proof.
  unfold INT32_MIN. intros Hv. unfold ParseIntDefault, int_text.
  assert (Hneg : (v <? 0) = true) by (apply Z.ltb_lt; lia). rewrite Hneg.
  change (String.eqb (String "-" (dec (- v))) "") with false. cbv iota.
  change (c_str (String "-" (dec (- v))))
    with (String "-" (c_str (dec (- v)))).
  rewrite c_str_digits by apply dec_digits_only.
  rewrite strtol_minus_digits
    by (try apply dec_digits_only; apply dec_nonempty; lia).
  rewrite scan_dec by lia. cbn [fst snd negb String.eqb].
  assert (E : clamp_long (- - v) = v)
    by (unfold clamp_long, LONG_MIN, LONG_MAX; lia).
  rewrite E.
  assert (H1 : (v <? INT32_MIN) = false)
    by (apply Z.ltb_ge; unfold INT32_MIN; lia).
  assert (H2 : (v >? INT32_MAX) = false)
    by (rewrite Z.gtb_ltb; apply Z.ltb_ge; unfold INT32_MAX; lia).
  rewrite H1, H2. reflexivity.
Qed.

(** The decimal text of an [int] that is not negative is read as it. *)
Lemma ParseIntDefault_natural (v fallback : Z) :
  0 <= v <= INT32_MAX -> ParseIntDefault (int_text v) fallback = v.
Proof.
  unfold INT32_MAX. intros Hv. unfold ParseIntDefault, int_text.
  assert (Hneg : (v <? 0) = false) by (apply Z.ltb_ge; lia). rewrite Hneg.
  destruct (String.eqb_spec (dec v) "") as [E|_];
    [exfalso; apply (dec_nonempty v); [lia | exact E]|].
  rewrite strtol_dec by (unfold LONG_MAX; lia).
  cbn [negb String.eqb].
  assert (H1 : (v <? INT32_MIN) = false)
    by (apply Z.ltb_ge; unfold INT32_MIN; lia).
  assert (H2 : (v >? INT32_MAX) = false)
    by (rewrite Z.gtb_ltb; apply Z.ltb_ge; unfold INT32_MAX; lia).
  rewrite H1, H2. reflexivity.
Qed.

(** A text that starts with a NUL byte is an empty C string, which
    [strtol] reads as 0 with nothing left over. *)
Lemma ParseIntDefault_leading_nul (t : string) (fallback : Z) :
  ParseIntDefault (String "000" t) fallback = 0.
Proof. reflexivity. Qed.

(** ** The two escapers *)

Lemma JsonEscape_injective_aux (s1 : string) :
  forall s2, JsonEscape s1 = JsonEscape s2 -> s1 = s2.
Proof.
  induction s1 as [|c1 r1 IH]; intros [|c2 r2] H; cbn [JsonEscape] in H.
  - reflexivity.
  - exfalso. unfold str1 in H. split_ascii_tests;
      rewrite ?append_cons, ?append_nil_l in H; discriminate H.
  - exfalso. unfold str1 in H. split_ascii_tests;
      rewrite ?append_cons, ?append_nil_l in H; discriminate H.
  - unfold str1 in H. split_ascii_tests;
      rewrite ?append_cons, ?append_nil_l in H;
      injection H as H; subst;
      try discriminate; try congruence;
      try (injection H as H; subst; try discriminate; try congruence);
      f_equal; now apply IH.
Qed.

Lemma JsonEscape_literal_ok (s : string) : dq_literal_ok (JsonEscape s) = true.
Proof.
  induction s as [|c r IH]; [reflexivity|]. cbn [JsonEscape].
  unfold str1.
  destruct (Ascii.eqb_spec c BSL);
    [rewrite !append_cons, append_nil_l; exact IH|].
  destruct (Ascii.eqb_spec c DQ);
    [rewrite !append_cons, append_nil_l; exact IH|].
  destruct (Ascii.eqb_spec c LF);
    [rewrite !append_cons, append_nil_l; exact IH|].
  destruct (Ascii.eqb_spec c CR);
    [rewrite !append_cons, append_nil_l; exact IH|].
  destruct (Ascii.eqb_spec c TAB);
    [rewrite !append_cons, append_nil_l; exact IH|].
  rewrite append_cons, append_nil_l. cbn [dq_literal_ok].
  repeat match goal with
         | H : c <> _ |- _ => apply Ascii.eqb_neq in H; rewrite H; clear H
         end.
  exact IH.
Qed.

(** X4. [JsonEscape] loses nothing (different texts have different
    escapes), and its output, read as the inside of a double-quoted
    literal, never shows a bare quote, line feed, carriage return or tab. *)
Theorem X4_JsonEscape_injective_and_closed :
  (forall s1 s2, JsonEscape s1 = JsonEscape s2 -> s1 = s2) /\
  (forall s, dq_literal_ok (JsonEscape s) = true).
Proof.
  split; [intros s1 s2; apply JsonEscape_injective_aux
         | apply JsonEscape_literal_ok].
Qed.




(** ** More on [UrlDecode] and [ParseUrlEncoded] *)

Lemma UrlDecode_rec_plain (a b : string) :
  plain_url a = true -> UrlDecode_rec (a +:+ b) = a +:+ UrlDecode_rec b.
Proof.
  unfold plain_url. induction a as [|c a IH]; intros H; [reflexivity|].
  cbn [no_char] in H.
  apply andb_prop in H as [H1 H2].
  apply andb_prop in H1 as [Hp H1]. apply andb_prop in H2 as [Hq H2].
  apply negb_true_iff in Hp, Hq.
  rewrite !append_cons. cbn [UrlDecode_rec]. rewrite Hp, Hq.
  rewrite IH by (now rewrite H1, H2).
  now destruct (a +:+ b) as [|h1 [|h2 r]].
Qed.

(** X6. Text without [+] and [%] goes through [UrlDecode] untouched, and
    decoding goes on behind it as if it were not there. *)
Theorem X6_UrlDecode_plain_prefix (a b : string) :
  plain_url a = true -> UrlDecode (a +:+ b) = a +:+ UrlDecode b.
Proof. intros H. rewrite !UrlDecode_rec_eq. now apply UrlDecode_rec_plain. Qed.

Lemma UrlDecode_rec_length (n : nat) :
  forall s, (String.length s <= n)%nat ->
            (String.length (UrlDecode_rec s) <= String.length s)%nat.
Proof.
  induction n as [|n IH]; intros s Hn.
  - destruct s; [cbn; lia | cbn in Hn; lia].
  - destruct s as [|c rest]; [cbn; lia|].
    cbn [String.length] in Hn.
    assert (Hrest : (String.length (UrlDecode_rec rest)
                     <= String.length rest)%nat) by (apply IH; lia).
    cbn [UrlDecode_rec].
    destruct (Ascii.eqb c "+"); [cbn [String.length]; lia|].
    destruct rest as [|h1 [|h2 rest2]];
      try (cbn [String.length] in *; lia).
    destruct (Ascii.eqb c "%"); [|cbn [String.length] in *; lia].
    destruct (strtol (c_str (String h1 (str1 h2))) 16) as [v end_].
    destruct (String.eqb end_ ""); [|cbn [String.length] in *; lia].
    assert (Hrest2 : (String.length (UrlDecode_rec rest2)
                      <= String.length rest2)%nat)
      by (apply IH; cbn [String.length] in Hn; lia).
    cbn [String.length]. lia.
Qed.

(** X7. [UrlDecode] never makes a text longer. *)
Theorem X7_UrlDecode_never_longer (s : string) :
  (String.length (UrlDecode s) <= String.length s)%nat.
Proof. rewrite UrlDecode_rec_eq. now apply (UrlDecode_rec_length (String.length s)). Qed.

Lemma add_pair_empty (m : gmap string string) : add_pair m "" = m.
Proof. reflexivity. Qed.

Lemma getlines_split_first (d : ascii) (s : string) :
  getlines d s =
  match split_first d s with
  | Some (l, r) => l :: getlines d r
  | None => if String.eqb s "" then [] else [s]
  end.
Proof.
  induction s as [|c rest IH]; [reflexivity|].
  cbn [getlines split_first]. rewrite Ascii.eqb_sym.
  destruct (Ascii.eqb d c); [reflexivity|].
  rewrite IH. destruct (split_first d rest) as [[l r]|]; [reflexivity|].
  now destruct rest.
Qed.

Lemma split_first_app_some (d : ascii) (a l r s : string) :
  split_first d a = Some (l, r) -> split_first d (a +:+ s) = Some (l, r +:+ s).
Proof.
  revert l r. induction a as [|c a IH]; intros l r H; [discriminate|].
  rewrite append_cons. cbn [split_first] in *.
  destruct (Ascii.eqb c d); [now inversion H|].
  destruct (split_first d a) as [[l' r']|] eqn:E; [|discriminate].
  inversion H; subst. now rewrite (IH _ _ eq_refl).
Qed.

Lemma split_first_app_none (d : ascii) (a b : string) :
  split_first d a = None -> split_first d (a +:+ String d b) = Some (a, b).
Proof.
  induction a as [|c a IH]; intros H.
  - rewrite append_nil_l. cbn [split_first]. now rewrite Ascii.eqb_refl.
  - rewrite append_cons. cbn [split_first] in *.
    destruct (Ascii.eqb c d); [discriminate|].
    destruct (split_first d a) as [[l' r']|]; [discriminate|].
    now rewrite IH.
Qed.

Lemma split_first_shorter (d : ascii) (a l r : string) :
  split_first d a = Some (l, r) -> (String.length r < String.length a)%nat.
Proof.
  revert l r. induction a as [|c a IH]; intros l r H; [discriminate|].
  cbn [split_first] in H. cbn [String.length].
  destruct (Ascii.eqb c d); [inversion H; subst; lia|].
  destruct (split_first d a) as [[l' r']|] eqn:E; [|discriminate].
  inversion H; subst. specialize (IH _ _ eq_refl). lia.
Qed.

Lemma fold_pairs_app (n : nat) :
  forall (a b : string) (m : gmap string string),
    (String.length a <= n)%nat ->
    fold_left add_pair (getlines "&" (a +:+ String "&" b)) m
    = fold_left add_pair (getlines "&" b)
        (fold_left add_pair (getlines "&" a) m).
Proof.
  induction n as [|n IH]; intros a b m Hn.
  - destruct a; [reflexivity | cbn in Hn; lia].
  - rewrite (getlines_split_first "&" (a +:+ String "&" b)).
    rewrite (getlines_split_first "&" a).
    destruct (split_first "&" a) as [[l r]|] eqn:Hs.
    + rewrite (split_first_app_some _ _ _ _ _ Hs).
      cbn [fold_left]. apply IH.
      apply split_first_shorter in Hs. lia.
    + rewrite (split_first_app_none _ _ _ Hs). cbn [fold_left].
      destruct (String.eqb_spec a "") as [->|_]; reflexivity.
Qed.

Lemma ParseUrlEncoded_app (a b : string) :
  ParseUrlEncoded (a +:+ String "&" b)
  = fold_left add_pair (getlines "&" b) (ParseUrlEncoded a).
Proof. unfold ParseUrlEncoded. now apply (fold_pairs_app (String.length a)). Qed.

(** X8. Parameters are taken from left to right: the map for
    [a & b] is the map for [a] with the pairs of [b] put on top. *)
Theorem X8_ParseUrlEncoded_left_to_right (a b : string) :
  ParseUrlEncoded (a +:+ String "&" b)
  = fold_left add_pair (getlines "&" b) (ParseUrlEncoded a).
Proof. apply ParseUrlEncoded_app. Qed.

Lemma split_first_no_char (d : ascii) (s : string) :
  no_char d s = true -> split_first d s = None.
Proof.
  induction s as [|c s IH]; [reflexivity|]. cbn [no_char split_first].
  intros H. apply andb_prop in H as [Hc Hs]. apply negb_true_iff in Hc.
  now rewrite Hc, IH.
Qed.

Lemma no_char_app (d : ascii) (a b : string) :
  no_char d (a +:+ b) = no_char d a && no_char d b.
Proof.
  induction a as [|c a IH]; [reflexivity|].
  rewrite append_cons. cbn [no_char]. now rewrite IH, andb_assoc.
Qed.

Lemma getlines_single (d : ascii) (s : string) :
  s <> "" -> no_char d s = true -> getlines d s = [s].
Proof.
  intros Hne Hd. rewrite getlines_split_first, split_first_no_char by exact Hd.
  now destruct (String.eqb_spec s "").
Qed.

(** X9. The last occurrence wins: when the text ends in the pair
    [k=v], the decoded key is mapped to the decoded value whatever came
    before; when it ends in a bare [k], the decoded key is mapped to
    the empty text. *)
Theorem X9_ParseUrlEncoded_last_pair_wins (a k v : string) :
  k <> "" ->
  no_char "&" k = true -> no_char "=" k = true -> no_char "&" v = true ->
  ParseUrlEncoded (a +:+ String "&" (k +:+ String "=" v)) !! UrlDecode k
    = Some (UrlDecode v) /\
  ParseUrlEncoded (a +:+ String "&" k) !! UrlDecode k = Some "".
Proof.
  intros Hk Hka Hke Hva. rewrite !ParseUrlEncoded_app.
  split.
  - rewrite getlines_single.
    + cbn [fold_left]. unfold add_pair.
      destruct (String.eqb_spec (k +:+ String "=" v) "") as [E|_];
        [destruct k; discriminate|].
      rewrite (split_first_app_none "=" k v (split_first_no_char _ _ Hke)).
      apply lookup_insert_eq.
    + destruct k; discriminate.
    + rewrite no_char_app. cbn [no_char]. now rewrite Hka, Hva.
  - rewrite getlines_single by assumption.
    cbn [fold_left]. unfold add_pair.
    destruct (String.eqb_spec k "") as [E|_]; [contradiction|].
    rewrite (split_first_no_char _ _ Hke). apply lookup_insert_eq.
Qed.

(** ** [ParseBindAddr] *)

Lemma split_last_sound (c : ascii) (s : string) :
  forall l r, split_last c s = Some (l, r) ->
              s = l +:+ String c r /\ no_char c r = true.
Proof.
  induction s as [|a s IH]; intros l r H; [discriminate|].
  cbn [split_last] in H.
  destruct (split_last c s) as [[l' r']|] eqn:E.
  - inversion H; subst. destruct (IH _ _ eq_refl) as [-> Hr].
    now rewrite append_cons.
  - destruct (Ascii.eqb_spec a c) as [->|_]; [|discriminate].
    inversion H; subst. split; [reflexivity|].
    clear H IH. induction r as [|b r IHr]; [reflexivity|].
    cbn [split_last] in E. cbn [no_char].
    destruct (split_last c r) as [[? ?]|]; [discriminate|].
    destruct (Ascii.eqb b c); [discriminate|]. now rewrite IHr.
Qed.

Lemma split_last_no_char (c : ascii) (r : string) :
  no_char c r = true -> split_last c r = None.
Proof.
  induction r as [|b r IH]; [reflexivity|]. cbn [no_char split_last].
  intros H. apply andb_prop in H as [Hb Hr]. apply negb_true_iff in Hb.
  now rewrite IH, Hb.
Qed.

Lemma split_last_app (c : ascii) (l r : string) :
  no_char c r = true -> split_last c (l +:+ String c r) = Some (l, r).
Proof.
  intros Hr. induction l as [|a l IH].
  - rewrite append_nil_l. cbn [split_last].
    now rewrite split_last_no_char, Ascii.eqb_refl.
  - rewrite append_cons. cbn [split_last]. now rewrite IH.
Qed.

Lemma digits_no_colon (s : string) : digits_only s = true -> no_char ":" s = true.
Proof.
  induction s as [|c s IH]; [reflexivity|]. cbn [digits_only no_char].
  intros H. apply andb_prop in H as [Hc Hs]. rewrite IH by exact Hs.
  destruct (Ascii.eqb_spec c ":") as [->|_]; [discriminate Hc | reflexivity].
Qed.

(** X10. What [ParseBindAddr] accepts: the text is [host:port-text] cut
    at its last colon, the host is not empty and the port is between 1
    and 65535. *)
Theorem X10_ParseBindAddr_sound (bind_addr host : string) (port : Z) :
  ParseBindAddr bind_addr = Some (host, port) ->
  host <> "" /\ 1 <= port <= 65535 /\
  exists port_str,
    bind_addr = host +:+ String ":" port_str /\
    port_str <> "" /\ no_char ":" port_str = true /\
    strtol (c_str port_str) 10 = (port, "").
Proof.
  unfold ParseBindAddr. intros H.
  destruct (split_last ":" bind_addr) as [[h p]|] eqn:Hs; [|discriminate].
  destruct (split_last_sound _ _ _ _ Hs) as [-> Hp].
  destruct (String.eqb_spec h "") as [|Hh]; [discriminate|].
  destruct (String.eqb_spec p "") as [|Hpn]; [discriminate|].
  cbn [orb] in H.
  destruct (strtol (c_str p) 10) as [v end_] eqn:Hst.
  destruct (String.eqb_spec end_ "") as [Ee|]; [|discriminate].
  rewrite Ee in Hst.
  cbn [negb orb] in H.
  destruct (v <=? 0) eqn:H0; [discriminate|].
  destruct (v >? 65535) eqn:H1; [discriminate|].
  cbn [orb] in H. inversion H; subst.
  apply Z.leb_gt in H0. rewrite Z.gtb_ltb in H1. apply Z.ltb_ge in H1.
  rewrite Z.mod_small by lia.
  repeat split; try assumption; try lia.
  exists p. repeat split; assumption.
Qed.

(** X11. [ParseBindAddr] reads back a host and a port written as
    [host:port] in decimal, also when the host has colons of its own. *)
Theorem X11_ParseBindAddr_reads_host_port (host : string) (port : Z) :
  host <> "" -> 1 <= port <= 65535 ->
  ParseBindAddr (host +:+ String ":" (dec port)) = Some (host, port).
Proof.
  intros Hh Hp. unfold ParseBindAddr.
  rewrite split_last_app by (apply digits_no_colon, dec_digits_only).
  destruct (String.eqb_spec host "") as [|_]; [contradiction|].
  destruct (String.eqb_spec (dec port) "") as [E|_];
    [apply dec_nonempty in E; [contradiction | lia]|].
  cbn [orb]. rewrite strtol_dec by (unfold LONG_MAX; lia).
  cbn [String.eqb negb orb].
  assert (H0 : (port <=? 0) = false) by (apply Z.leb_gt; lia).
  assert (H1 : (port >? 65535) = false)
    by (rewrite Z.gtb_ltb; apply Z.ltb_ge; lia).
  rewrite H0, H1. cbn [orb]. now rewrite Z.mod_small by lia.
Qed.

(** ** [ParseHttpRequest] *)

Lemma prefix_split (p s : string) :
  String.prefix p s = true -> s = p +:+ drop (String.length p) s.
Proof.
  revert s. induction p as [|a p IH]; intros s H; [reflexivity|].
  destruct s as [|b s]; [discriminate|]. cbn [String.prefix] in H.
  destruct (ascii_dec a b) as [->|]; [|discriminate].
  rewrite append_cons. cbn [String.length drop]. f_equal. now apply IH.
Qed.

Lemma prefix_app (p r : string) : String.prefix p (p +:+ r) = true.
Proof.
  induction p as [|a p IH]; [now destruct r|].
  rewrite append_cons. cbn [String.prefix].
  destruct (ascii_dec a a); [exact IH | contradiction].
Qed.

Lemma split_at_sub_sound (pat : string) (s : string) :
  forall l r, split_at_sub pat s = Some (l, r) -> s = l +:+ pat +:+ r.
Proof.
  induction s as [|c s IH]; intros l r H.
  - cbn [split_at_sub] in H.
    destruct (String.prefix pat "") eqn:Hp; [|discriminate].
    inversion H; subst. rewrite append_nil_l. now apply prefix_split.
  - cbn [split_at_sub] in H.
    destruct (String.prefix pat (String c s)) eqn:Hp.
    + inversion H; subst. rewrite append_nil_l. now apply prefix_split.
    + destruct (split_at_sub pat s) as [[l' r']|] eqn:E; [|discriminate].
      inversion H; subst. rewrite append_cons. f_equal. now apply IH.
Qed.

(** The cut is at the first occurrence. *)
Lemma split_at_sub_first (pat : string) (s : string) :
  forall l r l' r',
    split_at_sub pat s = Some (l, r) -> s = l' +:+ pat +:+ r' ->
    (String.length l <= String.length l')%nat.
Proof.
  induction s as [|c s IH]; intros l r l' r' H E.
  - cbn [split_at_sub] in H.
    destruct (String.prefix pat ""); [|discriminate].
    inversion H; subst. cbn; lia.
  - cbn [split_at_sub] in H.
    destruct (String.prefix pat (String c s)) eqn:Hp.
    + inversion H; subst. cbn; lia.
    + destruct (split_at_sub pat s) as [[l0 r0]|] eqn:E0; [|discriminate].
      inversion H; subst.
      destruct l' as [|c' l'].
      * rewrite append_nil_l in E. rewrite E, prefix_app in Hp. discriminate.
      * rewrite append_cons in E. inversion E; subst.
        cbn [String.length]. apply le_n_S. now apply (IH l0 r l' r').
Qed.

Lemma tolower_idem (c : ascii) : tolower (tolower c) = tolower c.
Proof. destruct c as [[] [] [] [] [] [] [] []]; reflexivity. Qed.

Lemma ToLowerAscii_idem (s : string) : ToLowerAscii (ToLowerAscii s) = ToLowerAscii s.
Proof.
  induction s as [|c s IH]; [reflexivity|].
  cbn [ToLowerAscii]. now rewrite tolower_idem, IH.
Qed.

Lemma split_first_left_no_char (d : ascii) (s : string) :
  forall l r, split_first d s = Some (l, r) -> no_char d l = true.
Proof.
  induction s as [|c s IH]; intros l r H; [discriminate|].
  cbn [split_first] in H.
  destruct (Ascii.eqb c d) eqn:Hc; [now inversion H|].
  destruct (split_first d s) as [[l' r']|] eqn:E; [|discriminate].
  inversion H; subst. cbn [no_char]. rewrite Hc. cbn. now apply (IH l' r).
Qed.

Lemma split_first_none_no_char (d : ascii) (s : string) :
  split_first d s = None -> no_char d s = true.
Proof.
  induction s as [|c s IH]; [reflexivity|]. cbn [split_first no_char].
  destruct (Ascii.eqb c d); [discriminate|].
  destruct (split_first d s) as [[? ?]|]; [discriminate|]. auto.
Qed.

Lemma target_path_no_question (t : string) : no_char "?" (target_path t) = true.
Proof.
  unfold target_path.
  destruct (split_first "?" t) as [[p q]|] eqn:E.
  - now apply (split_first_left_no_char _ _ _ _ E).
  - now apply split_first_none_no_char.
Qed.

Lemma add_header_keys_lower (lines : list string) :
  forall hs : gmap string string,
    (forall k v, hs !! k = Some v -> ToLowerAscii k = k) ->
    forall k v, fold_left add_header lines hs !! k = Some v ->
                ToLowerAscii k = k.
Proof.
  induction lines as [|line lines IH]; intros hs Hhs; [exact Hhs|].
  cbn [fold_left]. apply IH. intros k v.
  unfold add_header.
  destruct (split_first ":" (strip_cr line)) as [[k0 v0]|]; [|apply Hhs].
  destruct (decide (ToLowerAscii k0 = k)) as [<-|Hne].
  - intros _. apply ToLowerAscii_idem.
  - rewrite lookup_insert_ne by exact Hne. apply Hhs.
Qed.

(** X12. What a parsed request looks like: the raw text is the head, the
    first blank line and the body; the method is in lower case; the path
    holds no question mark; every header key is in lower case; and there
    are form parameters only when a [Content-Type] header names the
    URL-encoded form type, and then they are those of the body. *)
Theorem X12_ParseHttpRequest_sound (raw : string) (req : HttpRequest) :
  ParseHttpRequest raw = Some req ->
  (exists head,
     raw = head +:+ CRLFCRLF +:+ body req /\
     forall head' body', raw = head' +:+ CRLFCRLF +:+ body' ->
                         (String.length head <= String.length head')%nat) /\
  ToLowerAscii (method req) = method req /\
  no_char "?" (path req) = true /\
  (forall k v, headers req !! k = Some v -> ToLowerAscii k = k) /\
  (form req = ∅ \/
   exists ct, headers req !! "content-type" = Some ct /\
     contains "application/x-www-form-urlencoded" (ToLowerAscii ct) = true /\
     form req = ParseUrlEncoded (body req)).
Proof.
  unfold ParseHttpRequest. intros H.
  destruct (split_at_sub CRLFCRLF raw) as [[head body0]|] eqn:Hs; [|discriminate].
  destruct (getlines LF head) as [|line header_lines]; [discriminate|].
  destruct (next_word (strip_cr line)) as [[m r1]|]; [|discriminate].
  destruct (next_word r1) as [[target r2]|]; [|discriminate].
  destruct (next_word r2) as [[version r3]|]; [|discriminate].
  assert (Hpq : (match split_first "?" target with
                 | Some (p, q) => (p, ParseUrlEncoded q)
                 | None => (target, ∅)
                 end) = (target_path target, target_query target))
    by (unfold target_path, target_query;
        now destruct (split_first "?" target) as [[p q]|]).
  rewrite Hpq in H. inversion H; subst; clear H.
  cbn [method path headers body form].
  split; [|split; [|split; [|split]]].
  - exists head. split; [now apply split_at_sub_sound|].
    intros head' body' E. now apply (split_at_sub_first _ _ _ _ _ _ Hs E).
  - apply ToLowerAscii_idem.
  - apply target_path_no_question.
  - apply add_header_keys_lower. intros k v Hk.
    rewrite lookup_empty in Hk. discriminate.
  - destruct (fold_left add_header header_lines ∅ !! "content-type")
      as [ct|]; [|now left].
    destruct (contains "application/x-www-form-urlencoded" (ToLowerAscii ct))
      eqn:Hc; [|now left].
    right. exists ct. auto.
Qed.

Lemma no_space_no_char (c : ascii) (s : string) :
  isspace c = true -> no_space s = true -> no_char c s = true.
Proof.
  intros Hc. induction s as [|a s IH]; [reflexivity|].
  cbn [no_space no_char]. intros H. apply andb_prop in H as [Ha Hs].
  rewrite IH by exact Hs.
  destruct (Ascii.eqb_spec a c) as [->|_]; [|reflexivity].
  rewrite Hc in Ha. discriminate.
Qed.

Lemma split_at_terminator (head body : string) :
  no_char CR head = true ->
  split_at_sub CRLFCRLF (head +:+ CRLFCRLF +:+ body) = Some (head, body).
Proof.
  intros Hh. induction head as [|c head IH].
  - rewrite append_nil_l. unfold CRLFCRLF, str1. rewrite !append_cons.
    cbn [split_at_sub String.prefix].
    repeat match goal with
           | |- context [ascii_dec ?a ?b] =>
               destruct (ascii_dec a b); [|contradiction]
           end.
    rewrite append_nil_l. now destruct body.
  - cbn [no_char] in Hh. apply andb_prop in Hh as [Hc Hh].
    apply negb_true_iff, Ascii.eqb_neq in Hc.
    rewrite append_cons. cbn [split_at_sub].
    assert (Hp : String.prefix CRLFCRLF
                   (String c (head +:+ CRLFCRLF +:+ body)) = false).
    { unfold CRLFCRLF. cbn [String.prefix].
      destruct (ascii_dec CR c) as [E|_]; [now subst c | reflexivity]. }
    rewrite Hp. now rewrite IH.
Qed.

Lemma strip_cr_no_cr (s : string) : no_char CR s = true -> strip_cr s = s.
Proof.
  induction s as [|c s IH]; [reflexivity|]. cbn [no_char].
  intros H. apply andb_prop in H as [Hc Hs]. apply negb_true_iff in Hc.
  destruct s as [|b s]; [cbn [strip_cr]; now rewrite Hc|].
  change (strip_cr (String c (String b s)))
    with (String c (strip_cr (String b s))).
  now rewrite IH.
Qed.

Lemma take_word_app (w r : string) (c : ascii) :
  no_space w = true -> isspace c = true ->
  take_word (w +:+ String c r) = (w, String c r).
Proof.
  intros Hw Hc. induction w as [|a w IH].
  - rewrite append_nil_l. cbn [take_word]. now rewrite Hc.
  - cbn [no_space] in Hw. apply andb_prop in Hw as [Ha Hw].
    apply negb_true_iff in Ha.
    rewrite append_cons. cbn [take_word]. now rewrite Ha, IH.
Qed.

Lemma take_word_all (w : string) : no_space w = true -> take_word w = (w, "").
Proof.
  induction w as [|a w IH]; [reflexivity|]. cbn [no_space take_word].
  intros Hw. apply andb_prop in Hw as [Ha Hw]. apply negb_true_iff in Ha.
  now rewrite Ha, IH.
Qed.

Lemma next_word_app (w r : string) (c : ascii) :
  w <> "" -> no_space w = true -> isspace c = true ->
  next_word (w +:+ String c r) = Some (w, String c r).
Proof.
  intros Hne Hw Hc. unfold next_word.
  destruct w as [|a w]; [contradiction|].
  pose proof Hw as Hw'. cbn [no_space] in Hw'.
  apply andb_prop in Hw' as [Ha _]. apply negb_true_iff in Ha.
  rewrite append_cons. cbn [skip_space]. rewrite Ha.
  rewrite <- append_cons. now rewrite take_word_app.
Qed.

Lemma next_word_all (w : string) :
  w <> "" -> no_space w = true -> next_word w = Some (w, "").
Proof.
  intros Hne Hw. unfold next_word.
  destruct w as [|a w]; [contradiction|].
  pose proof Hw as Hw'. cbn [no_space] in Hw'.
  apply andb_prop in Hw' as [Ha _]. apply negb_true_iff in Ha.
  cbn [skip_space]. rewrite Ha. now rewrite take_word_all.
Qed.

Lemma next_word_space (s : string) : next_word (String " " s) = next_word s.
Proof. reflexivity. Qed.

Lemma ParseHttpRequest_request_text (m target version body : string) :
  m <> "" -> target <> "" -> version <> "" ->
  no_space m = true -> no_space target = true -> no_space version = true ->
  ParseHttpRequest (request_text m target version body)
  = Some (mkReq (ToLowerAscii m) (target_path target) (target_query target)
            ∅ ∅ body).
Proof.
  intros Hm Ht Hv Sm St Sv.
  set (head := m +:+ String " " (target +:+ String " " version)).
  assert (Hraw : request_text m target version body
                 = head +:+ CRLFCRLF +:+ body).
  { unfold request_text, head.
    now rewrite append_assoc, append_cons, append_assoc, append_cons. }
  assert (Hno : forall c, isspace c = true -> Ascii.eqb " " c = false ->
                          no_char c head = true).
  { intros c Hc Hsp. unfold head.
    rewrite no_char_app. cbn [no_char]. rewrite no_char_app. cbn [no_char].
    rewrite Hsp. cbn [negb andb].
    now rewrite !(no_space_no_char c) by assumption. }
  assert (Hcr : no_char CR head = true) by (now apply Hno).
  assert (Hlf : no_char LF head = true) by (now apply Hno).
  unfold ParseHttpRequest. rewrite Hraw, split_at_terminator by exact Hcr.
  rewrite getlines_single by (try exact Hlf; unfold head; destruct m; discriminate).
  rewrite strip_cr_no_cr by exact Hcr.
  unfold head. rewrite next_word_app by auto.
  rewrite next_word_space, next_word_app by auto.
  rewrite next_word_space, next_word_all by auto.
  cbn [fold_left]. rewrite lookup_empty.
  unfold target_path, target_query.
  now destruct (split_first "?" target) as [[p q]|].
Qed.

(** X13. A request line of three words followed by the blank line parses:
    the method is folded to lower case, the target is cut at its first
    question mark into path and query map, there are no headers and no
    form, and the body is what follows the blank line. *)
Theorem X13_ParseHttpRequest_request_line (m target version body : string) :
  m <> "" -> target <> "" -> version <> "" ->
  no_space m = true -> no_space target = true -> no_space version = true ->
  ParseHttpRequest (request_text m target version body)
  = Some (mkReq (ToLowerAscii m) (target_path target) (target_query target)
            ∅ ∅ body).
Proof. apply ParseHttpRequest_request_text. Qed.

(** ** One connection, from the text on the wire *)

Lemma open_text_parses (u : string) :
  no_space u = true -> no_char "&" u = true ->
  ParseHttpRequest (open_text u)
  = Some (mkReq "get" "/open" (<["url" := UrlDecode u]> ∅) ∅ ∅ "").
Proof.
  intros Hs Ha. unfold open_text.
  rewrite ParseHttpRequest_request_text; try reflexivity; try discriminate.
  - f_equal.
    assert (Hq : split_first "?" ("/open?url=" +:+ u) = Some ("/open", "url=" +:+ u))
      by reflexivity.
    unfold target_path, target_query. rewrite Hq. f_equal.
    unfold ParseUrlEncoded. rewrite getlines_single; [|discriminate|].
    + cbn [fold_left]. unfold add_pair.
      change (String.eqb ("url=" +:+ u) "") with false. cbv iota.
      assert (He : split_first "=" ("url=" +:+ u) = Some ("url", u))
        by reflexivity.
      rewrite He. reflexivity.
    + rewrite no_char_app. now rewrite Ha.
  - change ("/open?url=" +:+ u)
      with (String "/" (String "o" (String "p" (String "e" (String "n"
             (String "?" (String "u" (String "r" (String "l"
               (String "=" u)))))))))).
    cbn [no_space]. exact Hs.
Qed.

(** The body of the accepted [/open], written out. *)
Lemma json_open_text (url : string) :
  json_open url =
  "{" +:+ String "034" "ok" +:+ String "034" ":true," +:+
  String "034" "queued" +:+ String "034" ":" +:+
  String "034" "open" +:+ String "034" "," +:+
  String "034" "url" +:+ String "034" ":" +:+
  String "034" "" +:+ JsonEscape url +:+ String "034" "}".
Proof.
  transitivity
    ("{" +:+ String "034" "ok" +:+ String "034" ":true," +:+
     String "034" "queued" +:+ String "034" ":" +:+
     String "034" "open" +:+ String "034" "," +:+
     String "034" "url" +:+ String "034" ":" +:+
     String "034" "" +:+ (JsonEscape url +:+ str1 DQ) +:+ "}");
    [reflexivity|].
  now rewrite (append_assoc (JsonEscape url)).
Qed.

(** A text without quote, backslash, line feed, carriage return and tab
    is its own escape. *)
Lemma JsonEscape_plain (s : string) :
  forallb (fun c => no_char c s) ["034"; "092"; "010"; "013"; "009"]%char = true ->
  JsonEscape s = s.
Proof.
  induction s as [|a r IH]; [reflexivity|].
  cbn [forallb no_char]. rewrite !andb_true_iff, !negb_true_iff.
  intros ((Hq & Hqr) & (Hb & Hbr) & (Hl & Hlr) & (Hc & Hcr) & (Ht & Htr) & _).
  cbn [JsonEscape]. unfold BSL, DQ, LF, CR, TAB.
  rewrite Hq, Hb, Hl, Hc, Ht. unfold str1.
  rewrite append_cons, append_nil_l. f_equal. apply IH.
  cbn [forallb]. now rewrite Hqr, Hbr, Hlr, Hcr, Htr.
Qed.

(** X14. From the wire to the queue: the text [GET /open?url=u HTTP/1.1]
    makes the open counter go up by one and hands [OpenUrlTask] with the
    decoded URL to [CefPostTask]; the answer is 200 with the URL echoed
    when the post is accepted, 500 with the error recorded when not.
    The echo is written out: the body is
    [{"ok":true,"queued":"open","url":"E"}] (the double quote is the
    character of code 34) where E is the escaped decoded URL, and E is
    the decoded URL itself when that holds no quote, backslash, line
    feed, carriage return or tab. *)
Theorem X14_open_from_wire (st : SharedState) (u : string) (post_ok : bool) :
  no_space u = true -> no_char "&" u = true -> UrlDecode u <> "" ->
  let r := ServeConnection st (Some (open_text u)) post_ok in
  let q := String "034"%char EmptyString in
  posted_of r = Some (OpenUrlTask (UrlDecode u)) /\
  open_requests (state_of r) = to_u64 (open_requests st + 1) /\
  (post_ok = true ->
     state_of r = inc_open st /\
     resp_of r =
       mkResp 200 "application/json"
         ("{" +:+ q +:+ "ok" +:+ q +:+ ":true," +:+
          q +:+ "queued" +:+ q +:+ ":" +:+ q +:+ "open" +:+ q +:+ "," +:+
          q +:+ "url" +:+ q +:+ ":" +:+
          q +:+ JsonEscape (UrlDecode u) +:+ q +:+ "}") /\
     (forallb (fun c => no_char c (UrlDecode u))
        ["034"; "092"; "010"; "013"; "009"]%char = true ->
      resp_body (resp_of r) =
        "{" +:+ q +:+ "ok" +:+ q +:+ ":true," +:+
        q +:+ "queued" +:+ q +:+ ":" +:+ q +:+ "open" +:+ q +:+ "," +:+
        q +:+ "url" +:+ q +:+ ":" +:+ q +:+ UrlDecode u +:+ q +:+ "}")) /\
  (post_ok = false ->
     status (resp_of r) = 500 /\
     last_error (state_of r) = "open failed: CefPostTask error").
Proof.
  intros Hs Ha Hne r q. subst r q. unfold ServeConnection.
  rewrite open_text_parses by assumption.
  rewrite HandleRequest_open by reflexivity.
  unfold HandleOpen, GetParam. cbv zeta. cbn [query].
  rewrite lookup_insert_eq.
  destruct (String.eqb_spec (UrlDecode u) "") as [E|_]; [contradiction|].
  destruct post_ok; cbn [negb]; repeat split; intros; try discriminate;
    try reflexivity.
  - cbn [resp_of fst snd]. unfold json_resp. f_equal. apply json_open_text.
  - cbn [resp_of fst snd json_resp resp_body]. rewrite json_open_text.
    now rewrite JsonEscape_plain by assumption.
Qed.

(** X15. The answers of one connection.  The status is one of 200, 400,
    404, 500, 503.  500 is only given when the queue rejected a post, and
    then the error text is in [last_error].  A task is handed to
    [CefPostTask] only with a 200 or 500 answer.  With 404 or 503 the
    state is as before and nothing is posted; with 400 nothing is posted. *)
Theorem X15_connection_answers
    (st : SharedState) (raw : option string) (post_ok : bool) :
  let r := ServeConnection st raw post_ok in
  In (status (resp_of r)) [200; 400; 404; 500; 503] /\
  (status (resp_of r) = 500 ->
     post_ok = false /\ posted_of r <> None /\
     In (last_error (state_of r)) post_errors) /\
  (posted_of r <> None ->
     status (resp_of r) = (if post_ok then 200 else 500) \/
     posted_of r = Some QuitTask /\ status (resp_of r) = 200) /\
  (status (resp_of r) = 404 \/ status (resp_of r) = 503 ->
     state_of r = st /\ posted_of r = None) /\
  (status (resp_of r) = 400 -> posted_of r = None).
Proof.
  intros r. subst r. unfold ServeConnection.
  destruct raw as [raw|]; [destruct (ParseHttpRequest raw) as [req|]|].
  - unfold HandleRequest, HandleOpen, HandleEval, HandleInput, HandleQuit,
      HandleFrame.
    cbv zeta. destruct post_ok; cbn [negb]; split_state_ifs;
      cbn [state_of resp_of posted_of fst snd status json_resp];
      try match goal with
          | |- context [if ?b then _ else _] => destruct b
          end;
      cbn [state_of resp_of posted_of fst snd status json_resp];
      repeat split; intros;
      try discriminate; try congruence;
      try (cbn; tauto);
      try (left; reflexivity);
      try (match goal with H : _ \/ _ |- _ => destruct H; discriminate end).
  - cbn. repeat split; intros; try discriminate; try tauto;
      try (match goal with H : _ \/ _ |- _ => destruct H; discriminate end).
  - cbn. repeat split; intros; try discriminate; try tauto;
      try (match goal with H : _ \/ _ |- _ => destruct H; discriminate end).
Qed.

(** ** Routes *)

Lemma route_status_not_404 (st : SharedState) (req : HttpRequest) (post_ok : bool) :
  status (resp_of (HandleOpen st req post_ok)) <> 404 /\
  status (resp_of (HandleEval st req post_ok)) <> 404 /\
  status (resp_of (HandleInput st req post_ok)) <> 404 /\
  status (HandleFrame st) <> 404 /\
  status (resp_of (HandleQuit st post_ok)) <> 404.
Proof.
  unfold HandleOpen, HandleEval, HandleInput, HandleFrame, HandleQuit.
  cbv zeta. repeat split; split_goal_ifs; discriminate.
Qed.

(** X16. Routing is by the exact path: the answer is 404 exactly when the
    path is none of the six routes, and then the state is unchanged,
    nothing is posted and the body lists the routes. *)
Theorem X16_not_found_iff_unknown_path
    (st : SharedState) (req : HttpRequest) (post_ok : bool) :
  (status (resp_of (HandleRequest st req post_ok)) = 404 <->
   ~ In (path req) routes) /\
  (~ In (path req) routes ->
   HandleRequest st req post_ok = (st, mkResp 404 "text/plain" routes_text, None)).
Proof.
  destruct (route_status_not_404 st req post_ok) as (Ho & He & Hi & Hf & Hq).
  unfold HandleRequest, routes.
  destruct (String.eqb_spec (path req) "/status") as [E|N1];
    [split; [split; [discriminate|] |]; intros H; exfalso; apply H;
     rewrite E; cbn; tauto|].
  destruct (String.eqb_spec (path req) "/open") as [E|N2];
    [split; [split; [intros H; contradiction|] |]; intros H; exfalso; apply H;
     rewrite E; cbn; tauto|].
  destruct (String.eqb_spec (path req) "/eval") as [E|N3];
    [split; [split; [intros H; contradiction|] |]; intros H; exfalso; apply H;
     rewrite E; cbn; tauto|].
  destruct (String.eqb_spec (path req) "/input") as [E|N4];
    [split; [split; [intros H; contradiction|] |]; intros H; exfalso; apply H;
     rewrite E; cbn; tauto|].
  destruct (String.eqb_spec (path req) "/frame") as [E|N5];
    [split; [split; [intros H; contradiction|] |]; intros H; exfalso; apply H;
     rewrite E; cbn; tauto|].
  destruct (String.eqb_spec (path req) "/quit") as [E|N6];
    [split; [split; [intros H; contradiction|] |]; intros H; exfalso; apply H;
     rewrite E; cbn; tauto|].
  split; [split|]; try reflexivity.
  intros _ H. cbn in H. intuition congruence.
Qed.

Lemma no_coordinate_negative (t : string) :
  no_coordinate t -> ParseIntDefault t (-1) < 0.
Proof.
  intros [-> | [(s & c & -> & Hnul & Hc) | (v & Hv & ->)]].
  - rewrite ParseIntDefault_empty. lia.
  - rewrite ParseIntDefault_unread; [lia|].
    rewrite c_str_nul_free by exact Hnul. now apply strtol_end_snoc.
  - rewrite ParseIntDefault_negative by exact Hv. lia.
Qed.

(** X17. A click needs both coordinates.  On [/input] with type click the
    input counter goes up in every case.  The answer is 400 exactly when
    the value read for [x] or for [y] (with -1 for what cannot be read)
    is negative, and then nothing is posted.  That is the case when [x]
    or [y] is missing or empty, is a text without NUL byte that ends in
    something else than a digit, or is the decimal text of a negative
    [int].  When both are decimal texts of [int]s from 0 on, the click
    with exactly these coordinates and delta 0 is handed to
    [CefPostTask]; in general the click carries the two values read.  A
    coordinate text that starts with a NUL byte counts as 0. *)
Theorem X17_click_needs_coordinates
    (st : SharedState) (req : HttpRequest) (post_ok : bool) :
  path req = "/input" ->
  ToLowerAscii (GetParam req "type") = "click" ->
  let x := ParseIntDefault (GetParam req "x") (-1) in
  let y := ParseIntDefault (GetParam req "y") (-1) in
  let r := HandleRequest st req post_ok in
  input_requests (state_of r) = to_u64 (input_requests st + 1) /\
  (status (resp_of r) = 400 <-> x < 0 \/ y < 0) /\
  (status (resp_of r) = 400 -> posted_of r = None /\ state_of r = inc_input st) /\
  (absent req "x" \/ absent req "y" \/
   no_coordinate (GetParam req "x") \/ no_coordinate (GetParam req "y") ->
     status (resp_of r) = 400) /\
  (0 <= x -> 0 <= y ->
     posted_of r = Some (NativeInputTask MouseClick x y 0) /\
     status (resp_of r) = (if post_ok then 200 else 500)) /\
  (forall a b : Z,
     0 <= a <= INT32_MAX -> 0 <= b <= INT32_MAX ->
     GetParam req "x" = int_text a -> GetParam req "y" = int_text b ->
     posted_of r = Some (NativeInputTask MouseClick a b 0) /\
     status (resp_of r) = (if post_ok then 200 else 500)) /\
  (forall t : string, GetParam req "x" = String "000" t -> x = 0) /\
  (forall t : string, GetParam req "y" = String "000" t -> y = 0).
Proof.
  intros Hp Hty x y r.
  assert (Hr : r = if (x <? 0) || (y <? 0)
                   then (inc_input st,
                         json_resp 400 (json_error "click requires x and y"),
                         None)
                   else if negb post_ok
                   then (SetError (inc_input st)
                           "input click failed: CefPostTask error",
                         json_resp 500 (json_error "post task failed"),
                         Some (NativeInputTask MouseClick x y 0))
                   else (inc_input st, json_resp 200 (json_queued "click"),
                         Some (NativeInputTask MouseClick x y 0))).
  { subst r. rewrite HandleRequest_input by exact Hp.
    unfold HandleInput. cbv zeta. rewrite Hty. reflexivity. }
  assert (Hneg : x < 0 \/ y < 0 -> (x <? 0) || (y <? 0) = true).
  { intros H. apply orb_true_iff.
    destruct H; [left | right]; now apply Z.ltb_lt. }
  assert (Hpos : 0 <= x -> 0 <= y -> (x <? 0) || (y <? 0) = false).
  { intros Hx Hy. apply orb_false_iff. split; apply Z.ltb_ge; assumption. }
  assert (H400 : status (resp_of r) = 400 <-> x < 0 \/ y < 0).
  { split.
    - intros Hs. destruct (Z.ltb_spec x 0) as [|Hx]; [now left|].
      destruct (Z.ltb_spec y 0) as [|Hy]; [now right|].
      exfalso. rewrite Hr, (Hpos Hx Hy) in Hs.
      destruct post_ok; discriminate Hs.
    - intros H. rewrite Hr, (Hneg H). reflexivity. }
  assert (Hgo : 0 <= x -> 0 <= y ->
                posted_of r = Some (NativeInputTask MouseClick x y 0) /\
                status (resp_of r) = (if post_ok then 200 else 500)).
  { intros Hx Hy. rewrite Hr, (Hpos Hx Hy).
    destruct post_ok; split; reflexivity. }
  split; [|split; [exact H400 | split; [|split; [|split; [exact Hgo|split]]]]].
  - rewrite Hr. destruct ((x <? 0) || (y <? 0)); [reflexivity|].
    destruct post_ok; reflexivity.
  - intros Hs. apply H400 in Hs. rewrite Hr, (Hneg Hs). split; reflexivity.
  - intros H. apply H400.
    destruct H as [Ha | [Ha | [Hn | Hn]]].
    + left. subst x. rewrite (GetParam_absent _ _ Ha). cbn. lia.
    + right. subst y. rewrite (GetParam_absent _ _ Ha). cbn. lia.
    + left. now apply no_coordinate_negative.
    + right. now apply no_coordinate_negative.
  - intros a b Ha Hb Ex Ey.
    assert (Exa : x = a) by (subst x; rewrite Ex; now apply ParseIntDefault_natural).
    assert (Eyb : y = b) by (subst y; rewrite Ey; now apply ParseIntDefault_natural).
    rewrite <- Exa, <- Eyb. apply Hgo; lia.
  - split; intros t Et; [subst x | subst y]; rewrite Et;
      apply ParseIntDefault_leading_nul.
Qed.

Lemma BuildInputScript_known (req : HttpRequest) :
  In (ToLowerAscii (GetParam req "type")) script_types ->
  BuildInputScript req <> "".
Proof.
  unfold BuildInputScript, script_types. cbv zeta. intros Hin.
  destruct (String.eqb_spec (ToLowerAscii (GetParam req "type")) "text");
    [discriminate|].
  destruct (String.eqb_spec (ToLowerAscii (GetParam req "type")) "key");
    [discriminate|].
  destruct (String.eqb_spec (ToLowerAscii (GetParam req "type")) "back");
    [discriminate|].
  destruct (String.eqb_spec (ToLowerAscii (GetParam req "type")) "forward");
    [discriminate|].
  destruct (String.eqb_spec (ToLowerAscii (GetParam req "type")) "reload");
    [discriminate|].
  cbn in Hin. intuition congruence.
Qed.

Lemma BuildInputScript_other (req : HttpRequest) :
  ~ In (ToLowerAscii (GetParam req "type")) script_types ->
  BuildInputScript req = "".
Proof.
  intros Hn. unfold BuildInputScript. cbv zeta.
  repeat match goal with
         | |- context [String.eqb ?a ?b] =>
             destruct (String.eqb_spec a b) as [E|_];
             [exfalso; apply Hn; rewrite E; cbn; tauto|]
         end.
  reflexivity.
Qed.

(** X18. [BuildInputScript] gives a script exactly for the types text,
    key, back, forward and reload (in any letter case); on [/input] such
    a request hands that script to [CefPostTask] as an [EvalTask], and a
    key request without a key is the one for Enter. *)
Theorem X18_input_scripts
    (st : SharedState) (req : HttpRequest) (post_ok : bool) :
  (BuildInputScript req <> "" <->
   In (ToLowerAscii (GetParam req "type")) script_types) /\
  (path req = "/input" ->
   In (ToLowerAscii (GetParam req "type")) script_types ->
   posted_of (HandleRequest st req post_ok)
     = Some (EvalTask (BuildInputScript req)) /\
   status (resp_of (HandleRequest st req post_ok))
     = (if post_ok then 200 else 500)) /\
  (ToLowerAscii (GetParam req "type") = "key" -> GetParam req "key" = "" ->
   BuildInputScript req =
   "(()=>{const k='Enter';document.dispatchEvent(new KeyboardEvent('keydown',{key:k,bubbles:true}));document.dispatchEvent(new KeyboardEvent('keyup',{key:k,bubbles:true}));})();").
Proof.
  split; [|split].
  - split.
    + intros Hne.
      destruct (in_dec string_dec (ToLowerAscii (GetParam req "type"))
                  script_types) as [Hin|Hn]; [exact Hin|].
      now rewrite BuildInputScript_other in Hne.
    + apply BuildInputScript_known.
  - intros Hp Hin. pose proof (BuildInputScript_known req Hin) as Hne.
    rewrite HandleRequest_input by exact Hp.
    unfold HandleInput. cbv zeta.
    assert (H0 : String.eqb (ToLowerAscii (GetParam req "type")) "" = false)
      by (apply String.eqb_neq; intros E; rewrite E in Hin; cbn in Hin;
          intuition discriminate).
    assert (H1 : String.eqb (ToLowerAscii (GetParam req "type")) "click" = false)
      by (apply String.eqb_neq; intros E; rewrite E in Hin; cbn in Hin;
          intuition discriminate).
    assert (H2 : String.eqb (ToLowerAscii (GetParam req "type")) "scroll" = false)
      by (apply String.eqb_neq; intros E; rewrite E in Hin; cbn in Hin;
          intuition discriminate).
    rewrite H0, H1, H2.
    destruct (String.eqb_spec (BuildInputScript req) "") as [E|_];
      [contradiction|].
    destruct post_ok; split; reflexivity.
  - intros Hty Hkey. unfold BuildInputScript. cbv zeta.
    rewrite Hty, Hkey. reflexivity.
Qed.

(** ** Paint, then [/frame] *)

Lemma at_index_map_seq (src : nat -> ascii) (n : nat) (k : nat) :
  (k < n)%nat -> at_index (map src (seq 0 n)) (Z.of_nat k) = src k.
Proof.
  intros Hk. unfold at_index. rewrite Nat2Z.id.
  rewrite (nth_indep _ NUL (src 0%nat)) by (now rewrite length_map, length_seq).
  rewrite map_nth, seq_nth by exact Hk. reflexivity.
Qed.

Lemma pixels_of_src (src : nat -> ascii) (n : nat) (m : nat) :
  forall k, (4 * (k + m) <= n)%nat ->
    flat_map (pixel (map src (seq 0 n))) (seq k m)
    = flat_map (src_pixel src) (seq k m).
Proof.
  induction m as [|m IH]; intros k Hk; [reflexivity|].
  cbn [seq flat_map]. rewrite IH by lia. f_equal.
  unfold pixel, src_pixel.
  replace (4 * Z.of_nat k + 2) with (Z.of_nat (4 * k + 2)) by lia.
  replace (4 * Z.of_nat k + 1) with (Z.of_nat (4 * k + 1)) by lia.
  replace (4 * Z.of_nat k) with (Z.of_nat (4 * k)) by lia.
  now rewrite !at_index_map_seq by lia.
Qed.

(** X19. Paint, then ask: after an accepted paint callback of w x h
    pixels, whatever the state was before, [/frame] answers 200 with the
    header for w and h followed by the w x h pixels of the painted memory,
    each as (byte 4i+2, byte 4i+1, byte 4i).  The header is written out
    byte by byte: [P6], line feed, w in decimal, a space, h in decimal,
    line feed, [255], line feed (decimal as the standard library prints
    unsigned numbers; the line feed is the character of code 10). *)
Theorem X19_paint_then_frame
    (st : SharedState) (src : nat -> ascii) (w h : Z) :
  0 < w <= INT32_MAX -> 0 < h <= INT32_MAX ->
  let decimal := fun v : Z => NilEmpty.string_of_uint (N.to_uint (Z.to_N v)) in
  let line_feed := String "010"%char EmptyString in
  HandleFrame (OnPaint st PET_VIEW (Some src) w h)
  = mkResp 200 "image/x-portable-pixmap"
      (("P6" +:+ line_feed +:+
        decimal w +:+ " " +:+ decimal h +:+ line_feed +:+
        "255" +:+ line_feed) +:+
       string_of_list_ascii
         (flat_map (fun i : nat => [src (4 * i + 2)%nat; src (4 * i + 1)%nat;
                                    src (4 * i)%nat])
            (seq 0 (Z.to_nat (w * h))))).
Proof.
  intros Hw Hh decimal line_feed. subst decimal line_feed. cbv beta.
  change ("P6" +:+ String "010" "" +:+
          NilEmpty.string_of_uint (N.to_uint (Z.to_N w)) +:+ " " +:+
          NilEmpty.string_of_uint (N.to_uint (Z.to_N h)) +:+
          String "010" "" +:+ "255" +:+ String "010" "")
    with (ppm_header w h).
  change (fun i : nat => [src (4 * i + 2)%nat; src (4 * i + 1)%nat;
                          src (4 * i)%nat])
    with (src_pixel src).
  unfold OnPaint.
  assert (G : (w <=? 0) || (h <=? 0) = false)
    by (apply orb_false_iff; split; apply Z.leb_gt; lia).
  rewrite G.
  assert (Ew : to_u32 w = w)
    by (unfold to_u32, U32, INT32_MAX in *; apply Z.mod_small; lia).
  assert (Eh : to_u32 h = h)
    by (unfold to_u32, U32, INT32_MAX in *; apply Z.mod_small; lia).
  rewrite HandleFrame_ready; cbn [frame_width frame_height frame_bgra];
    rewrite ?Ew, ?Eh; try assumption.
  - rewrite frame_bytes_exact by assumption.
    unfold pixels. rewrite pixels_of_src; [reflexivity|].
    assert (0 <= w * h) by nia.
    apply Nat2Z.inj_le. rewrite Nat2Z.inj_mul, Nat2Z.inj_add.
    rewrite !Z2Nat.id by lia. cbn [Z.of_nat]. lia.
  - unfold vec_size. rewrite length_map, length_seq.
    rewrite frame_bytes_exact by assumption.
    rewrite Z2Nat.id by nia. lia.
Qed.

(** ** Invariants of the queue and of the texts in the state *)

Lemma to_int_half_range (v : Z) :
  0 <= v <= INT32_MAX -> 0 <= to_int (v / 2) <= INT32_MAX.
Proof.
  intros Hv. rewrite to_int_half by (unfold U32, INT32_MAX in *; lia).
  unfold INT32_MAX in *.
  split; [apply Z.div_pos; lia | apply Z.div_le_upper_bound; lia].
Qed.

Lemma posted_task_ok (st : SharedState) (req : HttpRequest) (post_ok : bool) (t : Task) :
  frame_inv st ->
  posted_of (HandleRequest st req post_ok) = Some t -> task_ok t.
Proof.
  intros (Hw & Hh & _).
  assert (Hm1 : int_range (-1)) by (unfold int_range, INT32_MIN, INT32_MAX; lia).
  assert (H120 : int_range 120) by (unfold int_range, INT32_MIN, INT32_MAX; lia).
  pose proof (ParseIntDefault_range (GetParam req "x") (-1) Hm1) as [_ Hx].
  pose proof (ParseIntDefault_range (GetParam req "y") (-1) Hm1) as [_ Hy].
  pose proof (ParseIntDefault_range (GetParam req "delta") 120 H120) as Hd.
  assert (Hfw : 0 <= to_int (frame_width (inc_input st) / 2) <= INT32_MAX)
    by (apply to_int_half_range; cbn; lia).
  assert (Hfh : 0 <= to_int (frame_height (inc_input st) / 2) <= INT32_MAX)
    by (apply to_int_half_range; cbn; lia).
  unfold HandleRequest, HandleOpen, HandleEval, HandleInput, HandleQuit.
  cbv zeta. intros Hp.
  split_posted_ifs Hp; cbn [posted_of snd] in Hp; try discriminate Hp;
    inversion Hp; subst; cbn [task_ok];
    repeat match goal with
           | H : String.eqb _ _ = false |- _ => apply String.eqb_neq in H
           | H : (_ || _) = false |- _ => apply orb_false_elim in H as [? ?]
           | H : (_ <? _) = false |- _ => apply Z.ltb_ge in H
           | H : (_ <? _) = true |- _ => clear H
           end;
    try assumption; try exact I;
    repeat split; try lia; try assumption; try apply Hd;
    cbn [frame_width frame_height inc_input] in Hfw, Hfh;
    repeat match goal with
           | |- context [?a <? ?b] => destruct (Z.ltb_spec a b)
           end;
    lia.
Qed.

Lemma step_queue_ok (w : World) (e : Event) :
  frame_inv (shared w) -> Forall task_ok (ui_queue w) ->
  Forall task_ok (ui_queue (step w e)).
Proof.
  intros Hinv Hq. destruct e; cbn [step ui_queue]; try exact Hq.
  - destruct (posted_of (HandleRequest (shared w) req post_ok)) as [t|] eqn:Hp;
      [|exact Hq].
    unfold CefPostTask. destruct post_ok; [|exact Hq].
    apply Forall_app; split; [exact Hq|].
    constructor; [|constructor]. now apply (posted_task_ok _ _ _ _ Hinv Hp).
  - destruct (ui_queue w) as [|t q] eqn:E; [now rewrite E|].
    cbn [ui_queue]. now inversion Hq.
Qed.

Lemma reachable_queue_ok (w : World) :
  reachable w -> Forall task_ok (ui_queue w).
Proof.
  induction 1 as [argv | w e Hr IH Hwf]; [constructor|].
  apply step_queue_ok; [now apply reachable_frame_inv | exact IH].
Qed.

(** X20. The engine is never asked for nonsense: in every reachable
    world each queued task is well formed, an [OpenUrlTask] with a URL
    that is not empty, an [EvalTask] with a script that is not empty, a
    click or a scroll at coordinates between 0 and the largest [int]. *)
Theorem X20_queued_tasks_well_formed (w : World) :
  reachable w -> Forall task_ok (ui_queue w).
Proof. apply reachable_queue_ok. Qed.

Lemma dispatch_last_error (st : SharedState) (req : HttpRequest) (post_ok : bool) :
  last_error (state_of (HandleRequest st req post_ok)) = last_error st \/
  In (last_error (state_of (HandleRequest st req post_ok))) post_errors.
Proof.
  unfold HandleRequest, HandleOpen, HandleEval, HandleInput, HandleQuit.
  cbv zeta. split_state_ifs; cbn [state_of fst];
    solve [left; reflexivity | right; cbn; tauto].
Qed.

(** X21. [last_error] is empty or one of the fixed texts of the bridge:
    a rejected post, a task run without a browser, a listener that could
    not start.  Nothing a client sends ever gets into it. *)
Theorem X21_last_error_is_known (w : World) :
  reachable w ->
  last_error (shared w) = "" \/ In (last_error (shared w)) known_errors.
Proof.
  induction 1 as [argv | w e Hr IH Hwf]; [now left|].
  destruct e; cbn [step shared].
  - destruct (dispatch_last_error (shared w) req post_ok) as [E | Hin].
    + now rewrite E.
    + right. unfold known_errors. apply in_or_app. now left.
  - right. unfold known_errors. apply in_or_app. right.
    apply in_or_app. right. destruct f; cbn; tauto.
  - destruct (ui_queue w) as [|t q]; [exact IH|]. cbn [shared].
    destruct t, browser_ready; cbn [Execute negb]; try exact IH;
      right; cbn; tauto.
  - unfold OnPaint. destruct type, buffer; try exact IH.
    destruct (_ || _); exact IH.
  - exact IH.
  - exact IH.
  - exact IH.
Qed.

Lemma dispatch_other_fields (s s' : SharedState) :
  dispatch_effect s s' ->
  current_url s' = current_url s /\ frame_seq s' = frame_seq s /\
  title s' = title s /\ bind_addr s' = bind_addr s /\ running s' = running s.
Proof. intros [st1 Hb | st1 err Hb]; destruct Hb; cbn; auto. Qed.

Lemma run_snoc (w : World) (tr : list Event) (e : Event) :
  run w (tr ++ [e]) = step (run w tr) e.
Proof. rewrite run_app. reflexivity. Qed.

Lemma opened_by_snoc (tr : list Event) (e : Event) (u : string) :
  opened_by tr u -> opened_by (tr ++ [e]) u.
Proof.
  intros (Hne & req & Hin & Hp & Hu). split; [exact Hne|].
  exists req. repeat split; try assumption. apply in_or_app. now left.
Qed.

Lemma queue_opened_snoc (tr : list Event) (e : Event) (q : list Task) :
  queue_opened tr q -> queue_opened (tr ++ [e]) q.
Proof.
  unfold queue_opened. induction 1 as [|t q Ht Hq IH]; constructor; [|exact IH].
  destruct t; try exact I. now apply opened_by_snoc.
Qed.

(** Only the [/open] branch posts an [OpenUrlTask], with the [url]
    parameter, which is then not empty. *)
Lemma posted_open (st : SharedState) (req : HttpRequest) (post_ok : bool)
    (u : string) :
  posted_of (HandleRequest st req post_ok) = Some (OpenUrlTask u) ->
  path req = "/open" /\ GetParam req "url" = u /\ u <> "".
Proof.
  unfold HandleRequest, HandleOpen, HandleEval, HandleInput, HandleQuit.
  cbv zeta. intros Hp.
  split_posted_ifs Hp; cbn [posted_of snd] in Hp; try discriminate Hp;
    inversion Hp; subst;
    (split; [now apply String.eqb_eq | split; [reflexivity|]]);
    now apply String.eqb_neq.
Qed.

(** The only step that changes [current_url]: a waiting [OpenUrlTask]
    is run while the browser is there. *)
Lemma step_url_change (w : World) (e : Event) :
  current_url (shared (step w e)) <> current_url (shared w) ->
  exists u q, e = EvRunTask true /\ ui_queue w = OpenUrlTask u :: q /\
              current_url (shared (step w e)) = u.
Proof.
  destruct e; cbn [step shared]; intros Hc;
    try (exfalso; apply Hc; reflexivity).
  - exfalso. apply Hc.
    now destruct (dispatch_other_fields _ _
                    (HandleRequest_effect (shared w) req post_ok)) as (E & _).
  - destruct (ui_queue w) as [|t q] eqn:Eq;
      [exfalso; apply Hc; reflexivity|].
    cbn [shared] in *.
    destruct t, browser_ready; cbn [Execute negb] in *;
      try (exfalso; apply Hc; reflexivity).
    exists url, q. repeat split.
  - exfalso. apply Hc. unfold OnPaint.
    destruct type, buffer; try reflexivity.
    destruct (_ || _); reflexivity.
Qed.

Lemma run_opened (argv : list string) (tr : list Event) :
  (current_url (shared (run (init_world argv) tr)) = start_url (ParseArgs argv) \/
   opened_by tr (current_url (shared (run (init_world argv) tr)))) /\
  queue_opened tr (ui_queue (run (init_world argv) tr)).
Proof.
  induction tr as [|e tr IH] using rev_ind.
  - split; [left; reflexivity | constructor].
  - rewrite run_snoc. destruct IH as [Hu Hq].
    set (w := run (init_world argv) tr) in *. split.
    + destruct (String.eqb_spec (current_url (shared (step w e)))
                  (current_url (shared w))) as [E | N].
      * rewrite E. destruct Hu as [Hu | Hu]; [now left | right].
        now apply opened_by_snoc.
      * destruct (step_url_change w e N) as (u & q & _ & Eq & Ec).
        right. rewrite Ec. apply opened_by_snoc.
        unfold queue_opened in Hq. rewrite Eq in Hq.
        exact (Forall_inv Hq).
    + destruct e; cbn [step ui_queue];
        try (apply queue_opened_snoc; exact Hq).
      * destruct (posted_of (HandleRequest (shared w) req post_ok))
          as [t|] eqn:Hp; [|apply queue_opened_snoc; exact Hq].
        unfold CefPostTask.
        destruct post_ok; [|apply queue_opened_snoc; exact Hq].
        apply Forall_app. split; [apply queue_opened_snoc; exact Hq|].
        constructor; [|constructor].
        destruct t as [u| | |]; try exact I.
        apply posted_open in Hp as (Hpath & Hurl & Hne).
        split; [exact Hne|]. exists req.
        split; [apply in_or_app; right; left; reflexivity|].
        split; assumption.
      * destruct (ui_queue w) as [|t q] eqn:Eq.
        -- rewrite Eq. constructor.
        -- cbn [ui_queue]. apply queue_opened_snoc.
           exact (Forall_inv_tail Hq).
Qed.

(** X22. Where the URL of the status comes from.  After any run from
    [main] it is the start URL, or the [url] parameter, not empty, of an
    [/open] request of that run whose task the queue took.  And it
    changes in one way only: whenever a step changes it, that step runs a
    waiting [OpenUrlTask] with the browser ready, the new value is the
    URL of that task, it is not empty, and it was asked for by an
    [/open] request of the run.  So no step puts the empty text there. *)
Theorem X22_current_url_never_emptied (argv : list string) (tr : list Event) :
  let w := run (init_world argv) tr in
  (current_url (shared w) = start_url (ParseArgs argv) \/
   opened_by tr (current_url (shared w))) /\
  (forall e : Event,
     current_url (shared (step w e)) <> current_url (shared w) ->
     exists u q,
       e = EvRunTask true /\ ui_queue w = OpenUrlTask u :: q /\
       u <> "" /\ opened_by tr u /\ current_url (shared (step w e)) = u).
Proof.
  intros w. subst w. destruct (run_opened argv tr) as [Hu Hq]. split; [exact Hu|].
  intros e Hc. destruct (step_url_change _ e Hc) as (u & q & Ee & Eq & Ec).
  exists u, q. unfold queue_opened in Hq. rewrite Eq in Hq.
  pose proof (Forall_inv Hq) as Ho. cbn beta iota in Ho.
  repeat split; try assumption; apply Ho.
Qed.

Lemma step_unpainted (args : Args) (w : World) (e : Event) :
  unpainted args (shared w) -> unpainted args (shared (step w e)).
Proof.
  unfold unpainted. intros Hu. destruct e; cbn [step shared]; try exact Hu.
  - destruct (dispatch_frame_fields _ _
                (HandleRequest_effect (shared w) req post_ok))
      as (E1 & E2 & E3 & E4).
    destruct (dispatch_other_fields _ _
                (HandleRequest_effect (shared w) req post_ok))
      as (_ & E5 & _).
    now rewrite E1, E2, E3, E4, E5.
  - destruct (ui_queue w) as [|t q]; [exact Hu|]. cbn [shared].
    destruct t, browser_ready; exact Hu.
  - unfold OnPaint. destruct type, buffer; try exact Hu.
    destruct (_ || _); [exact Hu|]. cbn. discriminate.
Qed.

Lemma run_unpainted (args : Args) (tr : list Event) :
  forall w, unpainted args (shared w) -> unpainted args (shared (run w tr)).
Proof.
  induction tr as [|e tr IH]; intros w Hw; [exact Hw|].
  cbn [run fold_left]. apply IH. now apply step_unpainted.
Qed.

(** X23. Until the first accepted paint callback the frame fields stay as
    [main] set them: sequence number 0, no pixels, and the clamped view
    size of the command line as width and height. *)
Theorem X23_frame_fields_before_first_paint
    (argv : list string) (tr : list Event) :
  let st := shared (run (init_world argv) tr) in
  frame_capture st = false ->
  frame_seq st = 0 /\ frame_bgra st = [] /\
  frame_width st = view_width (ParseArgs argv) /\
  frame_height st = view_height (ParseArgs argv) /\
  320 <= frame_width st /\ 200 <= frame_height st.
Proof.
  intros st.
  assert (Hu : unpainted (ParseArgs argv) st).
  { subst st. apply run_unpainted.
    intros _. destruct (ParseArgs_dims argv) as [Hw Hh].
    cbn -[ParseArgs]. unfold to_u32, U32, INT32_MAX in *.
    rewrite !Z.mod_small by lia. auto. }
  intros Hc. destruct (Hu Hc) as (H1 & H2 & H3 & H4).
  destruct (ParseArgs_dims argv) as [Hw Hh].
  repeat split; try assumption; lia.
Qed.

(** ** The counters count *)

Lemma count_events_snoc (f : Event -> bool) (tr : list Event) (e : Event) :
  count_events f (tr ++ [e]) = count_events f tr + (if f e then 1 else 0).
Proof.
  induction tr as [|a tr IH]; cbn [app count_events]; [lia|].
  rewrite IH. lia.
Qed.

Lemma request_counts (st : SharedState) (req : HttpRequest) (post_ok : bool) :
  let st' := state_of (HandleRequest st req post_ok) in
  let e := EvRequest req post_ok in
  open_requests st'
    = (if counts_open e then to_u64 (open_requests st + 1) else open_requests st) /\
  eval_requests st'
    = (if counts_eval e then to_u64 (eval_requests st + 1) else eval_requests st) /\
  input_requests st'
    = (if counts_input e then to_u64 (input_requests st + 1)
       else input_requests st).
Proof.
  cbv zeta. unfold HandleRequest, counts_open, counts_eval, counts_input.
  destruct (String.eqb_spec (path req) "/status") as [E|_];
    [rewrite E; repeat split|].
  destruct (String.eqb_spec (path req) "/open") as [E|_].
  { rewrite E. cbn [String.eqb Ascii.eqb Bool.eqb andb].
    unfold HandleOpen. cbv zeta.
    destruct (String.eqb (GetParam req "url") ""); cbn [negb];
      [repeat split | destruct post_ok; repeat split]. }
  destruct (String.eqb_spec (path req) "/eval") as [E|_].
  { rewrite E. cbn [String.eqb Ascii.eqb Bool.eqb andb].
    unfold HandleEval. cbv zeta.
    destruct (String.eqb (GetParam req "js") ""); cbn [negb];
      [repeat split | destruct post_ok; repeat split]. }
  destruct (String.eqb_spec (path req) "/input") as [E|_].
  { cbn [andb]. unfold HandleInput. cbv zeta.
    destruct (String.eqb (ToLowerAscii (GetParam req "type")) "");
      cbn [negb]; [repeat split|].
    split_state_ifs; repeat split. }
  cbn [andb]. unfold HandleQuit.
  destruct (String.eqb (path req) "/frame"); [repeat split|].
  destruct (String.eqb (path req) "/quit"); repeat split.
Qed.

Lemma step_counts (w : World) (e : Event) :
  let s := shared w in
  let s' := shared (step w e) in
  open_requests s'
    = (if counts_open e then to_u64 (open_requests s + 1) else open_requests s) /\
  eval_requests s'
    = (if counts_eval e then to_u64 (eval_requests s + 1) else eval_requests s) /\
  input_requests s'
    = (if counts_input e then to_u64 (input_requests s + 1)
       else input_requests s) /\
  frame_seq s'
    = (if counts_paint e then to_u64 (frame_seq s + 1) else frame_seq s).
Proof.
  cbv zeta. destruct e; cbn [step shared].
  - pose proof (request_counts (shared w) req post_ok) as Hc.
    cbv zeta in Hc. destruct Hc as (Ho & He & Hi).
    destruct (dispatch_other_fields _ _
                (HandleRequest_effect (shared w) req post_ok))
      as (_ & Hs & _).
    cbn [counts_paint]. repeat split; assumption.
  - repeat split; reflexivity.
  - destruct (ui_queue w) as [|t q]; [repeat split; reflexivity|].
    cbn [shared]. destruct t, browser_ready; repeat split; reflexivity.
  - unfold OnPaint, counts_paint.
    destruct type, buffer; try (repeat split; reflexivity).
    destruct (Z.leb_spec width 0), (Z.leb_spec height 0);
      destruct (Z.ltb_spec 0 width), (Z.ltb_spec 0 height);
      try lia; repeat split; reflexivity.
  - repeat split; reflexivity.
  - repeat split; reflexivity.
  - repeat split; reflexivity.
Qed.

Lemma tick_mod (n : Z) (b : bool) :
  (if b then to_u64 (to_u64 n + 1) else to_u64 n)
  = to_u64 (n + (if b then 1 else 0)).
Proof.
  unfold to_u64. destruct b; [|now rewrite Z.add_0_r].
  now rewrite Z.add_mod_idemp_l by (unfold U64; lia).
Qed.

(** X24. The counters count exactly: after any run from [main], the open
    counter is the number of [/open] requests with a URL, the eval
    counter the number of [/eval] requests with a script, the input
    counter the number of [/input] requests with a type, and the frame
    sequence number the number of accepted paint callbacks, each modulo
    2^64, whether or not the posts were accepted. *)
Theorem X24_counters_count_events (argv : list string) (tr : list Event) :
  let st := shared (run (init_world argv) tr) in
  open_requests st = to_u64 (count_events counts_open tr) /\
  eval_requests st = to_u64 (count_events counts_eval tr) /\
  input_requests st = to_u64 (count_events counts_input tr) /\
  frame_seq st = to_u64 (count_events counts_paint tr).
Proof.
  cbv zeta. induction tr as [|e tr IH] using rev_ind.
  - repeat split.
  - rewrite run_app. cbn [run fold_left].
    destruct IH as (Io & Ie & Ii & Is).
    destruct (step_counts (run (init_world argv) tr) e) as (So & Se & Si & Ss).
    cbv zeta in So, Se, Si, Ss.
    rewrite So, Se, Si, Ss, Io, Ie, Ii, Is, !count_events_snoc.
    rewrite !tick_mod. repeat split.
Qed.

(** ** [ReadHttpRequest] *)

Lemma str_size_append (a b : string) : str_size (a +:+ b) = str_size a + str_size b.
Proof. unfold str_size. rewrite length_append. lia. Qed.

Lemma str_size_zero (s : string) : str_size s = 0 -> s = "".
Proof. destruct s; [reflexivity|]. unfold str_size. cbn [String.length]. lia. Qed.

Lemma str_size_nonneg (s : string) : 0 <= str_size s.
Proof. unfold str_size. lia. Qed.

Lemma ReadLoop_prefix (socket : list string) :
  forall raw he cl,
    exists k, ReadLoop socket raw he cl = raw +:+ concat_chunks (firstn k socket).
Proof.
  induction socket as [|buf socket IH]; intros raw he cl.
  - exists 0%nat. cbn. rewrite append_empty_r. now destruct (_ <? _).
  - cbn [ReadLoop].
    destruct (str_size raw <? kMaxReq);
      [|exists 0%nat; cbn; now rewrite append_empty_r].
    destruct (String.eqb buf "");
      [exists 0%nat; cbn; now rewrite append_empty_r|].
    destruct (scan_head (raw +:+ buf) he cl) as [he' cl'].
    assert (Hrec : exists k, ReadLoop socket (raw +:+ buf) he' cl'
                             = raw +:+ concat_chunks (firstn k (buf :: socket))).
    { destruct (IH (raw +:+ buf) he' cl') as [k Hk]. exists (S k).
      rewrite Hk. cbn [firstn concat_chunks]. now rewrite append_assoc. }
    destruct he' as [hv|]; [|exact Hrec].
    destruct (to_u64 (hv + 4 + cl') <=? str_size (raw +:+ buf)); [|exact Hrec].
    exists 1%nat. cbn [firstn concat_chunks]. now rewrite append_empty_r.
Qed.

Lemma ReadLoop_size (socket : list string) :
  Forall (fun c => str_size c <= 4096) socket ->
  forall raw he cl,
    str_size (ReadLoop socket raw he cl)
    <= Z.max (str_size raw) (kMaxReq - 1 + 4096).
Proof.
  induction 1 as [|buf socket Hbuf _ IH]; intros raw he cl.
  - cbn. destruct (_ <? _); lia.
  - cbn [ReadLoop].
    destruct (Z.ltb_spec (str_size raw) kMaxReq) as [Hlt|]; [|lia].
    destruct (String.eqb buf ""); [lia|].
    destruct (scan_head (raw +:+ buf) he cl) as [he' cl'].
    assert (Hnew : str_size (raw +:+ buf) <= kMaxReq - 1 + 4096)
      by (rewrite str_size_append; lia).
    specialize (IH (raw +:+ buf) he' cl').
    destruct he' as [hv|]; [|lia].
    destruct (to_u64 (hv + 4 + cl') <=? str_size (raw +:+ buf)); lia.
Qed.

Lemma ReadLoop_first_chunk (buf : string) (socket : list string) :
  buf <> "" ->
  exists k, ReadLoop (buf :: socket) "" None 0
            = buf +:+ concat_chunks (firstn k socket).
Proof.
  intros Hb. cbn [ReadLoop].
  change (str_size "" <? kMaxReq) with true. cbv iota.
  destruct (String.eqb_spec buf "") as [|_]; [contradiction|].
  rewrite append_nil_l.
  destruct (scan_head buf None 0) as [he' cl'].
  destruct he' as [hv|]; [|apply ReadLoop_prefix].
  destruct (to_u64 (hv + 4 + cl') <=? str_size buf); [|apply ReadLoop_prefix].
  exists 0%nat. cbn. now rewrite append_empty_r.
Qed.

(** X25. [ReadHttpRequest] gives back what [recv] delivered, in order and
    nothing else: the result is the first few chunks joined; it fails
    exactly when the first [recv] delivers nothing; and with chunks of at
    most 4096 bytes the result stays below 1 MiB + 4096 bytes. *)
Theorem X25_ReadHttpRequest_returns_received_chunks (socket : list string) :
  (ReadHttpRequest socket = None <-> socket = [] \/ hd_error socket = Some "") /\
  (forall raw, ReadHttpRequest socket = Some raw ->
     raw <> "" /\ exists k, raw = concat_chunks (firstn k socket)) /\
  (Forall (fun c => str_size c <= 4096) socket ->
   forall raw, ReadHttpRequest socket = Some raw ->
     str_size raw < kMaxReq + 4096).
Proof.
  unfold ReadHttpRequest. split; [|split].
  - split.
    + intros H. destruct socket as [|buf socket]; [now left|]. right.
      destruct (String.eqb_spec buf "") as [->|Hb]; [reflexivity|].
      destruct (ReadLoop_first_chunk buf socket Hb) as [k Hk].
      rewrite Hk in H. destruct buf; [contradiction | discriminate H].
    + intros [-> | H]; [reflexivity|].
      destruct socket as [|buf socket]; [discriminate|].
      cbn in H. inversion H; subst. reflexivity.
  - intros raw H.
    destruct (String.eqb_spec (ReadLoop socket "" None 0) "") as [|Hne];
      [discriminate|].
    inversion H; subst. split; [exact Hne|].
    destruct (ReadLoop_prefix socket "" None 0) as [k Hk].
    exists k. now rewrite Hk.
  - intros Hall raw H.
    destruct (String.eqb (ReadLoop socket "" None 0) ""); [discriminate|].
    inversion H; subst.
    pose proof (ReadLoop_size socket Hall "" None 0) as Hs.
    change (str_size "") with 0 in Hs. unfold kMaxReq in *. lia.
Qed.

Lemma append_inv_head (a b c : string) : a +:+ b = a +:+ c -> b = c.
Proof.
  induction a as [|x a IH]; [auto|]. rewrite !append_cons.
  intros H. inversion H. auto.
Qed.

Lemma append_split (a : string) :
  forall b c d, a +:+ b = c +:+ d ->
                (String.length a <= String.length c)%nat ->
                exists m, c = a +:+ m /\ b = m +:+ d.
Proof.
  induction a as [|x a IH]; intros b c d H Hlen.
  - exists c. split; [reflexivity | exact H].
  - destruct c as [|y c]; [cbn in Hlen; lia|].
    rewrite !append_cons in H. inversion H; subst.
    destruct (IH b c d H2) as (m & -> & ->); [cbn in Hlen; lia|].
    exists m. split; [now rewrite append_cons | reflexivity].
Qed.

Lemma split_at_sub_complete (pat : string) (l r : string) :
  split_at_sub pat (l +:+ pat +:+ r) <> None.
Proof.
  induction l as [|c l IH].
  - rewrite append_nil_l. destruct (pat +:+ r) eqn:E; cbn [split_at_sub];
      rewrite <- E, prefix_app; discriminate.
  - rewrite append_cons. cbn [split_at_sub].
    destruct (String.prefix pat _); [discriminate|].
    destruct (split_at_sub pat (l +:+ pat +:+ r)) as [[? ?]|];
      [discriminate | contradiction].
Qed.

Lemma first_occurrence_prefix (pat text raw q head body head' r' : string) :
  text = raw +:+ q ->
  split_at_sub pat text = Some (head, body) ->
  split_at_sub pat raw = Some (head', r') ->
  head' = head.
Proof.
  intros Ht Hs Hr.
  pose proof (split_at_sub_sound _ _ _ _ Hs) as Et.
  pose proof (split_at_sub_sound _ _ _ _ Hr) as Er.
  assert (Et' : text = head' +:+ pat +:+ (r' +:+ q))
    by (rewrite Ht, Er; now rewrite !append_assoc).
  pose proof (split_at_sub_first _ _ _ _ _ _ Hs Et') as L1.
  assert (E2 : head +:+ (pat +:+ body) = head' +:+ (pat +:+ (r' +:+ q)))
    by (now rewrite <- Et, <- Et').
  destruct (append_split _ _ _ _ E2 L1) as (m & Em & Eb).
  assert (Er' : raw = head +:+ pat +:+ (drop (String.length pat) (m +:+ pat) +:+ r')).
  { rewrite Er, Em, append_assoc. f_equal.
    (* m ++ pat ++ r' begins with pat because pat ++ body = m ++ pat ++ ... *)
    assert (Hp : String.prefix pat (m +:+ pat) = true).
    { assert (Hlen : (String.length pat <= String.length (m +:+ pat))%nat)
        by (rewrite length_append; lia).
      assert (E3 : pat +:+ body = (m +:+ pat) +:+ (r' +:+ q))
        by (rewrite Eb; now rewrite append_assoc).
      destruct (append_split _ _ _ _ E3 Hlen) as (m' & Hm' & _).
      rewrite Hm'. apply prefix_app. }
    apply prefix_split in Hp.
    rewrite <- append_assoc. rewrite Hp at 1. now rewrite !append_assoc. }
  pose proof (split_at_sub_first _ _ _ _ _ _ Hr Er') as L2.
  assert (String.length m = 0)%nat
    by (rewrite Em, length_append in L2; lia).
  destruct m; [|discriminate]. now rewrite append_empty_r in Em.
Qed.

Section Chunking.

(** A request text: [head], the first blank line, and a body as long
    as the head says; within the size cap. *)
Variables text head body : string.
Hypothesis Hfirst : split_at_sub CRLFCRLF text = Some (head, body).
Hypothesis Hdecl : declared_length head = str_size body.
Hypothesis Hmax : str_size text <= kMaxReq.

Lemma text_size : str_size text = str_size head + 4 + str_size body.
Proof.
  rewrite (split_at_sub_sound _ _ _ _ Hfirst) at 1.
  rewrite !str_size_append. change (str_size CRLFCRLF) with 4. lia.
Qed.

Lemma scan_head_in_step (raw q : string) (he : option Z) (cl : Z) :
  text = raw +:+ q ->
  (he = None -> cl = 0) ->
  (he <> None -> he = Some (str_size head) /\ cl = str_size body) ->
  in_step head body raw (fst (scan_head raw he cl)) (snd (scan_head raw he cl)).
Proof.
  intros Ht H0 H1. unfold scan_head.
  destruct he as [hv|].
  - right. now apply H1.
  - destruct (split_at_sub CRLFCRLF raw) as [[head' r']|] eqn:Hr.
    + rewrite (first_occurrence_prefix _ _ _ _ _ _ _ _ Ht Hfirst Hr).
      right. cbn [fst snd]. split; [reflexivity|].
      rewrite (H0 eq_refl). exact Hdecl.
    + left. cbn [fst snd]. auto.
Qed.

Lemma ReadLoop_chunks (chunks : list string) :
  forall (raw : string) (he : option Z) (cl : Z) (more : list string),
    Forall (fun c => c <> "") chunks -> chunks <> [] ->
    raw +:+ concat_chunks chunks = text ->
    in_step head body raw he cl ->
    ReadLoop (chunks ++ more) raw he cl = text.
Proof.
  induction chunks as [|c cs IH]; intros raw he cl more Hne Hnil Ht Hst;
    [contradiction|].
  pose proof (Forall_inv Hne) as Hc. pose proof (Forall_inv_tail Hne) as Hcs.
  cbn beta in Hc. cbn [concat_chunks] in Ht.
  assert (Hsz : str_size raw + str_size c + str_size (concat_chunks cs)
                = str_size text)
    by (rewrite <- Ht, !str_size_append; lia).
  assert (Hcpos : 0 < str_size c).
  { destruct c; [contradiction|]. unfold str_size. cbn [String.length]. lia. }
  pose proof (str_size_nonneg (concat_chunks cs)) as Hcs0.
  pose proof (str_size_nonneg raw) as Hraw0.
  cbn [app ReadLoop].
  assert (Hlt : (str_size raw <? kMaxReq) = true) by (apply Z.ltb_lt; lia).
  rewrite Hlt. destruct (String.eqb_spec c "") as [|_]; [contradiction|].
  assert (Ht' : text = (raw +:+ c) +:+ concat_chunks cs)
    by (now rewrite append_assoc).
  pose proof (scan_head_in_step (raw +:+ c) (concat_chunks cs) he cl Ht') as Hstep.
  destruct (scan_head (raw +:+ c) he cl) as [he' cl'].
  cbn [fst snd] in Hstep.
  assert (Hst' : in_step head body (raw +:+ c) he' cl').
  { apply Hstep.
    - intros ->. destruct Hst as [(_ & _ & E) | (E & _)];
        [exact E | discriminate].
    - intros Hn. destruct Hst as [(E & _) | Hs]; [contradiction | exact Hs]. }
  assert (Hdone : str_size (concat_chunks cs) = 0 -> raw +:+ c = text).
  { intros Hz. apply str_size_zero in Hz. rewrite Ht', Hz.
    now rewrite append_empty_r. }
  assert (Hgo : cs <> [] -> ReadLoop (cs ++ more) (raw +:+ c) he' cl' = text).
  { intros Hcsn. apply IH; try assumption. now rewrite Ht'. }
  destruct Hst' as [(-> & Hnone & ->) | (-> & ->)].
  - apply Hgo. intros ->. cbn [concat_chunks] in Ht'.
    rewrite append_empty_r in Ht'. rewrite <- Ht' in Hnone.
    rewrite Hfirst in Hnone. discriminate.
  - assert (Eu : to_u64 (str_size head + 4 + str_size body) = str_size text).
    { rewrite <- text_size. unfold to_u64, U64.
      apply Z.mod_small. pose proof (str_size_nonneg text).
      unfold kMaxReq in Hmax. lia. }
    rewrite Eu.
    destruct (Z.leb_spec (str_size text) (str_size (raw +:+ c))) as [Hge|Hl].
    + apply Hdone. rewrite str_size_append in Hge. lia.
    + apply Hgo. intros ->. cbn [concat_chunks] in Hsz.
      rewrite str_size_append in Hl. change (str_size "") with 0 in Hsz. lia.
Qed.

Lemma ReadHttpRequest_chunks (chunks more : list string) :
  Forall (fun c => c <> "") chunks ->
  concat_chunks chunks = text ->
  ReadHttpRequest (chunks ++ more) = Some text.
Proof.
  intros Hne Ht. unfold ReadHttpRequest.
  assert (Htne : text <> "").
  { intros E. rewrite E in Hfirst. discriminate Hfirst. }
  rewrite (ReadLoop_chunks chunks "" None 0 more Hne).
  - now destruct (String.eqb_spec text "").
  - intros ->. cbn in Ht. now symmetry in Ht.
  - exact Ht.
  - left. repeat split.
Qed.

End Chunking.

(** X26. However the network cuts a request into chunks, it is read
    whole and nothing more: if the text has its first blank line after
    [head], the head declares the length of the body that follows (0
    without a [Content-Length] line), and the text is at most 1 MiB, then
    [ReadHttpRequest] returns exactly the text for every way of cutting it
    into non-empty chunks and leaves what comes after it unread. *)
Theorem X26_ReadHttpRequest_any_chunking
    (text head body : string) (chunks more : list string) :
  split_at_sub CRLFCRLF text = Some (head, body) ->
  declared_length head = str_size body ->
  str_size text <= kMaxReq ->
  Forall (fun c => c <> "") chunks ->
  concat_chunks chunks = text ->
  ReadHttpRequest (chunks ++ more) = Some text.
Proof.
  intros H1 H2 H3 H4 H5.
  now apply (ReadHttpRequest_chunks text head body H1 H2 H3).
Qed.

(** ** A form post, from the socket to the queue *)

Lemma split_at_sub_cons (pat : string) (c : ascii) (s : string) :
  String.prefix pat (String c s) = false ->
  split_at_sub pat (String c s)
  = match split_at_sub pat s with
    | Some (l, r) => Some (String c l, r)
    | None => None
    end.
Proof. intros H. cbn [split_at_sub]. now rewrite H. Qed.

Lemma split_at_sub_line (l l2 rest : string) (c2 : ascii) :
  no_char CR l = true -> c2 <> CR ->
  split_at_sub CRLFCRLF (l +:+ CRLF +:+ String c2 (l2 +:+ rest))
  = match split_at_sub CRLFCRLF (String c2 (l2 +:+ rest)) with
    | Some (h, b) => Some (l +:+ CRLF +:+ h, b)
    | None => None
    end.
Proof.
  intros Hl Hc2. induction l as [|c l IH].
  - rewrite append_nil_l.
    change (CRLF +:+ String c2 (l2 +:+ rest))
      with (String CR (String LF (String c2 (l2 +:+ rest)))).
    rewrite split_at_sub_cons.
    + rewrite split_at_sub_cons.
      * destruct (split_at_sub CRLFCRLF (String c2 (l2 +:+ rest))) as [[h b]|];
          reflexivity.
      * unfold CRLFCRLF. cbn [String.prefix].
        destruct (ascii_dec CR LF) as [E|_]; [discriminate E | reflexivity].
    + unfold CRLFCRLF, str1. cbn [String.prefix].
      destruct (ascii_dec CR CR) as [_|N]; [|contradiction].
      destruct (ascii_dec LF LF) as [_|N]; [|contradiction].
      destruct (ascii_dec CR c2) as [E|_]; [now subst c2 | reflexivity].
  - cbn [no_char] in Hl. apply andb_prop in Hl as [Hc Hl].
    apply negb_true_iff, Ascii.eqb_neq in Hc.
    rewrite !append_cons.
    assert (Hp : String.prefix CRLFCRLF
                   (String c (l +:+ CRLF +:+ String c2 (l2 +:+ rest))) = false).
    { unfold CRLFCRLF. cbn [String.prefix].
      destruct (ascii_dec CR c) as [E|_]; [now subst c | reflexivity]. }
    rewrite (split_at_sub_cons _ _ _ Hp), IH by exact Hl.
    destruct (split_at_sub CRLFCRLF (String c2 (l2 +:+ rest))) as [[h b]|];
      reflexivity.
Qed.

Lemma digits_no_char (c : ascii) (s : string) :
  is_digit 10 c = false -> digits_only s = true -> no_char c s = true.
Proof.
  intros Hc. induction s as [|a s IH]; [reflexivity|].
  cbn [digits_only no_char]. intros H. apply andb_prop in H as [Ha Hs].
  rewrite IH by exact Hs.
  destruct (Ascii.eqb_spec a c) as [->|_]; [congruence | reflexivity].
Qed.


Lemma getlines_line (l rest : string) :
  no_char LF l = true ->
  getlines LF (l +:+ String LF rest) = l :: getlines LF rest.
Proof.
  intros Hl. rewrite getlines_split_first.
  now rewrite (split_first_app_none LF l rest (split_first_no_char _ _ Hl)).
Qed.


Lemma strtoull_digits (s : string) :
  s <> "" -> digits_only s = true ->
  strtoull s 10
  = (if fst (scan_digits 10 s 0) >? ULLONG_MAX then ULLONG_MAX
     else fst (scan_digits 10 s 0)).
Proof.
  intros Hne Hd. destruct s as [|c r]; [contradiction|].
  cbn [digits_only] in Hd. apply andb_prop in Hd as [Hc Hr].
  destruct (dec_digit_plain c Hc) as (_ & Hsp & Hm & Hp & _).
  unfold strtoull. cbn [skip_space]. rewrite Hsp.
  cbn [take_sign]. rewrite Hm, Hp.
  assert (Hpre : skip_hex_prefix 10 (String c r) = String c r)
    by (destruct r; reflexivity).
  rewrite Hpre. cbn [starts_with_digit]. rewrite Hc.
  now destruct (scan_digits 10 (String c r) 0).
Qed.

Lemma strtoull_space_dec (n : Z) :
  0 <= n <= ULLONG_MAX -> strtoull (c_str (String " " (dec n))) 10 = n.
Proof.
  intros Hn.
  change (c_str (String " " (dec n))) with (String " " (c_str (dec n))).
  rewrite c_str_digits by apply dec_digits_only.
  change (strtoull (String " " (dec n)) 10) with (strtoull (dec n) 10).
  rewrite strtoull_digits
    by (try apply dec_digits_only; apply dec_nonempty; lia).
  rewrite scan_dec by lia. cbn [fst].
  destruct (Z.gtb_spec n ULLONG_MAX); [lia | reflexivity].
Qed.






(** ** The frame of a response *)

Lemma split_at_sub_next_line (l next : string) :
  no_char CR l = true ->
  (exists c2 t, next = String c2 t /\ c2 <> CR) ->
  split_at_sub CRLFCRLF (l +:+ CRLF +:+ next)
  = match split_at_sub CRLFCRLF next with
    | Some (h, b) => Some (l +:+ CRLF +:+ h, b)
    | None => None
    end.
Proof.
  intros Hl (c2 & t & -> & Hc2).
  pose proof (split_at_sub_line l t "" c2 Hl Hc2) as H.
  now rewrite append_empty_r in H.
Qed.

Lemma getlines_crlf (l rest : string) :
  no_char LF l = true ->
  getlines LF (l +:+ CRLF +:+ rest) = (l +:+ str1 CR) :: getlines LF rest.
Proof.
  intros Hl.
  replace (l +:+ CRLF +:+ rest) with ((l +:+ str1 CR) +:+ String LF rest)
    by (now rewrite append_assoc).
  apply getlines_line. rewrite no_char_app. now rewrite Hl.
Qed.

Lemma strip_cr_snoc (l : string) : strip_cr (l +:+ str1 CR) = l.
Proof.
  induction l as [|c l IH]; [reflexivity|].
  rewrite append_cons.
  destruct (l +:+ str1 CR) as [|b s] eqn:E; [destruct l; discriminate E|].
  change (strip_cr (String c (String b s))) with (String c (strip_cr (String b s))).
  now rewrite IH.
Qed.

Lemma StatusText_plain (status : Z) (c : ascii) :
  In c [CR; LF; ":"%char] -> no_char c (StatusText status) = true.
Proof.
  intros Hc. unfold StatusText.
  cbn in Hc. destruct Hc as [<- | [<- | [<- | []]]];
    split_goal_ifs; reflexivity.
Qed.

Lemma status_line_plain (status : Z) (c : ascii) :
  0 <= status -> In c [CR; LF; ":"%char] ->
  no_char c ("HTTP/1.1 " +:+ int_text status +:+ " " +:+ StatusText status) = true.
Proof.
  intros Hs Hc. unfold int_text.
  assert (E : (status <? 0) = false) by (apply Z.ltb_ge; lia). rewrite E.
  assert (Hd : is_digit 10 c = false)
    by (cbn in Hc; destruct Hc as [<- | [<- | [<- | []]]]; reflexivity).
  rewrite !no_char_app.
  rewrite (digits_no_char c (dec status) Hd (dec_digits_only _)).
  rewrite (StatusText_plain status c Hc).
  cbn in Hc. destruct Hc as [<- | [<- | [<- | []]]]; reflexivity.
Qed.

Lemma content_type_line_plain (c : ascii) (ct : string) :
  In c [CR; LF] -> no_char c ct = true ->
  no_char c ("Content-Type: " +:+ ct) = true.
Proof.
  intros Hc Hct. rewrite no_char_app, Hct.
  cbn in Hc. destruct Hc as [<- | [<- | []]]; reflexivity.
Qed.

Lemma content_length_line_no (c : ascii) (n : Z) :
  In c [CR; LF] -> no_char c ("Content-Length: " +:+ dec n) = true.
Proof.
  intros Hc. rewrite no_char_app.
  assert (Hd : is_digit 10 c = false)
    by (cbn in Hc; destruct Hc as [<- | [<- | []]]; reflexivity).
  rewrite (digits_no_char c (dec n) Hd (dec_digits_only _)).
  cbn in Hc. destruct Hc as [<- | [<- | []]]; reflexivity.
Qed.

Lemma lines4 (l1 l2 l3 l4 rest : string) :
  (l1 +:+ CRLF +:+ l2 +:+ CRLF +:+ l3 +:+ CRLF +:+ l4) +:+ rest
  = l1 +:+ CRLF +:+ (l2 +:+ CRLF +:+ (l3 +:+ CRLF +:+ (l4 +:+ rest))).
Proof. now rewrite !append_assoc. Qed.

Lemma ResponseHead_split (status : Z) (ct body : string) (n : Z) :
  0 <= status -> no_char CR ct = true ->
  split_at_sub CRLFCRLF (ResponseHead status ct n +:+ CRLF +:+ CRLF +:+ body)
  = Some (ResponseHead status ct n, body).
Proof.
  intros Hs Hct. unfold ResponseHead.
  rewrite (lines4 _ _ _ "Connection: close").
  rewrite split_at_sub_next_line;
    [| apply status_line_plain; [exact Hs | cbn; tauto]
     | eexists _, _; split; [reflexivity | discriminate] ].
  rewrite split_at_sub_next_line;
    [| apply content_type_line_plain; [cbn; tauto | exact Hct]
     | eexists _, _; split; [reflexivity | discriminate] ].
  rewrite split_at_sub_next_line;
    [| apply content_length_line_no; cbn; tauto
     | eexists _, _; split; [reflexivity | discriminate] ].
  change ("Connection: close" +:+ CRLF +:+ CRLF +:+ body)
    with ("Connection: close" +:+ CRLFCRLF +:+ body).
  rewrite split_at_terminator by reflexivity.
  now rewrite !append_assoc.
Qed.

Lemma ResponseHead_declared (status : Z) (ct : string) (n : Z) :
  0 <= status -> 0 <= n <= ULLONG_MAX ->
  no_char LF ct = true ->
  declared_length (ResponseHead status ct n) = n.
Proof.
  intros Hs Hn Hct. unfold declared_length, ResponseHead.
  rewrite getlines_crlf by (apply status_line_plain; [exact Hs | cbn; tauto]).
  rewrite getlines_crlf by (apply content_type_line_plain; [cbn; tauto | exact Hct]).
  rewrite getlines_crlf by (apply content_length_line_no; cbn; tauto).
  cbn [find_content_length]. rewrite !strip_cr_snoc.
  rewrite (split_first_no_char ":" _ (status_line_plain status ":" Hs
                                        ltac:(cbn; tauto))).
  change (split_first ":" ("Content-Type: " +:+ ct))
    with (Some ("Content-Type", String " " ct)).
  change (String.eqb (ToLowerAscii "Content-Type") "content-length") with false.
  cbv iota.
  change (split_first ":" ("Content-Length: " +:+ dec n))
    with (Some ("Content-Length", String " " (dec n))).
  change (String.eqb (ToLowerAscii "Content-Length") "content-length") with true.
  cbv iota. now apply strtoull_space_dec.
Qed.

(** X28. A response is framed the way the bridge itself reads requests:
    in the bytes [SendHttpResponse] builds, the first blank line is the
    end of the four header lines, the body follows it untouched, and the
    [Content-Length] line, read as [ReadHttpRequest] reads one, gives the
    length of the body. *)
Theorem X28_response_is_well_framed (status : Z) (ct body : string) :
  0 <= status ->
  no_char CR ct = true -> no_char LF ct = true ->
  str_size body <= ULLONG_MAX ->
  split_at_sub CRLFCRLF (ResponseText status ct body)
    = Some (ResponseHead status ct (str_size body), body) /\
  declared_length (ResponseHead status ct (str_size body)) = str_size body.
Proof.
  intros Hs Hcr Hlf Hb. split.
  - unfold ResponseText. now apply ResponseHead_split.
  - apply ResponseHead_declared; try assumption.
    split; [apply str_size_nonneg | exact Hb].
Qed.

(** ** The further properties at concrete inputs *)

Lemma X1_witness :
  INT32_MIN <= -42 <= INT32_MAX /\ ParseIntDefault "-42" 7 = -42.
Proof.
  assert (H : INT32_MIN <= -42 <= INT32_MAX)
    by (unfold INT32_MIN, INT32_MAX; lia).
  split; [exact H | exact (X1_ParseIntDefault_reads_int_text (-42) 7 H)].
Defined.

Lemma X2_witness : ParseIntDefault "12x" 7 = 7.
Proof.
  exact (X2_ParseIntDefault_rejects_trailing_text "12" "x" 7 eq_refl eq_refl).
Defined.

Lemma X4_witness :
  dq_literal_ok (JsonEscape (String DQ (String LF "x"))) = true.
Proof.
  exact (proj2 X4_JsonEscape_injective_and_closed (String DQ (String LF "x"))).
Defined.


Lemma X6_witness : UrlDecode "http://x/%41" = "http://x/A".
Proof.
  exact (X6_UrlDecode_plain_prefix "http://x/" "%41" eq_refl).
Defined.

Lemma X9_witness :
  ParseUrlEncoded "k=1&k=2" !! "k" = Some "2" /\
  ParseUrlEncoded "k=1&k" !! "k" = Some "".
Proof.
  refine (X9_ParseUrlEncoded_last_pair_wins "k=1" "k" "2" _ eq_refl eq_refl eq_refl).
  discriminate.
Defined.

Lemma X10_witness :
  "127.0.0.1" <> "" /\ 1 <= 37820 <= 65535.
Proof.
  destruct (X10_ParseBindAddr_sound "127.0.0.1:37820" "127.0.0.1" 37820 eq_refl)
    as (Hh & Hp & _).
  split; [exact Hh | exact Hp].
Defined.

Lemma X11_witness : ParseBindAddr "::1:8080" = Some ("::1", 8080).
Proof.
  refine (X11_ParseBindAddr_reads_host_port "::1" 8080 _ _);
    [discriminate | lia].
Defined.

Lemma X12_witness :
  ToLowerAscii "get" = "get" /\ no_char "?" "/open" = true.
Proof.
  destruct (X12_ParseHttpRequest_sound (open_text "x")
              (mkReq "get" "/open" (<["url" := UrlDecode "x"]> ∅) ∅ ∅ "")
              (open_text_parses "x" eq_refl eq_refl))
    as (_ & Hm & Hp & _).
  split; [exact Hm | exact Hp].
Defined.

Lemma X13_witness :
  ParseHttpRequest (request_text "GET" "/status" "HTTP/1.1" "")
  = Some (mkReq "get" "/status" ∅ ∅ ∅ "").
Proof.
  refine (X13_ParseHttpRequest_request_line "GET" "/status" "HTTP/1.1" ""
            _ _ _ eq_refl eq_refl eq_refl); discriminate.
Defined.

Lemma X14_witness :
  posted_of (ServeConnection (main_state Args_default)
               (Some (open_text "http://x")) true)
  = Some (OpenUrlTask "http://x") /\
  resp_body (resp_of (ServeConnection (main_state Args_default)
                        (Some (open_text "http://x")) true))
  = "{" +:+ String "034" "ok" +:+ String "034" ":true," +:+
    String "034" "queued" +:+ String "034" ":" +:+
    String "034" "open" +:+ String "034" "," +:+
    String "034" "url" +:+ String "034" ":" +:+
    String "034" "http://x" +:+ String "034" "}".
Proof.
  assert (Hne : UrlDecode "http://x" <> "") by (vm_compute; discriminate).
  split.
  - exact (proj1 (X14_open_from_wire (main_state Args_default) "http://x" true
                    eq_refl eq_refl Hne)).
  - exact (proj2 (proj2 (proj1 (proj2 (proj2
             (X14_open_from_wire (main_state Args_default) "http://x" true
                eq_refl eq_refl Hne))) eq_refl)) eq_refl).
Defined.

Lemma X15_witness :
  In (status (resp_of (ServeConnection (main_state Args_default) None true)))
     [200; 400; 404; 500; 503].
Proof.
  exact (proj1 (X15_connection_answers (main_state Args_default) None true)).
Defined.

Lemma X16_witness :
  status (resp_of (HandleRequest (main_state Args_default)
                     unknown_path_request true)) = 404.
Proof.
  apply (proj1 (X16_not_found_iff_unknown_path (main_state Args_default)
                  unknown_path_request true)).
  cbn. intuition discriminate.
Defined.

Lemma X17_witness :
  status (resp_of (HandleRequest (main_state Args_default)
                     click_request_no_xy true)) = 400 /\
  input_requests (state_of (HandleRequest (main_state Args_default)
                              click_request_no_xy true)) = 1.
Proof.
  assert (Hty : ToLowerAscii (GetParam click_request_no_xy "type") = "click")
    by (vm_compute; reflexivity).
  assert (Habs : absent click_request_no_xy "x") by (split; reflexivity).
  split.
  - exact (proj1 (proj2 (proj2 (proj2
             (X17_click_needs_coordinates (main_state Args_default)
                click_request_no_xy true eq_refl Hty))))
             (or_introl Habs)).
  - exact (proj1 (X17_click_needs_coordinates (main_state Args_default)
                    click_request_no_xy true eq_refl Hty)).
Defined.

(** [x=12px] is refused, [x=12&y=5] is posted as a click at (12, 5). *)
Example click_requests :
  status (resp_of (HandleRequest (main_state Args_default)
                     click_request_bad_x true)) = 400 /\
  posted_of (HandleRequest (main_state Args_default) click_request_12_5 true)
  = Some (NativeInputTask MouseClick 12 5 0).
Proof. split; reflexivity. Qed.

Lemma X18_witness :
  posted_of (HandleRequest (main_state Args_default) back_request true)
  = Some (EvalTask "(()=>{history.back();})();").
Proof.
  assert (Hin : In (ToLowerAscii (GetParam back_request "type")) script_types)
    by (vm_compute; tauto).
  exact (proj1 (proj1 (proj2 (X18_input_scripts (main_state Args_default)
                                back_request true)) eq_refl Hin)).
Defined.

Lemma X19_witness :
  HandleFrame (OnPaint (main_state Args_default) PET_VIEW
                 (Some (mem_of_list (list_ascii_of_string "BGRAbgra"))) 2 1)
  = mkResp 200 "image/x-portable-pixmap"
      (String "P" (String "6" (String "010"
         (String "2" (String " " (String "1" (String "010"
            (String "2" (String "5" (String "5" (String "010"
               "RGBrgb"))))))))))).
Proof.
  refine (X19_paint_then_frame (main_state Args_default)
            (mem_of_list (list_ascii_of_string "BGRAbgra")) 2 1 _ _);
    unfold INT32_MAX; lia.
Defined.

Lemma world_after_post_reachable : reachable world_after_post.
Proof. repeat (apply reach_step; [|exact I]). apply reach_init. Defined.

Lemma X20_witness :
  Forall task_ok
    [OpenUrlTask "http://x"; NativeInputTask MouseScroll 512 320 120].
Proof.
  exact (X20_queued_tasks_well_formed world_after_post world_after_post_reachable).
Defined.

Lemma X21_witness :
  last_error (shared world_after_rejected_post) = "" \/
  In "open failed: CefPostTask error" known_errors.
Proof.
  refine (X21_last_error_is_known world_after_rejected_post _).
  apply reach_step; [apply reach_init | exact I].
Defined.

Lemma X22_witness :
  exists u q,
    EvRunTask true = EvRunTask true /\
    ui_queue (run (init_world []) [EvRequest open_request true])
      = OpenUrlTask u :: q /\
    u <> "" /\ opened_by [EvRequest open_request true] u /\
    current_url
      (shared (step (run (init_world []) [EvRequest open_request true])
                 (EvRunTask true))) = u.
Proof.
  refine (proj2 (X22_current_url_never_emptied [] [EvRequest open_request true])
            (EvRunTask true) _).
  vm_compute. discriminate.
Defined.

(** [/open?url=http://x] accepted and run: the status shows that URL. *)
Example open_then_run_sets_url :
  current_url (shared (run (init_world []) trace_open_and_run)) = "http://x".
Proof. reflexivity. Qed.

Lemma X23_witness :
  frame_seq (shared (run (init_world []) trace_no_paint)) = 0 /\
  frame_bgra (shared (run (init_world []) trace_no_paint)) = [] /\
  frame_width (shared (run (init_world []) trace_no_paint)) = 1024 /\
  frame_height (shared (run (init_world []) trace_no_paint)) = 640.
Proof.
  destruct (X23_frame_fields_before_first_paint [] trace_no_paint eq_refl)
    as (H1 & H2 & H3 & H4 & _).
  repeat split; assumption.
Defined.

Lemma X25_witness :
  ReadHttpRequest ["a"; "b"] = Some "ab" /\
  "ab" <> "" /\ str_size "ab" < kMaxReq + 4096.
Proof.
  assert (Hr : ReadHttpRequest ["a"; "b"] = Some "ab")
    by (vm_compute; reflexivity).
  assert (Hs : Forall (fun c => str_size c <= 4096) ["a"; "b"])
    by (repeat constructor; vm_compute; discriminate).
  split; [exact Hr|]. split.
  - exact (proj1 (proj1 (proj2
             (X25_ReadHttpRequest_returns_received_chunks ["a"; "b"])) "ab" Hr)).
  - exact (proj2 (proj2
             (X25_ReadHttpRequest_returns_received_chunks ["a"; "b"])) Hs "ab" Hr).
Defined.

Lemma X26_witness :
  ReadHttpRequest (open_x_chunks ++ ["GET /next"]) = Some (open_text "x").
Proof.
  refine (X26_ReadHttpRequest_any_chunking (open_text "x")
            "GET /open?url=x HTTP/1.1" "" open_x_chunks ["GET /next"]
            _ _ _ _ _).
  - vm_compute. reflexivity.
  - vm_compute. reflexivity.
  - vm_compute. discriminate.
  - repeat constructor; discriminate.
  - vm_compute. reflexivity.
Defined.


Lemma X28_witness :
  declared_length (ResponseHead 200 "application/json" 2) = 2.
Proof.
  refine (proj2 (X28_response_is_well_framed 200 "application/json" "{}"
                   _ eq_refl eq_refl _)).
  - lia.
  - vm_compute. discriminate.
Defined.
